(** * Uruguay climate-change backend: alert classification, alert
      specifications, anomaly features and the alert-list cache

    A shallow embedding of the parts of the Python sources that the
    specification talks about:

    - [src/utils/cyoda_client.py]      (module [CyodaAlertClient])
    - [src/models/anomaly_detector.py] (modules [ClimateAnomalyDetector]
      and [TemperatureThresholdDetector])
    - [src/services/alert_service.py]  (module [ClimateAlertService])
    - [backend/api/alert_routes.py]    (module [AlertRoutes], the [/list]
      route; module [Loading], the service and the [/classify] route)
    - [backend/api/ml_routes.py]       (module [Loading], the detector)

    Conventions of the embedding.

    - A Python [float] is an exact rational or NaN ([pyfloat]); the
      infinities are not modelled, and the rounding of binary64 is modelled
      where a result depends on it: in the sums of [priority_score], which
      decide the order of a sort ([floats]), and in the range of [float] on
      an integer.  Decimal literals of the source ([0.9], [35], ...) are
      the rationals they denote.
    - A Python [dict] with string keys is a [gmap string pyval]: Python
      compares dictionaries without regard to insertion order.
    - A pandas DataFrame is a list of named columns ([Pandas.frame]); the
      frames of pandas are rectangular, which the statements assume of
      their inputs ([Pandas.rectangular]).
    - What the code obtains from scikit-learn, from pandas' date handling
      and its handling of columns that are not of floats, from the Gemini
      service and from text formatting is a field of a record
      ([StandardScaler], [IsolationForest], [Pandas.lib],
      [GeminiClimateAnalyst], [text]): the statements hold for every
      behaviour of these functions.
    - A reading of the clock is an argument of the function that reads it.
    - Exceptions are the [Raise] results of [result]; the state that
      outlives a call is threaded through the monad [M].  Output printed to
      the console is not part of the model. *)

From Stdlib Require Import QArith Lqa.
From stdpp Require Import gmap strings list pretty sorting.

Open Scope string_scope.

(** ** Python values *)

Module Py.

(** A float: a real number (here a rational) or NaN. *)
Inductive pyfloat :=
| Real (q : Q)
| NaN.

(** [x > c] and [x < c] on floats: every comparison with NaN is false. *)
Definition gt (x : pyfloat) (c : Q) : bool :=
  match x with
  | Real q => if Qlt_le_dec c q then true else false
  | NaN => false
  end.

Definition lt (x : pyfloat) (c : Q) : bool :=
  match x with
  | Real q => if Qlt_le_dec q c then true else false
  | NaN => false
  end.

(** Unary minus and subtraction; NaN propagates. *)
Definition neg (x : pyfloat) : pyfloat :=
  match x with
  | Real q => Real (- q)
  | NaN => NaN
  end.

Definition sub (x y : pyfloat) : pyfloat :=
  match x, y with
  | Real a, Real b => Real (a - b)
  | _, _ => NaN
  end.

Definition is_nan (x : pyfloat) : bool :=
  match x with
  | NaN => true
  | Real _ => false
  end.

(** JSON-like Python values. *)
#[warnings="-register-all"]
Inductive pyval :=
| PNone
| PBool (b : bool)
| PInt (n : Z)
| PFloat (x : pyfloat)
| PStr (s : string)
| PList (l : list pyval)
| PDict (d : gmap string pyval).

Abbreviation pydict := (gmap string pyval).

(** Truth value of an object, as tested by [if x:]. *)
Definition truthy (v : pyval) : bool :=
  match v with
  | PNone => false
  | PBool b => b
  | PInt n => negb (n =? 0)%Z
  | PFloat (Real q) => negb (Qeq_bool q 0)
  | PFloat NaN => true
  | PStr s => negb (s =? EmptyString)
  | PList l => negb (Nat.eqb (length l) 0)
  | PDict d => negb (Nat.eqb (size d) 0)
  end.

(** An [Optional[str]] argument as a value. *)
Definition of_opt_str (o : option string) : pyval :=
  match o with
  | Some s => PStr s
  | None => PNone
  end.

(** Exceptions and results of calls that may raise. *)
Inductive exn :=
| ValueError (msg : string)
| KeyError (key : string)
| TypeError
| AttributeError
| DataError
| OverflowError
| LibraryError.

Inductive result (A : Type) :=
| Ok (a : A)
| Raise (e : exn).
Arguments Ok {A} a.
Arguments Raise {A} e.

#[export] Instance result_ret : MRet result := fun A a => Ok a.
#[export] Instance result_bind : MBind result := fun A B k r =>
  match r with
  | Ok a => k a
  | Raise e => Raise e
  end.

(** [l.append(x)] *)
Definition append {A} (l : list A) (x : A) : list A := (l ++ [x])%list.

Definition of_option {A} (e : exn) (o : option A) : result A :=
  match o with
  | Some a => Ok a
  | None => Raise e
  end.

End Py.
Import Py.

(** ** Program state

    The state that outlives a call: the entities stored by the external
    Cyoda platform, and the function attribute [list_alerts.cached_alerts]
    of the alert-list route ([None] until the route runs for the first
    time).  A computation takes the state, returns normally or raises, and
    leaves a state behind in both cases. *)

Module Program.

Record World := {
  cyoda_entities : list pyval;
  cached_alerts : option (list pyval)
}.

Definition M (A : Type) : Type := World -> result A * World.

#[export] Instance M_ret : MRet M := fun A a w => (Ok a, w).
#[export] Instance M_bind : MBind M := fun A B k m w =>
  match m w with
  | (Ok a, w') => k a w'
  | (Raise e, w') => (Raise e, w')
  end.

Definition raise {A} (e : exn) : M A := fun w => (Raise e, w).

Definition lift {A} (r : result A) : M A := fun w => (r, w).

Definition get_cached_alerts : M (option (list pyval)) :=
  fun w => (Ok (cached_alerts w), w).

Definition set_cached_alerts (l : list pyval) : M unit :=
  fun w => (Ok tt, {| cyoda_entities := cyoda_entities w;
                      cached_alerts := Some l |}).

End Program.
Import Program.

(** ** src/utils/cyoda_client.py *)

Module CyodaAlertClient.

(** The client object: [__init__] sets no instance attribute, so an object
    carries the two class attributes only. *)
Record t := {
  ENTITY_MODEL : string;
  ENTITY_VERSION : string
}.

Definition new : t :=
  {| ENTITY_MODEL := "climate_alert"; ENTITY_VERSION := "1" |}.

(** [create_alert]; [now] is the string that
    [datetime.utcnow().isoformat()] evaluates to during the call. *)
Definition create_alert (self : t) (now : string)
    (alert_type severity : string) (value : pyfloat) (date : string)
    (anomaly_score : pyfloat) (location metric : string)
    (description ai_analysis recommendations : pyval) : M pydict :=
  let entity_data : pydict :=
    list_to_map [
      ("alert_type", PStr alert_type);
      ("severity", PStr severity);
      ("value", PFloat value);
      ("date", PStr date);
      ("anomaly_score", PFloat anomaly_score);
      ("location", PStr location);
      ("metric", PStr metric);
      ("status", PStr "active");
      ("created_at", PStr now);
      ("acknowledged", PBool false);
      ("resolved", PBool false)
    ] in
  let entity_data :=
    if truthy description
    then <["description" := description]> entity_data else entity_data in
  let entity_data :=
    if truthy ai_analysis
    then <["ai_analysis" := ai_analysis]> entity_data else entity_data in
  let entity_data :=
    if truthy recommendations
    then <["recommendations" := recommendations]> entity_data
    else entity_data in
  mret (list_to_map [
    ("entity_model", PStr (ENTITY_MODEL self));
    ("entity_version", PStr (ENTITY_VERSION self));
    ("entity_data", PDict entity_data)
  ]).

(** [list_all_alerts] *)
Definition list_all_alerts (self : t) : pydict :=
  list_to_map [
    ("entity_model", PStr (ENTITY_MODEL self));
    ("entity_version", PStr (ENTITY_VERSION self))
  ].

(** One entry of [conditions] in [search_alerts]. *)
Definition simple_condition (jsonPath operatorType : string) (value : pyval)
  : pydict :=
  list_to_map [
    ("type", PStr "simple");
    ("jsonPath", PStr jsonPath);
    ("operatorType", PStr operatorType);
    ("value", value)
  ].

(** [search_alerts]: [conditions] grows by [append]; an absent argument is
    [None]. *)
Definition search_alerts (self : t)
    (status severity alert_type : option string)
    (min_anomaly_score : option pyfloat)
    (date_from date_to : option string) : pydict :=
  let conditions : list pydict := [] in
  let conditions :=
    if truthy (of_opt_str status)
    then append conditions
           (simple_condition "$.status" "EQUALS" (of_opt_str status))
    else conditions in
  let conditions :=
    if truthy (of_opt_str severity)
    then append conditions
           (simple_condition "$.severity" "EQUALS" (of_opt_str severity))
    else conditions in
  let conditions :=
    if truthy (of_opt_str alert_type)
    then append conditions
           (simple_condition "$.alert_type" "EQUALS" (of_opt_str alert_type))
    else conditions in
  let conditions :=
    match min_anomaly_score with
    | Some x =>
        append conditions
           (simple_condition "$.anomaly_score" "GREATER_THAN" (PFloat x))
    | None => conditions
    end in
  let conditions :=
    if truthy (of_opt_str date_from)
    then append conditions
           (simple_condition "$.date" "GREATER_THAN" (of_opt_str date_from))
    else conditions in
  let conditions :=
    if truthy (of_opt_str date_to)
    then append conditions
           (simple_condition "$.date" "LESS_THAN" (of_opt_str date_to))
    else conditions in
  let search_conditions : pydict :=
    match conditions with
    | [] => ∅
    | [c] => c
    | _ =>
        list_to_map [
          ("type", PStr "group");
          ("operator", PStr "AND");
          ("conditions", PList (PDict <$> conditions))
        ]
    end in
  list_to_map [
    ("entity_model", PStr (ENTITY_MODEL self));
    ("entity_version", PStr (ENTITY_VERSION self));
    ("search_conditions", PDict search_conditions)
  ].

(** [classify_severity(anomaly_score, value, metric)] *)
Definition classify_severity (anomaly_score value : pyfloat) (metric : string)
  : string :=
  if metric =? "temperature" then
    if gt anomaly_score 0.9 || gt value 40 || lt value (-10) then "critical"
    else if gt anomaly_score 0.7 || gt value 35 || lt value (-5) then "high"
    else if gt anomaly_score 0.5 then "medium"
    else "low"
  else if metric =? "precipitation" then
    if gt anomaly_score 0.9 || gt value 100 then "critical"
    else if gt anomaly_score 0.7 || gt value 50 then "high"
    else if gt anomaly_score 0.5 then "medium"
    else "low"
  else
    if gt anomaly_score 0.85 then "critical"
    else if gt anomaly_score 0.7 then "high"
    else if gt anomaly_score 0.5 then "medium"
    else "low".

(** [determine_alert_type(value, metric, seasonal_context=None)]; the third
    argument is never read. *)
Definition determine_alert_type (value : pyfloat) (metric : string)
    (seasonal_context : pyval) : string :=
  if metric =? "temperature" then
    if gt value 35 then "heat_wave"
    else if lt value 0 then "freeze_event"
    else if lt value 5 then "cold_snap"
    else "temperature_anomaly"
  else if metric =? "precipitation" then
    if gt value 50 then "extreme_precipitation"
    else if lt value 0.1 then "drought_indicator"
    else "precipitation_anomaly"
  else "climate_anomaly".

(** [get_alert] and [delete_alert] *)
Definition get_alert (self : t) (alert_id : string) : pydict :=
  list_to_map [
    ("entity_model", PStr (ENTITY_MODEL self));
    ("entity_id", PStr alert_id);
    ("entity_version", PStr (ENTITY_VERSION self))
  ].

Definition delete_alert (self : t) (alert_id : string) : pydict :=
  list_to_map [
    ("entity_model", PStr (ENTITY_MODEL self));
    ("entity_id", PStr alert_id);
    ("entity_version", PStr (ENTITY_VERSION self))
  ].

(** [update_alert_status].  The route hands over what the request holds, so
    the arguments other than the identifier are values of any kind.  The
    clock is read for [updated_at] ([now]) and once more ([now']) by the
    one of the two conditional statements that runs. *)
Definition update_alert_status (self : t) (now now' : string)
    (alert_id : string) (status acknowledged resolved resolution_notes : pyval)
  : pydict :=
  let entity_data : pydict :=
    list_to_map [
      ("status", status);
      ("acknowledged", acknowledged);
      ("resolved", resolved);
      ("updated_at", PStr now)
    ] in
  let entity_data :=
    if truthy resolved
    then <["resolved_at" := PStr now']> entity_data else entity_data in
  let entity_data :=
    if truthy acknowledged && negb (truthy resolved)
    then <["acknowledged_at" := PStr now']> entity_data else entity_data in
  let entity_data :=
    if truthy resolution_notes
    then <["resolution_notes" := resolution_notes]> entity_data
    else entity_data in
  list_to_map [
    ("entity_model", PStr (ENTITY_MODEL self));
    ("entity_id", PStr alert_id);
    ("entity_version", PStr (ENTITY_VERSION self));
    ("entity_data", PDict entity_data)
  ].

End CyodaAlertClient.

(** ** backend/api/alert_routes.py: the [/list] route *)

Module AlertRoutes.

(** The request as the handler sees it: its method and, for a POST, the
    value of [request.get_json()]. *)
Inductive request :=
| GET
| POST (data : pyval).

Record response := {
  body : pydict;
  status_code : Z
}.

Definition jsonify (d : pydict) : response :=
  {| body := d; status_code := 200 |}.

(** The module-level client. *)
Definition cyoda_client : CyodaAlertClient.t := CyodaAlertClient.new.

(** [key in v] for a string [key]. *)
Definition contains (key : string) (v : pyval) : result bool :=
  match v with
  | PDict d => Ok (bool_decide (is_Some (d !! key)))
  | PList l =>
      Ok (existsb (fun e => match e with PStr s => s =? key | _ => false end) l)
  | PStr s => Ok (bool_decide (is_Some (String.index 0 key s)))
  | _ => Raise TypeError
  end.

(** [v[key]] for a string [key]. *)
Definition getitem (v : pyval) (key : string) : result pyval :=
  match v with
  | PDict d => of_option (KeyError key) (d !! key)
  | _ => Raise TypeError
  end.

(** The elements that [for entity in v] visits: the items of a list, the
    keys of a dictionary (in the order of the map, every key being a
    string), the characters of a string. *)
Definition iterate (v : pyval) : result (list pyval) :=
  match v with
  | PList l => Ok l
  | PDict d => Ok (PStr <$> (map_to_list d).*1)
  | PStr s => Ok ((fun c => PStr (String c EmptyString)) <$> String.list_ascii_of_string s)
  | _ => Raise TypeError
  end.

(** The body of the loop over [data['alerts']]: [Some alert] is appended,
    [None] means that the entity is skipped. *)
Definition normalize_entity (entity : pyval) : result (option pyval) :=
  match entity with
  | PDict e =>
      (* 'data' in entity and entity.get('data', {}).get('type') == 'ENTITY' *)
      wrapper ←
        match e !! "data" with
        | None => Ok false
        | Some (PDict inner) =>
            Ok (match inner !! "type" with
                | Some (PStr ty) => ty =? "ENTITY"
                | _ => false
                end)
        | Some _ => Raise AttributeError
        end;
      if (wrapper : bool) then
        inner ← getitem entity "data";
        entity_data ← getitem inner "data";
        inner ← getitem entity "data";
        entity_meta ← getitem inner "meta";
        technical_id ← getitem entity_meta "id";
        match entity_data with
        | PDict fields =>
            (* {'technical_id': ..., **entity_data}: the later keys win *)
            Ok (Some (PDict (fields ∪ {[ "technical_id" := technical_id ]})))
        | _ => Raise TypeError
        end
      else Ok (Some entity)
  | _ => Ok None
  end.

Fixpoint normalize_alerts (entities : list pyval) (alerts : list pyval)
  : result (list pyval) :=
  match entities with
  | [] => Ok alerts
  | entity :: rest =>
      alert ← normalize_entity entity;
      normalize_alerts rest
        match alert with
        | Some a => append alerts a
        | None => alerts
        end
  end.

(** The part of [list_alerts] after the POST branch. *)
Definition return_cached : M response :=
  cache ← get_cached_alerts;
  let cached := default [] cache in
  if truthy (PList cached) then
    mret (jsonify (list_to_map [
      ("success", PBool true);
      ("alerts", PList cached);
      ("count", PInt (Z.of_nat (length cached)));
      ("cached", PBool true)
    ]))
  else
    (* list_all_alerts raises nothing: the handler of the source stays
       unused *)
    let list_spec := CyodaAlertClient.list_all_alerts cyoda_client in
    mret (jsonify (list_to_map [
      ("success", PBool true);
      ("mcp_spec", PDict list_spec);
      ("message", PStr "No cached alerts. Execute MCP tool and POST results to /api/alerts/list");
      ("alerts", PList []);
      ("cached", PBool false)
    ])).

(** [list_alerts()]; an exception that leaves the handler is a 500 answer of
    the framework. *)
Definition list_alerts (req : request) : M response :=
  cache ← get_cached_alerts;
  (if cache is None then set_cached_alerts [] else mret tt);;
  match req with
  | POST data =>
      has_alerts ← lift (if truthy data then contains "alerts" data
                         else Ok false);
      if (has_alerts : bool) then
        field ← lift (getitem data "alerts");
        entities ← lift (iterate field);
        alerts ← lift (normalize_alerts entities []);
        set_cached_alerts alerts;;
        mret (jsonify (list_to_map [
          ("success", PBool true);
          ("message", PStr ("Cached " +:+ pretty (length alerts) +:+ " alerts"));
          ("count", PInt (Z.of_nat (length alerts)))
        ]))
      else return_cached
  | GET => return_cached
  end.

End AlertRoutes.

(** ** The fragment of pandas that the detector uses *)

Module Pandas.

(** A [Timestamp] is a number of nanoseconds since the epoch. *)
Definition Timestamp : Type := Z.

(** A cell of a DataFrame: a number, a string, a timestamp ([None] is NaT)
    or a boolean. *)
Inductive cell :=
| Num (x : pyfloat)
| Str (s : string)
| Ts (t : option Timestamp)
| Bool (b : bool).

(** Named columns, in the order in which they were added. *)
Definition frame (A : Type) : Type := list (string * list A).
Definition DataFrame : Type := frame cell.

(** The library functions that the code calls and that stay abstract:
    the element-wise conversion of [pd.to_datetime] (which may raise), the
    calendar accessors, [Timestamp.isoformat] and the square root taken by
    [Rolling.std]; and what pandas does with a column that is not a column
    of floats (booleans, strings, timestamps or a mixture): the float that
    [Rolling] reads a cell as, or the exception that it raises, and the
    result of [Series.diff]. *)
Record lib := {
  to_datetime1 : cell -> result (option Timestamp);
  dayofyear : Timestamp -> Z;
  month : Timestamp -> Z;
  isoformat : Timestamp -> string;
  sqrt : Q -> Q;
  to_float64 : cell -> result pyfloat;
  diff_object : list cell -> result (list pyfloat)
}.

(** [name in df.columns], [df[name]] and [df[name] = col] for a column
    [col] that is aligned with the frame. *)
Fixpoint get {A} (df : frame A) (name : string) : option (list A) :=
  match df with
  | [] => None
  | (n, c) :: df' => if n =? name then Some c else get df' name
  end.

Fixpoint set {A} (df : frame A) (name : string) (col : list A) : frame A :=
  match df with
  | [] => [(name, col)]
  | (n, c) :: df' =>
      if n =? name then (n, col) :: df' else (n, c) :: set df' name col
  end.

Definition columns {A} (df : frame A) : list string := df.*1.

Definition nrows {A} (df : frame A) : nat :=
  match df with
  | [] => 0
  | (_, c) :: _ => length c
  end.

(** All columns have the length of the index. *)
Definition rectangular {A} (df : frame A) : Prop :=
  Forall (fun nc => length nc.2 = nrows df) df.

(** [df[name] = col] for an array [col]: on a frame that has columns the
    length of the array must be the number of rows. *)
Definition setitem {A} (df : frame A) (name : string) (col : list A)
  : result (frame A) :=
  if bool_decide (df = [] \/ length col = nrows df)
  then Ok (set df name col)
  else Raise (ValueError "Length of values does not match length of index").

(** A column of floats: every cell is a number. *)
Definition as_numeric (col : list cell) : option (list pyfloat) :=
  mapM (fun c => match c with
                 | Num x => Some x
                 | _ => None
                 end) col.

(** A column as [Rolling] reads it, and as the feature matrix holds it. *)
Definition as_float64 (pd : lib) (col : list cell) : result (list pyfloat) :=
  mapM (fun c => match c with
                 | Num x => Ok x
                 | _ => to_float64 pd c
                 end) col.

(** The [w] observations that end at position [i], when there are [w] of
    them and none is NaN ([min_periods] defaults to the window). *)
Definition window_at (w i : nat) (xs : list pyfloat) : option (list Q) :=
  if (i + 1 <? w)%nat then None
  else mapM (fun x => match x with Real q => Some q | NaN => None end)
            (take w (drop (i + 1 - w) xs)).

Definition rolling (w : nat) (agg : list Q -> pyfloat) (xs : list pyfloat)
  : list pyfloat :=
  (fun i => match window_at w i xs with
            | Some obs => agg obs
            | None => NaN
            end) <$> seq 0 (length xs).

Definition Qsum (qs : list Q) : Q := foldr Qplus 0%Q qs.

Definition mean (qs : list Q) : pyfloat :=
  Real (Qsum qs / inject_Z (Z.of_nat (length qs))).

(** Sample standard deviation ([ddof = 1]). *)
Definition std (pd : lib) (qs : list Q) : pyfloat :=
  if (length qs <=? 1)%nat then NaN
  else
    let m := (Qsum qs / inject_Z (Z.of_nat (length qs)))%Q in
    Real (sqrt pd (Qsum ((fun q => (q - m) * (q - m))%Q <$> qs)
                   / inject_Z (Z.of_nat (length qs - 1)))).

(** [Series.diff()] *)
Definition diff (xs : list pyfloat) : list pyfloat :=
  match xs with
  | [] => []
  | _ :: tl => NaN :: zip_with sub tl xs
  end.

(** [bfill], [ffill] and [fillna] on one column. *)
Fixpoint bfill (xs : list pyfloat) : list pyfloat :=
  match xs with
  | [] => []
  | x :: rest =>
      let rest' := bfill rest in
      (if is_nan x then hd NaN rest' else x) :: rest'
  end.

Fixpoint ffill_from (prev : pyfloat) (xs : list pyfloat) : list pyfloat :=
  match xs with
  | [] => []
  | x :: rest =>
      let y := if is_nan x then prev else x in
      y :: ffill_from y rest
  end.

Definition ffill (xs : list pyfloat) : list pyfloat := ffill_from NaN xs.

Definition fillna (v : Q) (xs : list pyfloat) : list pyfloat :=
  (fun x => if is_nan x then Real v else x) <$> xs.

(** A column operation applied to every column of a frame. *)
Definition each_column {A B} (f : list A -> list B) (df : frame A) : frame B :=
  (fun nc => (nc.1, f nc.2)) <$> df.

(** [Series.dt.<field>] on a converted column. *)
Definition dt (field : Timestamp -> Z) (ts : list (option Timestamp))
  : list pyfloat :=
  (fun t => match t with
            | Some t => Real (inject_Z (field t))
            | None => NaN
            end) <$> ts.

(** [df[mask]]: the rows at which [mask] holds. *)
Fixpoint select {A} (mask : list bool) (xs : list A) : list A :=
  match mask, xs with
  | b :: mask', x :: xs' => if b then x :: select mask' xs' else select mask' xs'
  | _, _ => []
  end.

Definition boolean_index {A} (df : frame A) (mask : list bool) : frame A :=
  each_column (select mask) df.

(** A row, and [df.iterrows()]. *)
Definition row (A : Type) : Type := list (string * A).

Definition row_at {A} (df : frame A) (i : nat) : row A :=
  omap (fun nc => (fun x => (nc.1, x)) <$> nc.2 !! i) df.

Definition iterrows {A} (df : frame A) : list (row A) :=
  row_at df <$> seq 0 (nrows df).

Fixpoint row_get {A} (r : row A) (name : string) : option A :=
  match r with
  | [] => None
  | (n, x) :: r' => if n =? name then Some x else row_get r' name
  end.

End Pandas.

(** ** src/models/anomaly_detector.py *)

Module ClimateAnomalyDetector.
Import Pandas.

(** The array that the scaler hands to the model. *)
Definition ndarray : Type := list (list Q).

(** The two scikit-learn objects, by what their methods return. *)
Record StandardScaler := {
  transform : frame pyfloat -> result ndarray
}.

Record IsolationForest := {
  predict : ndarray -> result (list Z);
  score_samples : ndarray -> result (list Q)
}.

Record t := {
  model : IsolationForest;
  scaler : StandardScaler;
  fitted : bool
}.

(** [prepare_features(df, value_column)].  The assignment to [df['date']]
    changes the caller's frame, so the frame is returned with the
    features.  The matrix holds the value column as floats; reading a
    column that is not of floats is left to the library, and the first
    rolling window is where such a column is first read. *)
Definition prepare_features (pd : lib) (df : DataFrame) (value_column : string)
  : result (frame pyfloat * DataFrame) :=
  let features : frame pyfloat := [] in
  col ← of_option (KeyError value_column) (get df value_column);
  values ← as_float64 pd col;
  let features := set features "value" values in
  let features :=
    foldl (fun features window =>
             let features :=
               set features ("rolling_mean_" +:+ pretty window)
                   (rolling window mean values) in
             set features ("rolling_std_" +:+ pretty window)
                 (rolling window (std pd) values))
          features [7%nat; 14%nat; 30%nat] in
  daily_change ←
    match as_numeric col with
    | Some values => Ok (diff values)
    | None => diff_object pd col
    end;
  let features := set features "daily_change" daily_change in
  '(features, df) ←
    match get df "date" with
    | Some dates =>
        ts ← mapM (to_datetime1 pd) dates;
        let df := set df "date" (Ts <$> ts) in
        let features := set features "day_of_year" (dt (dayofyear pd) ts) in
        let features := set features "month" (dt (month pd) ts) in
        Ok (features, df)
    | None => Ok (features, df)
    end;
  let features := each_column ffill (each_column bfill features) in
  let features := each_column (fillna 0) features in
  Ok (features, df).

(** [detect(df, value_column)]: the result frame, and the caller's frame
    as the call leaves it (of which a call that raises tells nothing). *)
Definition detect (pd : lib) (self : t) (df : DataFrame) (value_column : string)
  : result (DataFrame * DataFrame) :=
  if negb (fitted self) then Raise (ValueError "Model not trained yet!")
  else
    '(X, df) ← prepare_features pd df value_column;
    X_scaled ← transform (scaler self) X;
    predictions ← predict (model self) X_scaled;
    scores ← score_samples (model self) X_scaled;
    let result_df := df in
    result_df ←
      setitem result_df "is_anomaly"
              ((fun p => Bool (p =? -1)%Z) <$> predictions);
    result_df ←
      setitem result_df "anomaly_score"
              ((fun s => Num (neg (Real s))) <$> scores);
    Ok (result_df, df).

(** The constructors of the two scikit-learn classes, which only record
    their arguments, and [joblib.load], which returns the object stored in
    a file or raises. *)
Record sklearn := {
  IsolationForest_new : Q -> Z -> Z -> IsolationForest;
  StandardScaler_new : StandardScaler
}.

Record joblib := {
  load_forest : string -> result IsolationForest;
  load_scaler : string -> result StandardScaler
}.

(** [ClimateAnomalyDetector(contamination, random_state)] *)
Definition new (sk : sklearn) (contamination : Q) (random_state : Z) : t :=
  {| model := IsolationForest_new sk contamination random_state 100;
     scaler := StandardScaler_new sk;
     fitted := false |}.

(** [load_model(model_path, scaler_path)]: whether the call raised, and the
    detector as the call leaves it. *)
Definition load_model (jl : joblib) (self : t) (model_path scaler_path : string)
  : result unit * t :=
  match load_forest jl model_path with
  | Raise e => (Raise e, self)
  | Ok m =>
      let self := {| model := m; scaler := scaler self;
                     fitted := fitted self |} in
      match load_scaler jl scaler_path with
      | Raise e => (Raise e, self)
      | Ok sc =>
          let self := {| model := model self; scaler := sc;
                         fitted := fitted self |} in
          (Ok tt, {| model := model self; scaler := scaler self;
                     fitted := true |})
      end
  end.

End ClimateAnomalyDetector.

(** ** [TemperatureThresholdDetector] of [src/models/anomaly_detector.py] *)

Module TemperatureThresholdDetector.

(** [np.percentile(data, q)] *)
Record numpy := {
  percentile : list pyfloat -> Q -> result pyfloat
}.

Record t := {
  lower_percentile : Q;
  upper_percentile : Q;
  lower_threshold : option pyfloat;
  upper_threshold : option pyfloat
}.

(** [TemperatureThresholdDetector(lower_percentile, upper_percentile)] *)
Definition new (lower_percentile upper_percentile : Q) : t :=
  {| lower_percentile := lower_percentile;
     upper_percentile := upper_percentile;
     lower_threshold := None;
     upper_threshold := None |}.

(** [fit(temperature_data)]: whether the call raised, and the detector as
    the call leaves it. *)
Definition fit (np : numpy) (self : t) (temperature_data : list pyfloat)
  : result unit * t :=
  match percentile np temperature_data (lower_percentile self) with
  | Raise e => (Raise e, self)
  | Ok lo =>
      let self := {| lower_percentile := lower_percentile self;
                     upper_percentile := upper_percentile self;
                     lower_threshold := Some lo;
                     upper_threshold := upper_threshold self |} in
      match percentile np temperature_data (upper_percentile self) with
      | Raise e => (Raise e, self)
      | Ok hi =>
          (Ok tt, {| lower_percentile := lower_percentile self;
                     upper_percentile := upper_percentile self;
                     lower_threshold := lower_threshold self;
                     upper_threshold := Some hi |})
      end
  end.

(** [x < y] on two floats: false when either is NaN. *)
Definition less (x y : pyfloat) : bool :=
  match x, y with
  | Real a, Real b => if Qlt_le_dec a b then true else false
  | _, _ => false
  end.

(** [detect(temperature_data)]; the arrays are lists of booleans. *)
Definition detect (self : t) (temperature_data : list pyfloat)
  : result pydict :=
  match lower_threshold self, upper_threshold self with
  | Some lower, Some upper =>
      let is_cold_anomaly := (fun x => less x lower) <$> temperature_data in
      let is_hot_anomaly := (fun x => less upper x) <$> temperature_data in
      Ok (list_to_map [
        ("is_cold_anomaly", PList (PBool <$> is_cold_anomaly));
        ("is_hot_anomaly", PList (PBool <$> is_hot_anomaly));
        ("is_any_anomaly",
         PList (PBool <$> zip_with orb is_cold_anomaly is_hot_anomaly));
        ("lower_threshold", PFloat lower);
        ("upper_threshold", PFloat upper)
      ])
  | _, _ => Raise (ValueError "Detector not fitted yet!")
  end.

End TemperatureThresholdDetector.

(** ** src/services/alert_service.py *)

Module ClimateAlertService.
Import Pandas.

(** The Gemini client, by what [generate_anomaly_report] returns. *)
Record GeminiClimateAnalyst := {
  generate_anomaly_report : list pydict -> result string
}.

(** Text functions whose results the alert fields only carry along:
    [str.title], the format [{value:.1f}], [float] of a string, and the
    scan of a report for recommendation lines (the loop of
    [_extract_recommendations_from_report]). *)
Record text := {
  title : string -> string;
  format_1f : pyfloat -> string;
  float_of_string : string -> result pyfloat;
  scan_report : string -> list string
}.

Record t := {
  anomaly_detector : option ClimateAnomalyDetector.t;
  gemini_client : option GeminiClimateAnalyst;
  cyoda_client : option CyodaAlertClient.t
}.

(** [_get_default_recommendations] *)
Definition _get_default_recommendations (alert_type severity : string)
  : list string :=
  let recs : list string := [] in
  let recs :=
    if (severity =? "critical") || (severity =? "high")
    then append (append recs "Issue public advisory immediately")
                "Activate emergency response protocols"
    else recs in
  if alert_type =? "heat_wave" then
    (recs ++ [ "Increase water reserves monitoring";
               "Advise vulnerable populations to stay indoors";
               "Monitor energy grid for increased cooling demand" ])%list
  else if alert_type =? "extreme_precipitation" then
    (recs ++ [ "Check drainage systems and flood defenses";
               "Issue flood warnings for low-lying areas";
               "Monitor river levels closely" ])%list
  else if (alert_type =? "cold_snap") || (alert_type =? "freeze_event") then
    (recs ++ [ "Protect sensitive crops and livestock";
               "Monitor heating fuel supplies";
               "Check on vulnerable populations" ])%list
  else if alert_type =? "drought_indicator" then
    (recs ++ [ "Implement water conservation measures";
               "Monitor agricultural impacts";
               "Review water allocation policies" ])%list
  else recs.

(** [_extract_recommendations_from_report] *)
Definition _extract_recommendations_from_report (txt : text)
    (report alert_type severity : string) : list string :=
  let recommendations := scan_report txt report in
  let recommendations :=
    if negb (truthy (PList (PStr <$> recommendations)))
    then _get_default_recommendations alert_type severity
    else recommendations in
  take 5 recommendations.

(** [_generate_basic_description] *)
Definition _generate_basic_description (txt : text)
    (alert_type severity : string) (value : pyfloat) (metric : string)
  : string :=
  let alert_names : gmap string string :=
    list_to_map [
      ("heat_wave", "Heat Wave");
      ("cold_snap", "Cold Snap");
      ("freeze_event", "Freeze Event");
      ("extreme_precipitation", "Extreme Precipitation");
      ("drought_indicator", "Drought Indicator");
      ("temperature_anomaly", "Temperature Anomaly");
      ("precipitation_anomaly", "Precipitation Anomaly");
      ("climate_anomaly", "Climate Anomaly")
    ] in
  let alert_name := default "Climate Alert" (alert_names !! alert_type) in
  let unit := if metric =? "temperature" then "°C" else "mm" in
  title txt severity +:+ " " +:+ alert_name +:+ " detected: "
    +:+ format_1f txt value +:+ unit.

Definition _generate_summary (txt : text)
    (alert_type severity : string) (value : pyfloat) (metric : string)
  : string :=
  _generate_basic_description txt alert_type severity value metric.

(** [_generate_ai_analysis]: every exception of the [try] block is caught
    and answered by the empty dictionary. *)
Definition _generate_ai_analysis (txt : text) (self : t)
    (alert_type severity : string) (value : pyfloat) (metric : string)
    (anomaly_score : pyfloat) (date : string) : pydict :=
  match gemini_client self with
  | None => ∅
  | Some gemini =>
      let anomaly_data : list pydict := [
        list_to_map [
          ("date", PStr date);
          ("value", PFloat value);
          ("anomaly_score", PFloat anomaly_score);
          ("alert_type", PStr alert_type);
          ("severity", PStr severity);
          ("metric", PStr metric)
        ] ] in
      match generate_anomaly_report gemini anomaly_data with
      | Ok report =>
          let recommendations :=
            _extract_recommendations_from_report txt report alert_type severity in
          let summary := _generate_summary txt alert_type severity value metric in
          list_to_map [
            ("analysis", PDict (list_to_map [
               ("full_report", PStr report);
               ("alert_type", PStr alert_type);
               ("severity", PStr severity);
               ("confidence", PFloat anomaly_score)
             ]));
            ("recommendations", PList (PStr <$> recommendations));
            ("summary", PStr summary)
          ]
      | Raise _ => ∅
      end
  end.

(** [float(x)] on a cell. *)
Definition to_float (txt : text) (c : cell) : result pyfloat :=
  match c with
  | Num x => Ok x
  | Bool b => Ok (Real (if b then 1 else 0))
  | Str s => float_of_string txt s
  | Ts _ => Raise TypeError
  end.

(** [results['is_anomaly'] == True], element by element. *)
Definition eq_True (c : cell) : bool :=
  match c with
  | Bool b => b
  | Num (Real q) => Qeq_bool q 1
  | _ => false
  end.

(** [float(row[name])] *)
Definition row_float (txt : text) (r : row cell) (name : string)
  : result pyfloat :=
  c ← of_option (KeyError name) (row_get r name);
  to_float txt c.

(** [date_raw if isinstance(date_raw, str) else date_raw.isoformat()] *)
Definition date_string (pd : lib) (date_raw : cell) : result string :=
  match date_raw with
  | Str s => Ok s
  | Ts (Some t) => Ok (isoformat pd t)
  | Ts None => Ok "NaT"
  | _ => Raise AttributeError
  end.

(** The body of the loop of [detect_and_create_alerts] for the [k]-th
    anomalous row.  [clock] lists the readings of
    [datetime.utcnow().isoformat()]: the body takes two, one for the default
    of [row.get('date', ...)] and one inside [create_alert].  Nothing in the
    [try] block can raise, [_generate_ai_analysis] catching its own
    exceptions, so the handler of the source stays unused. *)
Definition alert_of_row (pd : lib) (txt : text) (self : t)
    (client : CyodaAlertClient.t) (clock : nat -> string)
    (value_column metric : string) (use_ai_analysis : bool)
    (k : nat) (r : row cell) : M pydict :=
  let date_raw := default (Str (clock (2 * k)%nat)) (row_get r "date") in
  date ← lift (date_string pd date_raw);
  value ← lift (row_float txt r value_column);
  anomaly_score ← lift (row_float txt r "anomaly_score");
  let severity :=
    CyodaAlertClient.classify_severity anomaly_score value metric in
  let alert_type :=
    CyodaAlertClient.determine_alert_type value metric PNone in
  let '(description, ai_analysis, recommendations) :=
    if use_ai_analysis && bool_decide (is_Some (gemini_client self)) then
      let ai_analysis :=
        _generate_ai_analysis txt self alert_type severity value metric
                              anomaly_score date in
      (default (PStr EmptyString) (ai_analysis !! "summary"),
       default (PDict ∅) (ai_analysis !! "analysis"),
       default (PList []) (ai_analysis !! "recommendations"))
    else
      (PStr (_generate_basic_description txt alert_type severity value metric),
       PNone, PNone) in
  CyodaAlertClient.create_alert client (clock (2 * k + 1)%nat)
    alert_type severity value date anomaly_score "Uruguay" metric
    description ai_analysis recommendations.

Fixpoint alerts_loop (body : nat -> row cell -> M pydict) (k : nat)
    (rows : list (row cell)) (alerts : list pydict) : M (list pydict) :=
  match rows with
  | [] => mret alerts
  | r :: rest =>
      alert_spec ← body k r;
      alerts_loop body (S k) rest (append alerts alert_spec)
  end.

(** [detect_and_create_alerts]: the list that is returned, and the
    caller's frame as the call leaves it, [detect] converting its date
    column in place (of a call that raises the frame is not told, as for
    [detect]). *)
Definition detect_and_create_alerts (pd : lib) (txt : text) (self : t)
    (clock : nat -> string) (climate_data : DataFrame)
    (value_column metric : string) (use_ai_analysis : bool)
  : M (list pydict * DataFrame) :=
  match anomaly_detector self with
  | None => raise (ValueError "Anomaly detector not initialized")
  | Some detector =>
      match cyoda_client self with
      | None => raise (ValueError "Cyoda client not initialized")
      | Some client =>
          '(results, climate_data) ←
            lift (ClimateAnomalyDetector.detect pd detector climate_data
                                                value_column);
          flags ← lift (of_option (KeyError "is_anomaly")
                                  (get results "is_anomaly"));
          let anomalies := boolean_index results (eq_True <$> flags) in
          alerts ←
            alerts_loop
              (alert_of_row pd txt self client clock value_column metric
                            use_ai_analysis)
              0 (iterrows anomalies) [];
          mret (alerts, climate_data)
      end
  end.

(** [severity_order] of [prioritize_alerts], with the default [0] of its
    lookup. *)
Definition severity_order (severity : string) : Z :=
  let table : gmap string Z :=
    list_to_map [("critical", 4); ("high", 3); ("medium", 2); ("low", 1)]%Z in
  default 0%Z (table !! severity).

(** What the [try] block of [priority_score] gets from pandas at the
    [k]-th call of the key function during one sort, the clock being read
    at every call: for the value of the date field, the whole days between
    that date and now; [None] when the block raises or the difference is
    not a number. *)
Record calendar := {
  days_ago : nat -> pyval -> option Z
}.

(** Float arithmetic: the float nearest to a rational.  The quotient and
    the sum of [priority_score] are rounded, and the order of the sort
    depends on it. *)
Record floats := {
  nearest : Q -> Q
}.

(** The three summands of [priority_score]. *)
Definition severity_score (alert : pydict) : result Z :=
  match default (PStr "low") (alert !! "severity") with
  | PStr severity => Ok (severity_order severity)
  | PList _ | PDict _ => Raise TypeError
  | _ => Ok 0%Z
  end.

Definition ack_penalty (alert : pydict) : Z :=
  if truthy (default (PBool false) (alert !! "acknowledged")) then 0 else 2.

(** The float [max(0, 30 - days_ago) / 30], or [None] for the integer [0]
    of the handler. *)
Definition recency_score (fl : floats) (cal : calendar) (k : nat)
    (alert : pydict) : option Q :=
  d ← days_ago cal k (default (PStr "2000-01-01") (alert !! "date"));
  Some (nearest fl (inject_Z (Z.max 0 (30 - d)) / 30)).

(** The sum of an integer and the recency score. *)
Definition add_recency (fl : floats) (n : Z) (recency_score : option Q) : Q :=
  match recency_score with
  | Some x => nearest fl (inject_Z n + x)
  | None => inject_Z n
  end.

(** [priority_score(alert)] of [prioritize_alerts], at its [k]-th call *)
Definition priority_score (fl : floats) (cal : calendar) (k : nat)
    (alert : pyval) : result Q :=
  match alert with
  | PDict alert =>
      severity_score ← severity_score alert;
      Ok (add_recency fl (severity_score + ack_penalty alert)
                      (recency_score fl cal k alert))
  | _ => Raise AttributeError
  end.

(** [sorted(..., reverse=True)] on elements paired with their keys: the
    sort is stable, so an element goes in front of the elements after it
    that have the same key. *)
Fixpoint insert_desc {A} (x : Q * A) (l : list (Q * A)) : list (Q * A) :=
  match l with
  | [] => [x]
  | y :: l' =>
      if Qlt_le_dec x.1 y.1 then y :: insert_desc x l' else x :: l
  end.

Definition sorted_desc {A} (l : list (Q * A)) : list (Q * A) :=
  foldr insert_desc [] l.

(** [prioritize_alerts(alerts)]; the keys of the alerts are computed in the
    order of the list, one call each, before the sort. *)
Definition prioritize_alerts (fl : floats) (cal : calendar)
    (alerts : list pyval) : result (list pyval) :=
  if negb (truthy (PList alerts)) then Ok []
  else
    keys ← mapM (fun ka => priority_score fl cal ka.1 ka.2)
                (zip (seq 0 (length alerts)) alerts);
    Ok (sorted_desc (zip keys alerts)).*2.

End ClimateAlertService.

(** ** Loading the detector, and the classification route

    [get_alert_service] and [classify_alert] of
    [backend/api/alert_routes.py], [load_anomaly_detector] of
    [backend/api/ml_routes.py].  The module-level variables
    [alert_service] and [anomaly_detector] are passed in and handed back;
    what is printed is left out. *)

Module Loading.
Import ClimateAnomalyDetector.

(** What an [import] statement does: it succeeds, raises [ImportError], or
    raises something else. *)
Inductive imported :=
| Imported
| ImportError
| ImportRaised (e : exn).

(** The process environment: the two libraries, the import of the detector
    module, the import of the Gemini module (which gives the constructor
    [GeminiClimateAnalyst(api_key=...)]), and [os.getenv]. *)
Record environment := {
  sk : sklearn;
  jl : joblib;
  import_anomaly_detector : imported;
  import_gemini_ai :
    result (string -> result ClimateAlertService.GeminiClimateAnalyst);
  getenv : string -> option string
}.

(** [get_alert_service()]: what the call returns, and the module variable
    [alert_service] after it. *)
Definition get_alert_service (env : environment)
    (alert_service : option ClimateAlertService.t)
  : result ClimateAlertService.t * option ClimateAlertService.t :=
  match alert_service with
  | Some service => (Ok service, alert_service)
  | None =>
      let anomaly_detector : result (option ClimateAnomalyDetector.t) :=
        match import_anomaly_detector env with
        | Imported =>
            let anomaly_detector := new (sk env) (1 # 10) 42 in
            match load_model (jl env) anomaly_detector
                             "models/anomaly_model.pkl"
                             "models/anomaly_scaler.pkl" with
            | (Ok _, anomaly_detector) => Ok (Some anomaly_detector)
            | (Raise _, _) => Ok None
            end
        | ImportError => Ok None
        | ImportRaised e => Raise e
        end in
      match anomaly_detector with
      | Raise e => (Raise e, alert_service)
      | Ok anomaly_detector =>
          let gemini_client :=
            match import_gemini_ai env with
            | Ok GeminiClimateAnalyst =>
                let api_key := getenv env "GEMINI_API_KEY" in
                if truthy (of_opt_str api_key) then
                  match GeminiClimateAnalyst (default EmptyString api_key) with
                  | Ok client => Some client
                  | Raise _ => None
                  end
                else None
            | Raise _ => None
            end in
          let service :=
            {| ClimateAlertService.anomaly_detector := anomaly_detector;
               ClimateAlertService.gemini_client := gemini_client;
               ClimateAlertService.cyoda_client :=
                 Some AlertRoutes.cyoda_client |} in
          (Ok service, Some service)
      end
  end.

(** [load_anomaly_detector()] of the machine-learning routes: what the call
    returns, and the module variable [anomaly_detector] after it.  The
    variable is assigned before the files are read. *)
Definition load_anomaly_detector (env : environment)
    (anomaly_detector : option ClimateAnomalyDetector.t)
  : option ClimateAnomalyDetector.t * option ClimateAnomalyDetector.t :=
  match anomaly_detector with
  | Some _ => (anomaly_detector, anomaly_detector)
  | None =>
      let anomaly_detector := new (sk env) (1 # 10) 42 in
      let '(_, anomaly_detector) :=
        load_model (jl env) anomaly_detector
                   "models/anomaly_model.pkl" "models/anomaly_scaler.pkl" in
      (Some anomaly_detector, Some anomaly_detector)
  end.

(** [data.get(key, default)] on what [request.get_json()] returned. *)
Definition dict_get (data : pyval) (key : string) (dflt : pyval)
  : result pyval :=
  match data with
  | PDict d => Ok (default dflt (d !! key))
  | _ => Raise AttributeError
  end.

(** [float(v)] on a JSON value.  An integer is converted when the nearest
    float is finite, that is, below [2^1024 - 2^970] in absolute value. *)
Definition float (txt : ClimateAlertService.text) (v : pyval)
  : result pyfloat :=
  match v with
  | PBool b => Ok (Real (if b then 1 else 0))
  | PInt n =>
      if (Z.abs n <? 2 ^ 1024 - 2 ^ 970)%Z then Ok (Real (inject_Z n))
      else Raise OverflowError
  | PFloat x => Ok x
  | PStr s => ClimateAlertService.float_of_string txt s
  | PNone | PList _ | PDict _ => Raise TypeError
  end.

(** The metric as the classifiers compare it with their two names: a value
    that is no string equals neither. *)
Definition metric_name (metric : pyval) : string :=
  match metric with
  | PStr s => s
  | _ => EmptyString
  end.

(** [classify_alert()]; [data] is what [request.get_json()] returned and
    [str] gives the text of an exception. *)
Definition classify_alert (txt : ClimateAlertService.text)
    (str : exn -> string) (data : pyval) : AlertRoutes.response :=
  let answer : result AlertRoutes.response :=
    value ← dict_get data "value" PNone;
    metric ← dict_get data "metric" (PStr "temperature");
    anomaly_score ← dict_get data "anomaly_score" (PFloat (Real 0.5));
    score ← float txt anomaly_score;
    v ← float txt value;
    let severity :=
      CyodaAlertClient.classify_severity score v (metric_name metric) in
    v ← float txt value;
    let alert_type :=
      CyodaAlertClient.determine_alert_type v (metric_name metric) PNone in
    Ok (AlertRoutes.jsonify (list_to_map [
      ("success", PBool true);
      ("severity", PStr severity);
      ("alert_type", PStr alert_type)
    ])) in
  match answer with
  | Ok response => response
  | Raise e =>
      {| AlertRoutes.body :=
           list_to_map [("success", PBool false); ("error", PStr (str e))];
         AlertRoutes.status_code := 500 |}
  end.

End Loading.

(** * Vocabulary of the specification

    The notions in which the statements below are written. *)

Module Spec.
Import Pandas CyodaAlertClient ClimateAlertService.

(** A four-way cascade: [critical] when [crit], otherwise [high] when
    [high], otherwise [medium] when [med], otherwise [low]. *)
Definition cascade (r : string) (crit high med : Prop) : Prop :=
  (r = "critical" <-> crit) /\
  (r = "high" <-> ~ crit /\ high) /\
  (r = "medium" <-> ~ crit /\ ~ high /\ med) /\
  (r = "low" <-> ~ crit /\ ~ high /\ ~ med).

Definition severity_labels : list string :=
  ["low"; "medium"; "high"; "critical"].

Definition alert_type_labels : list string :=
  ["heat_wave"; "freeze_event"; "cold_snap"; "temperature_anomaly";
   "extreme_precipitation"; "drought_indicator"; "precipitation_anomaly";
   "climate_anomaly"].

(** The keys that [create_alert] always writes. *)
Definition alert_keys : gset string :=
  list_to_set ["alert_type"; "severity"; "value"; "date"; "anomaly_score";
               "location"; "metric"; "status"; "created_at"; "acknowledged";
               "resolved"].

Definition optional_key (key : string) (arg : pyval) : gset string :=
  if truthy arg then {[ key ]} else ∅.

Definition optional_value (arg : pyval) : option pyval :=
  if truthy arg then Some arg else None.

(** A simple condition as the specification describes it: the dictionary
    that has exactly the keys [type], [jsonPath], [operatorType] and
    [value], the type being "simple". *)
Definition condition (jsonPath operatorType : string) (value : pyval)
  : pydict :=
  <["type" := PStr "simple"]>
    (<["jsonPath" := PStr jsonPath]>
       (<["operatorType" := PStr operatorType]>
          (<["value" := value]> ∅))).

(** The condition of a supplied filter, as a list with at most one
    element.  A string filter counts as supplied when it is a non-empty
    string, the score filter when it is not [None]. *)
Definition string_filter (jsonPath operatorType : string)
    (arg : option string) : list pydict :=
  match arg with
  | Some s =>
      if s =? EmptyString then [] else [condition jsonPath operatorType (PStr s)]
  | None => []
  end.

Definition float_filter (jsonPath operatorType : string)
    (arg : option pyfloat) : list pydict :=
  match arg with
  | Some x => [condition jsonPath operatorType (PFloat x)]
  | None => []
  end.

(** The conditions of the supplied filters in the order status, severity,
    alert_type, min_anomaly_score, date_from, date_to. *)
Definition supplied_filters (status severity alert_type : option string)
    (min_anomaly_score : option pyfloat) (date_from date_to : option string)
  : list pydict :=
  (string_filter "$.status" "EQUALS" status
   ++ string_filter "$.severity" "EQUALS" severity
   ++ string_filter "$.alert_type" "EQUALS" alert_type
   ++ float_filter "$.anomaly_score" "GREATER_THAN" min_anomaly_score
   ++ string_filter "$.date" "GREATER_THAN" date_from
   ++ string_filter "$.date" "LESS_THAN" date_to)%list.

(** The cached list as the handler sees it after its first two lines: an
    absent attribute reads as the empty list. *)
Definition cached (w : World) : list pyval := default [] (cached_alerts w).

(** The three filling steps of [prepare_features] on one column. *)
Definition fill (xs : list pyfloat) : list pyfloat :=
  fillna 0 (ffill (bfill xs)).

(** The columns of the feature matrix before filling, for a value column
    read as [values] whose differences are [change]; for a column of
    floats the differences are those of the values. *)
Definition feature_columns (pd : lib) (values change : list pyfloat)
  : frame pyfloat :=
  [ ("value", values);
    ("rolling_mean_7", rolling 7 mean values);
    ("rolling_std_7", rolling 7 (std pd) values);
    ("rolling_mean_14", rolling 14 mean values);
    ("rolling_std_14", rolling 14 (std pd) values);
    ("rolling_mean_30", rolling 30 mean values);
    ("rolling_std_30", rolling 30 (std pd) values);
    ("daily_change", change) ].

Definition value_features (pd : lib) (values : list pyfloat) : frame pyfloat :=
  feature_columns pd values (diff values).

(** The mean and the sample standard deviation of the numbers of a window,
    as the specification has them: the sum over the count, and the root of
    the sum of the squared deviations from the mean over the count less
    one. *)
Definition average (obs : list Q) : Q :=
  (foldr Qplus 0 obs / inject_Z (Z.of_nat (length obs)))%Q.

Definition deviation (pd : lib) (obs : list Q) : Q :=
  sqrt pd
    (foldr Qplus 0 ((fun q => (q - average obs) * (q - average obs)) <$> obs)
     / inject_Z (Z.of_nat (length obs - 1)))%Q.

(** The [w] rows that end at row [i] hold the numbers [obs]. *)
Definition window_is (w i : nat) (values : list pyfloat) (obs : list Q)
  : Prop :=
  (w <= i + 1)%nat /\ length obs = w /\
  forall j, (j < w)%nat -> values !! (i + 1 - w + j)%nat = Real <$> obs !! j.

Definition date_features (pd : lib) (ts : list (option Timestamp))
  : frame pyfloat :=
  [ ("day_of_year", dt (dayofyear pd) ts);
    ("month", dt (month pd) ts) ].

Definition value_feature_names : list string :=
  ["value"; "rolling_mean_7"; "rolling_std_7"; "rolling_mean_14";
   "rolling_std_14"; "rolling_mean_30"; "rolling_std_30"; "daily_change"].

(** The calendar columns that the date column of [df] gives rise to. *)
Definition calendar_features (pd : lib) (df : DataFrame) : frame pyfloat :=
  match get df "date" with
  | Some dates =>
      match mapM (to_datetime1 pd) dates with
      | Ok ts => date_features pd ts
      | Raise _ => []
      end
  | None => []
  end.

(** The specification [spec] describes an alert of the given type and
    severity that is new: active, neither acknowledged nor resolved. *)
Definition new_alert (spec : pydict) : Prop :=
  exists entity_data : pydict,
    spec !! "entity_data" = Some (PDict entity_data) /\
    entity_data !! "status" = Some (PStr "active") /\
    entity_data !! "acknowledged" = Some (PBool false) /\
    entity_data !! "resolved" = Some (PBool false).

Definition classified (alert_type severity : string) (spec : pydict) : Prop :=
  exists entity_data : pydict,
    spec !! "entity_data" = Some (PDict entity_data) /\
    entity_data !! "alert_type" = Some (PStr alert_type) /\
    entity_data !! "severity" = Some (PStr severity).

(** The specification [spec] is the alert for a measured [value] with
    anomaly score [score]: its [entity_data] holds the two numbers and the
    metric, [alert_type] is [determine_alert_type(value, metric)] and
    [severity] is [classify_severity(score, value, metric)]. *)
Definition alert_for (metric : string) (value score : pyfloat)
    (spec : pydict) : Prop :=
  exists entity_data : pydict,
    spec !! "entity_data" = Some (PDict entity_data) /\
    entity_data !! "value" = Some (PFloat value) /\
    entity_data !! "anomaly_score" = Some (PFloat score) /\
    entity_data !! "metric" = Some (PStr metric) /\
    entity_data !! "alert_type"
    = Some (PStr (determine_alert_type value metric PNone)) /\
    entity_data !! "severity"
    = Some (PStr (classify_severity score value metric)).

(** What the loop of [detect_and_create_alerts] keeps true of a row and
    the specification made from it (a notion of the proofs). *)
Definition alert_of (txt : text) (value_column metric : string)
    (r : row cell) (spec : pydict) : Prop :=
  exists value score,
    row_float txt r value_column = Ok value /\
    row_float txt r "anomaly_score" = Ok score /\
    new_alert spec /\
    classified (determine_alert_type value metric PNone)
               (classify_severity score value metric) spec /\
    alert_for metric value score spec.

(** The alerts paired with their priority scores: the score of an alert
    is the one computed at its place in the list. *)
Definition scored (fl : floats) (cal : calendar) (alerts : list pyval)
    (keyed : list (Q * pyval)) : Prop :=
  keyed.*2 = alerts /\
  forall k p, keyed !! k = Some p -> priority_score fl cal k p.2 = Ok p.1.

(** The alerts that [priority_score] accepts: dictionaries whose severity,
    if any, is neither a list nor a dictionary. *)
Definition scorable (alert : pyval) : Prop :=
  exists d : pydict,
    alert = PDict d /\
    (forall l, d !! "severity" <> Some (PList l)) /\
    (forall m, d !! "severity" <> Some (PDict m)).

(** Entities that the normalisation loop keeps: the dictionaries. *)
Definition is_dict (v : pyval) : bool :=
  match v with
  | PDict _ => true
  | _ => false
  end.

(** The two model files can be read, and the detector module imports and
    the files can be read. *)
Definition files_load (env : Loading.environment) : Prop :=
  exists m sc,
    ClimateAnomalyDetector.load_forest (Loading.jl env)
                                       "models/anomaly_model.pkl" = Ok m /\
    ClimateAnomalyDetector.load_scaler (Loading.jl env)
                                       "models/anomaly_scaler.pkl" = Ok sc.

Definition model_loads (env : Loading.environment) : Prop :=
  Loading.import_anomaly_detector env = Loading.Imported /\ files_load env.

End Spec.
Import Spec.

(** * Sample instances

    Stand-ins for the libraries, used to run the code on concrete inputs.
    The theorems below hold for every library instance; these serve the
    examples only, and cover timestamps of the first days of January
    1970. *)

Module Sample.
Import Pandas.

Definition ns_per_day : Z := 86400000000000.

Definition to_datetime1 (c : cell) : result (option Timestamp) :=
  match c with
  | Ts t => Ok t
  | Num NaN => Ok None
  | Str s =>
      if s =? "1970-01-01" then Ok (Some 0%Z)
      else if s =? "1970-01-02" then Ok (Some ns_per_day)
      else Raise (ValueError "Unknown datetime string format")
  | _ => Raise TypeError
  end.

(** The square root to three decimals. *)
Definition sqrt (q : Q) : Q :=
  Z.sqrt (Qnum q * Zpos (Qden q) * 1000000) # (Qden q * 1000).

Definition pd : lib := {|
  Pandas.to_datetime1 := to_datetime1;
  dayofyear := fun t => (t / ns_per_day + 1)%Z;
  month := fun _ => 1%Z;
  isoformat := fun t => "1970-01-0" +:+ pretty (t / ns_per_day + 1)%Z
                        +:+ "T00:00:00";
  Pandas.sqrt := sqrt;
  to_float64 := fun c =>
    match c with
    | Bool b => Ok (Real (if b then 1 else 0))
    | _ => Raise DataError
    end;
  diff_object := fun _ => Raise TypeError
|}.

(** A scaler that keeps the value feature, and a model that flags values
    above 35 and scores a row by its value. *)
Definition scaler : ClimateAnomalyDetector.StandardScaler := {|
  ClimateAnomalyDetector.transform X :=
    match get X "value" with
    | Some values =>
        Ok ((fun x => [match x with Real q => q | NaN => 0%Q end]) <$> values)
    | None => Raise LibraryError
    end
|}.

Definition model : ClimateAnomalyDetector.IsolationForest := {|
  ClimateAnomalyDetector.predict X :=
    Ok ((fun r => if Qle_bool (hd 0%Q r) 35 then 1 else -1)%Z <$> X);
  ClimateAnomalyDetector.score_samples X :=
    Ok ((fun r => - (hd 0%Q r) / 50)%Q <$> X)
|}.

Definition detector : ClimateAnomalyDetector.t := {|
  ClimateAnomalyDetector.model := model;
  ClimateAnomalyDetector.scaler := scaler;
  ClimateAnomalyDetector.fitted := true
|}.

Definition txt : ClimateAlertService.text := {|
  ClimateAlertService.title s := s;
  ClimateAlertService.format_1f _ := "38.5";
  ClimateAlertService.float_of_string _ :=
    Raise (ValueError "could not convert string to float");
  ClimateAlertService.scan_report _ := []
|}.

Definition gemini : ClimateAlertService.GeminiClimateAnalyst := {|
  ClimateAlertService.generate_anomaly_report _ := Ok "An unusually warm day for the season."
|}.

Definition service : ClimateAlertService.t := {|
  ClimateAlertService.anomaly_detector := Some detector;
  ClimateAlertService.gemini_client := Some gemini;
  ClimateAlertService.cyoda_client := Some CyodaAlertClient.new
|}.

Definition clock (n : nat) : string := "2024-01-15T12:00:0" +:+ pretty n.

Definition climate_data : DataFrame :=
  [ ("date", [Str "1970-01-01"; Str "1970-01-02"]);
    ("value", [Num (Real 21.5); Num (Real 38.5)]) ].

Definition eight_days : DataFrame :=
  [ ("value", [Num (Real 10); Num (Real 12); Num (Real 14); Num (Real 16);
               Num (Real 18); Num (Real 20); Num (Real 22); Num (Real 24)]) ].

Definition single_row : DataFrame :=
  [ ("date", [Str "1970-01-02"]); ("value", [Num (Real 21.5)]) ].

Definition world : World :=
  {| cyoda_entities := [PStr "stored"]; cached_alerts := Some [PStr "old"] |}.

(** A Gemini client whose calls fail, and a service that uses it. *)
Definition failing_gemini : ClimateAlertService.GeminiClimateAnalyst := {|
  ClimateAlertService.generate_anomaly_report _ := Raise LibraryError
|}.

Definition service_failing_gemini : ClimateAlertService.t := {|
  ClimateAlertService.anomaly_detector := Some detector;
  ClimateAlertService.gemini_client := Some failing_gemini;
  ClimateAlertService.cyoda_client := Some CyodaAlertClient.new
|}.

Definition hot_row : row cell :=
  [ ("date", Ts (Some ns_per_day)); ("value", Num (Real 38.5));
    ("is_anomaly", Bool true); ("anomaly_score", Num (Real 0.77)) ].

(** A calendar for which a date is written as the number of days since. *)
Definition calendar : ClimateAlertService.calendar := {|
  ClimateAlertService.days_ago _ v :=
    match v with
    | PInt n => Some n
    | _ => None
    end
|}.

(** The binary64 float nearest to a rational, ties going to the even
    significand, for numbers in the range of the normal floats: the
    quotient [n / d] is brought between [2^52] and [2^53] by a power of
    two, rounded to an integer and scaled back. *)
Definition round_half_even (n d : Z) : Z :=
  let q := (n / d)%Z in
  let r := (n mod d)%Z in
  if (2 * r <? d)%Z then q
  else if (d <? 2 * r)%Z then (q + 1)%Z
  else if Z.even q then q else (q + 1)%Z.

Definition scaled (e n d : Z) : Z * Z :=
  if (0 <=? e)%Z then (n, d * 2 ^ e)%Z else (n * 2 ^ (- e), d)%Z.

Definition nearest_pos (n d : Z) : Q :=
  let e0 := (Z.log2 n - Z.log2 d - 52)%Z in
  let e :=
    if ((scaled e0 n d).1 <? (scaled e0 n d).2 * 2 ^ 52)%Z
    then (e0 - 1)%Z else e0 in
  let m := round_half_even (scaled e n d).1 (scaled e n d).2 in
  Qred (if (0 <=? e)%Z then inject_Z (m * 2 ^ e)
        else Qmake m (Z.to_pos (2 ^ (- e)))).

Definition binary64 (q : Q) : Q :=
  match Qnum q with
  | 0%Z => 0%Q
  | Zpos n => nearest_pos (Zpos n) (Zpos (Qden q))
  | Zneg n => Qopp (nearest_pos (Zpos n) (Zpos (Qden q)))
  end.

Definition floats : ClimateAlertService.floats := {|
  ClimateAlertService.nearest := binary64
|}.

(** Two acknowledged alerts whose scores are equal as rationals,
    [1 + 32/30] and [2 + 2/30], and differ as floats. *)
Definition alert_future : pyval :=
  PDict (list_to_map [("severity", PStr "low"); ("date", PInt (-2));
                      ("acknowledged", PBool true)]).

Definition alert_recent : pyval :=
  PDict (list_to_map [("severity", PStr "medium"); ("date", PInt 28);
                      ("acknowledged", PBool true)]).

(** Libraries for loading: the constructors give objects that refuse to
    work, the files hold the sample model and scaler, or are missing. *)
Definition sk : ClimateAnomalyDetector.sklearn := {|
  ClimateAnomalyDetector.IsolationForest_new _ _ _ := {|
    ClimateAnomalyDetector.predict _ := Raise LibraryError;
    ClimateAnomalyDetector.score_samples _ := Raise LibraryError |};
  ClimateAnomalyDetector.StandardScaler_new := {|
    ClimateAnomalyDetector.transform _ := Raise LibraryError |}
|}.

Definition files_present : ClimateAnomalyDetector.joblib := {|
  ClimateAnomalyDetector.load_forest _ := Ok model;
  ClimateAnomalyDetector.load_scaler _ := Ok scaler
|}.

Definition scaler_file_missing : ClimateAnomalyDetector.joblib := {|
  ClimateAnomalyDetector.load_forest _ := Ok model;
  ClimateAnomalyDetector.load_scaler _ := Raise LibraryError
|}.

Definition env (jl : ClimateAnomalyDetector.joblib) : Loading.environment := {|
  Loading.sk := sk;
  Loading.jl := jl;
  Loading.import_anomaly_detector := Loading.Imported;
  Loading.import_gemini_ai := Ok (fun _ => Ok gemini);
  Loading.getenv _ := None
|}.

(** Percentiles by the nearest rank, for data without NaN. *)
Definition np : TemperatureThresholdDetector.numpy := {|
  TemperatureThresholdDetector.percentile data q :=
    match data with
    | [] => Raise LibraryError
    | x :: _ =>
        if Qle_bool 0 q && Qle_bool q 100
        then Ok (if Qle_bool q 50 then Real 10 else Real 30)
        else Raise (ValueError "Percentiles must be in the range [0, 100]")
    end
|}.

Definition alert_low : pyval :=
  PDict (list_to_map [("severity", PStr "low"); ("date", PInt 40)]).

Definition alert_critical : pyval :=
  PDict (list_to_map [("severity", PStr "critical"); ("date", PInt 40)]).

Definition alert_acknowledged : pyval :=
  PDict (list_to_map [("severity", PStr "critical"); ("date", PInt 40);
                      ("acknowledged", PBool true)]).

End Sample.

(** * Properties *)

Import Pandas.

(** ** Threshold classifiers *)

Section Classifiers.
Import CyodaAlertClient.
#[local] Arguments gt : simpl never.
#[local] Arguments lt : simpl never.

Example classify_severity_route_docstring :
  classify_severity (Real 0.85) (Real 39.5) "temperature" = "high".
Proof. reflexivity. Qed.

Example classify_severity_default_cutoff :
  classify_severity (Real 0.86) (Real 39.5) "humidity" = "critical".
Proof. reflexivity. Qed.

Example determine_alert_type_dry_day :
  determine_alert_type (Real 0.05) "precipitation" PNone = "drought_indicator".
Proof. reflexivity. Qed.

Lemma gt_Real (q c : Q) : gt (Real q) c = true <-> (c < q)%Q.
Proof.
  unfold gt. destruct (Qlt_le_dec c q); split; intros; try done.
  exfalso. lra.
Qed.

Lemma lt_Real (q c : Q) : lt (Real q) c = true <-> (q < c)%Q.
Proof.
  unfold lt. destruct (Qlt_le_dec q c); split; intros; try done.
  exfalso. lra.
Qed.

Lemma gt_Real_false (q c : Q) : gt (Real q) c = false <-> ~ (c < q)%Q.
Proof. rewrite <- gt_Real. destruct (gt (Real q) c); split; congruence. Qed.

Lemma lt_Real_false (q c : Q) : lt (Real q) c = false <-> ~ (q < c)%Q.
Proof. rewrite <- lt_Real. destruct (lt (Real q) c); split; congruence. Qed.

(** Case analysis on every comparison of a classifier, turning each boolean
    test into the inequality it decides. *)
Ltac split_comparisons :=
  repeat match goal with
  | |- context [gt (Real ?q) ?c] =>
      let E := fresh "E" in
      destruct (gt (Real q) c) eqn:E;
      [apply gt_Real in E | apply gt_Real_false in E]
  | |- context [lt (Real ?q) ?c] =>
      let E := fresh "E" in
      destruct (lt (Real q) c) eqn:E;
      [apply lt_Real in E | apply lt_Real_false in E]
  end.

Ltac solve_cascade :=
  unfold cascade; split_comparisons; simpl;
  repeat split; intros; try discriminate; try tauto;
  try (exfalso; tauto).

Lemma eqb_other (m k : string) : m <> k -> (m =? k) = false.
Proof. apply String.eqb_neq. Qed.

(** C1. For real [anomaly_score] and [value], [classify_severity] follows
    the temperature cascade (0.9 / 40 / -10, then 0.7 / 35 / -5, then 0.5),
    the precipitation cascade (0.9 / 100, then 0.7 / 50, then 0.5), and for
    every other metric the cascade on the score alone with cutoffs 0.85,
    0.7 and 0.5; the result is always one of the four severity labels. *)
Theorem classify_severity_spec (s v : Q) :
  cascade (classify_severity (Real s) (Real v) "temperature")
          (0.9 < s \/ 40 < v \/ v < -10)%Q
          (0.7 < s \/ 35 < v \/ v < -5)%Q
          (0.5 < s)%Q /\
  cascade (classify_severity (Real s) (Real v) "precipitation")
          (0.9 < s \/ 100 < v)%Q
          (0.7 < s \/ 50 < v)%Q
          (0.5 < s)%Q /\
  (forall metric, metric <> "temperature" -> metric <> "precipitation" ->
     cascade (classify_severity (Real s) (Real v) metric)
             (0.85 < s)%Q (0.7 < s)%Q (0.5 < s)%Q) /\
  (forall metric,
     classify_severity (Real s) (Real v) metric ∈ severity_labels).
Proof.
  split; [|split; [|split]].
  - unfold classify_severity. simpl. solve_cascade.
  - unfold classify_severity. simpl. solve_cascade.
  - intros metric Ht Hp. unfold classify_severity.
    rewrite (eqb_other _ _ Ht), (eqb_other _ _ Hp).
    solve_cascade.
  - intros metric. unfold classify_severity, severity_labels.
    destruct (metric =? "temperature"); [|destruct (metric =? "precipitation")];
      split_comparisons; simpl; set_solver.
Qed.

Lemma classify_severity_spec_witness :
  classify_severity (Real 0.86) (Real 20) "humidity" = "critical".
Proof.
  destruct (classify_severity_spec 0.86 20) as (_ & _ & H & _).
  apply (H "humidity"); [discriminate | discriminate | reflexivity].
Defined.

(** C2. For a real [value], [determine_alert_type] answers, for
    "temperature": [heat_wave] iff [value > 35], else [freeze_event] iff
    [value < 0], else [cold_snap] iff [value < 5], else
    [temperature_anomaly]; for "precipitation": [extreme_precipitation] iff
    [value > 50], else [drought_indicator] iff [value < 0.1], else
    [precipitation_anomaly]; for every other metric [climate_anomaly].  The
    answer is always one of the eight alert types. *)
Theorem determine_alert_type_spec (v : Q) (ctx : pyval) :
  (let r := determine_alert_type (Real v) "temperature" ctx in
   (r = "heat_wave" <-> (35 < v)%Q) /\
   (r = "freeze_event" <-> ~ (35 < v)%Q /\ (v < 0)%Q) /\
   (r = "cold_snap" <-> ~ (35 < v)%Q /\ ~ (v < 0)%Q /\ (v < 5)%Q) /\
   (r = "temperature_anomaly" <->
      ~ (35 < v)%Q /\ ~ (v < 0)%Q /\ ~ (v < 5)%Q)) /\
  (let r := determine_alert_type (Real v) "precipitation" ctx in
   (r = "extreme_precipitation" <-> (50 < v)%Q) /\
   (r = "drought_indicator" <-> ~ (50 < v)%Q /\ (v < 0.1)%Q) /\
   (r = "precipitation_anomaly" <-> ~ (50 < v)%Q /\ ~ (v < 0.1)%Q)) /\
  (forall metric, metric <> "temperature" -> metric <> "precipitation" ->
     determine_alert_type (Real v) metric ctx = "climate_anomaly") /\
  (forall metric,
     determine_alert_type (Real v) metric ctx ∈ alert_type_labels).
Proof.
  split; [|split; [|split]].
  - unfold determine_alert_type. simpl. solve_cascade.
  - unfold determine_alert_type. simpl. solve_cascade.
  - intros metric Ht Hp. unfold determine_alert_type.
    by rewrite (eqb_other _ _ Ht), (eqb_other _ _ Hp).
  - intros metric. unfold determine_alert_type, alert_type_labels.
    destruct (metric =? "temperature"); [|destruct (metric =? "precipitation")];
      split_comparisons; simpl; set_solver.
Qed.

Lemma determine_alert_type_spec_witness :
  determine_alert_type (Real 12) "humidity" PNone = "climate_anomaly".
Proof.
  destruct (determine_alert_type_spec 12 PNone) as (_ & _ & H & _).
  apply (H "humidity"); discriminate.
Defined.

(** The rank of the four labels. *)
Lemma severity_order_labels :
  ClimateAlertService.severity_order "low" = 1%Z /\
  ClimateAlertService.severity_order "medium" = 2%Z /\
  ClimateAlertService.severity_order "high" = 3%Z /\
  ClimateAlertService.severity_order "critical" = 4%Z.
Proof. repeat split. Qed.

Lemma gt_mono (s1 s2 c : Q) :
  (s1 <= s2)%Q -> gt (Real s1) c = true -> gt (Real s2) c = true.
Proof. rewrite !gt_Real. lra. Qed.

(** C10. [classify_severity] is monotone in the anomaly score: with the
    value (a real or NaN) and the metric fixed, a larger score never gives
    a lower severity in the order low < medium < high < critical. *)
Theorem classify_severity_monotone (s1 s2 : Q) (value : pyfloat)
    (metric : string) :
  (s1 <= s2)%Q ->
  (ClimateAlertService.severity_order
     (classify_severity (Real s1) value metric)
   <= ClimateAlertService.severity_order
        (classify_severity (Real s2) value metric))%Z.
Proof.
  intros Hle.
  destruct severity_order_labels as (Hl & Hm & Hh & Hc).
  pose proof (gt_mono s1 s2 0.9 Hle) as M9.
  pose proof (gt_mono s1 s2 0.85 Hle) as M85.
  pose proof (gt_mono s1 s2 0.7 Hle) as M7.
  pose proof (gt_mono s1 s2 0.5 Hle) as M5.
  unfold classify_severity.
  destruct (metric =? "temperature"); [|destruct (metric =? "precipitation")].
  - destruct (gt value 40), (lt value (-10)), (gt value 35), (lt value (-5));
      destruct (gt (Real s1) 0.9), (gt (Real s1) 0.7), (gt (Real s1) 0.5);
      try (rewrite M9 by done); try (rewrite M7 by done);
      try (rewrite M5 by done); simpl;
      destruct (gt (Real s2) 0.9), (gt (Real s2) 0.7), (gt (Real s2) 0.5);
      simpl; rewrite ?Hl, ?Hm, ?Hh, ?Hc; lia.
  - destruct (gt value 100), (gt value 50);
      destruct (gt (Real s1) 0.9), (gt (Real s1) 0.7), (gt (Real s1) 0.5);
      try (rewrite M9 by done); try (rewrite M7 by done);
      try (rewrite M5 by done); simpl;
      destruct (gt (Real s2) 0.9), (gt (Real s2) 0.7), (gt (Real s2) 0.5);
      simpl; rewrite ?Hl, ?Hm, ?Hh, ?Hc; lia.
  - destruct (gt (Real s1) 0.85), (gt (Real s1) 0.7), (gt (Real s1) 0.5);
      try (rewrite M85 by done); try (rewrite M7 by done);
      try (rewrite M5 by done); simpl;
      destruct (gt (Real s2) 0.85), (gt (Real s2) 0.7), (gt (Real s2) 0.5);
      simpl; rewrite ?Hl, ?Hm, ?Hh, ?Hc; lia.
Qed.

Lemma classify_severity_monotone_witness :
  (ClimateAlertService.severity_order
     (classify_severity (Real 0.6) (Real 20) "temperature")
   <= ClimateAlertService.severity_order
        (classify_severity (Real 0.95) (Real 20) "temperature"))%Z.
Proof. apply classify_severity_monotone. vm_compute. discriminate. Defined.

End Classifiers.

(** ** Alert and search specifications *)

Section Specifications.
Import CyodaAlertClient.

Lemma lookup_optional_ne (key key' : string) (arg : pyval) (d : pydict) :
  key <> key' ->
  (if truthy arg then <[key := arg]> d else d) !! key' = d !! key'.
Proof. intros. destruct (truthy arg); [by rewrite lookup_insert_ne|done]. Qed.

Lemma lookup_optional_eq (key : string) (arg : pyval) (d : pydict) :
  d !! key = None ->
  (if truthy arg then <[key := arg]> d else d) !! key = optional_value arg.
Proof.
  intros. unfold optional_value.
  destruct (truthy arg); [by rewrite lookup_insert_eq|done].
Qed.

Lemma dom_optional (key : string) (arg : pyval) (d : pydict) :
  dom (if truthy arg then <[key := arg]> d else d)
  = dom d ∪ optional_key key arg.
Proof.
  unfold optional_key. destruct (truthy arg).
  - rewrite dom_insert_L. apply (comm_L (∪)).
  - by rewrite (right_id_L ∅ (∪)).
Qed.

Ltac lookup_optional :=
  repeat first
    [ rewrite lookup_optional_ne by done
    | rewrite lookup_optional_eq by lookup_optional ];
  try reflexivity.

(** What [create_alert] computes, for any client object. *)
Lemma create_alert_run (self : t) (now alert_type severity : string)
    (value : pyfloat) (date : string) (anomaly_score : pyfloat)
    (location metric : string) (description ai_analysis recommendations : pyval)
    (w : World) :
  exists entity_data : pydict,
    create_alert self now alert_type severity value date anomaly_score
                 location metric description ai_analysis recommendations w
    = (Ok (list_to_map [("entity_model", PStr (ENTITY_MODEL self));
                        ("entity_version", PStr (ENTITY_VERSION self));
                        ("entity_data", PDict entity_data)]), w) /\
    dom entity_data
    = alert_keys ∪ optional_key "description" description
                 ∪ optional_key "ai_analysis" ai_analysis
                 ∪ optional_key "recommendations" recommendations /\
    entity_data !! "alert_type" = Some (PStr alert_type) /\
    entity_data !! "severity" = Some (PStr severity) /\
    entity_data !! "value" = Some (PFloat value) /\
    entity_data !! "date" = Some (PStr date) /\
    entity_data !! "anomaly_score" = Some (PFloat anomaly_score) /\
    entity_data !! "location" = Some (PStr location) /\
    entity_data !! "metric" = Some (PStr metric) /\
    entity_data !! "status" = Some (PStr "active") /\
    entity_data !! "created_at" = Some (PStr now) /\
    entity_data !! "acknowledged" = Some (PBool false) /\
    entity_data !! "resolved" = Some (PBool false) /\
    entity_data !! "description" = optional_value description /\
    entity_data !! "ai_analysis" = optional_value ai_analysis /\
    entity_data !! "recommendations" = optional_value recommendations.
Proof.
  eexists. split; [reflexivity|].
  split.
  { rewrite !dom_optional. do 3 f_equal; by vm_compute. }
  repeat split; lookup_optional.
Qed.

(** C3. [create_alert] changes no state and returns normally: the world
    after the call is the world before it, and the returned dictionary has
    the three keys [entity_model] = "climate_alert", [entity_version] = "1"
    and [entity_data]; the keys of [entity_data] are the seven supplied
    fields, [status], [created_at], [acknowledged], [resolved], and each
    of [description], [ai_analysis], [recommendations] exactly when its
    argument is truthy, holding the argument. *)
Theorem create_alert_effect_free (now alert_type severity : string)
    (value : pyfloat) (date : string) (anomaly_score : pyfloat)
    (location metric : string) (description ai_analysis recommendations : pyval)
    (w : World) :
  exists entity_data : pydict,
    create_alert new now alert_type severity value date anomaly_score
                 location metric description ai_analysis recommendations w
    = (Ok (list_to_map [("entity_model", PStr "climate_alert");
                        ("entity_version", PStr "1");
                        ("entity_data", PDict entity_data)]), w) /\
    dom entity_data
    = alert_keys ∪ optional_key "description" description
                 ∪ optional_key "ai_analysis" ai_analysis
                 ∪ optional_key "recommendations" recommendations /\
    entity_data !! "alert_type" = Some (PStr alert_type) /\
    entity_data !! "severity" = Some (PStr severity) /\
    entity_data !! "value" = Some (PFloat value) /\
    entity_data !! "date" = Some (PStr date) /\
    entity_data !! "anomaly_score" = Some (PFloat anomaly_score) /\
    entity_data !! "location" = Some (PStr location) /\
    entity_data !! "metric" = Some (PStr metric) /\
    entity_data !! "status" = Some (PStr "active") /\
    entity_data !! "created_at" = Some (PStr now) /\
    entity_data !! "acknowledged" = Some (PBool false) /\
    entity_data !! "resolved" = Some (PBool false) /\
    entity_data !! "description" = optional_value description /\
    entity_data !! "ai_analysis" = optional_value ai_analysis /\
    entity_data !! "recommendations" = optional_value recommendations.
Proof. apply (create_alert_run new). Qed.

Lemma simple_condition_written_out (jsonPath operatorType : string)
    (value : pyval) :
  simple_condition jsonPath operatorType value
  = condition jsonPath operatorType value.
Proof. reflexivity. Qed.

Lemma condition_fields (jsonPath operatorType : string) (value : pyval) :
  condition jsonPath operatorType value !! "type" = Some (PStr "simple") /\
  condition jsonPath operatorType value !! "jsonPath" = Some (PStr jsonPath) /\
  condition jsonPath operatorType value !! "operatorType"
  = Some (PStr operatorType) /\
  condition jsonPath operatorType value !! "value" = Some value /\
  dom (condition jsonPath operatorType value)
  = ({[ "type"; "jsonPath"; "operatorType"; "value" ]} : gset string).
Proof.
  unfold condition. split; [|split; [|split; [|split]]].
  - by rewrite lookup_insert_eq.
  - rewrite !lookup_insert_ne by done. by rewrite lookup_insert_eq.
  - rewrite !lookup_insert_ne by done. by rewrite lookup_insert_eq.
  - rewrite !lookup_insert_ne by done. by rewrite lookup_insert_eq.
  - rewrite !dom_insert_L, dom_empty_L. set_solver.
Qed.

Lemma append_string_filter (conditions : list pydict)
    (jsonPath operatorType : string) (arg : option string) :
  (if truthy (of_opt_str arg)
   then append conditions
          (simple_condition jsonPath operatorType (of_opt_str arg))
   else conditions)
  = (conditions ++ string_filter jsonPath operatorType arg)%list.
Proof.
  rewrite simple_condition_written_out.
  destruct arg as [s|]; simpl; [|by rewrite app_nil_r].
  destruct (s =? EmptyString); simpl; [by rewrite app_nil_r|done].
Qed.

Lemma append_float_filter (conditions : list pydict)
    (jsonPath operatorType : string) (arg : option pyfloat) :
  match arg with
  | Some x => append conditions (simple_condition jsonPath operatorType (PFloat x))
  | None => conditions
  end
  = (conditions ++ float_filter jsonPath operatorType arg)%list.
Proof.
  destruct arg; simpl; [by rewrite simple_condition_written_out|].
  by rewrite app_nil_r.
Qed.

(** C5. [search_alerts] returns [entity_model], [entity_version] and
    [search_conditions], where [search_conditions] is the empty dictionary
    when no filter is supplied, the single simple condition when exactly
    one is, and otherwise the group with operator "AND" over the simple
    conditions of the supplied filters in the fixed order; status, severity
    and alert_type use EQUALS, min_anomaly_score and date_from GREATER_THAN,
    date_to LESS_THAN.  The conditions are the dictionaries that
    [supplied_filters] writes out key by key ([condition]): type "simple",
    the path, the operator and the value of the filter, and nothing
    else. *)
Theorem search_alerts_conditions (status severity alert_type : option string)
    (min_anomaly_score : option pyfloat) (date_from date_to : option string) :
  let filters :=
    supplied_filters status severity alert_type min_anomaly_score
                     date_from date_to in
  exists search_conditions : pydict,
    search_alerts new status severity alert_type min_anomaly_score
                  date_from date_to
    = list_to_map [("entity_model", PStr "climate_alert");
                   ("entity_version", PStr "1");
                   ("search_conditions", PDict search_conditions)] /\
    (filters = [] -> search_conditions = ∅) /\
    (forall c, filters = [c] -> search_conditions = c) /\
    ((2 <= length filters)%nat ->
     search_conditions
     = list_to_map [("type", PStr "group");
                    ("operator", PStr "AND");
                    ("conditions", PList (PDict <$> filters))]) /\
    (forall c, c ∈ filters ->
       c !! "type" = Some (PStr "simple") /\
       dom c = ({[ "type"; "jsonPath"; "operatorType"; "value" ]}
                : gset string)).
Proof.
  intros filters. unfold search_alerts. cbv zeta.
  rewrite !append_string_filter, append_float_filter.
  rewrite <- !app_assoc, app_nil_l.
  fold (supplied_filters status severity alert_type min_anomaly_score
                         date_from date_to).
  fold filters.
  eexists. split; [reflexivity|].
  assert (forall c, c ∈ filters ->
            c !! "type" = Some (PStr "simple") /\
            dom c = ({[ "type"; "jsonPath"; "operatorType"; "value" ]}
                     : gset string)) as Hfields.
  { intros c. unfold filters, supplied_filters, string_filter, float_filter.
    rewrite !elem_of_app.
    intros Hc.
    repeat match goal with
           | H : _ \/ _ |- _ => destruct H as [H|H]
           end;
      repeat case_match; try (by apply elem_of_nil in Hc);
      apply list_elem_of_singleton in Hc as ->;
      split; apply condition_fields. }
  destruct filters as [|c [|c' rest]]; simpl;
    repeat split; intros; try done; try congruence; try lia;
    by apply Hfields.
Qed.

Lemma search_alerts_conditions_witness :
  exists search_conditions c1 c2 : pydict,
    search_alerts new (Some "active") None None (Some (Real 0.7)) None None
    !! "search_conditions" = Some (PDict search_conditions) /\
    search_conditions !! "type" = Some (PStr "group") /\
    search_conditions !! "operator" = Some (PStr "AND") /\
    search_conditions !! "conditions" = Some (PList [PDict c1; PDict c2]) /\
    c1 !! "type" = Some (PStr "simple") /\
    c1 !! "jsonPath" = Some (PStr "$.status") /\
    c1 !! "operatorType" = Some (PStr "EQUALS") /\
    c1 !! "value" = Some (PStr "active") /\
    c2 !! "type" = Some (PStr "simple") /\
    c2 !! "jsonPath" = Some (PStr "$.anomaly_score") /\
    c2 !! "operatorType" = Some (PStr "GREATER_THAN") /\
    c2 !! "value" = Some (PFloat (Real 0.7)).
Proof.
  destruct (search_alerts_conditions (Some "active") None None
              (Some (Real 0.7)) None None) as (sc & Heq & _ & _ & Hgroup & _).
  exists sc, (condition "$.status" "EQUALS" (PStr "active")),
    (condition "$.anomaly_score" "GREATER_THAN" (PFloat (Real 0.7))).
  rewrite Heq.
  split; [reflexivity|].
  rewrite Hgroup by (simpl; lia).
  repeat split.
Defined.

Example search_alerts_empty_status_ignored :
  search_alerts new (Some EmptyString) None None None None None !! "search_conditions"
  = Some (PDict ∅).
Proof. reflexivity. Qed.

Example search_alerts_zero_score_kept :
  search_alerts new None None None (Some (Real 0)) None None
  !! "search_conditions"
  = Some (PDict (simple_condition "$.anomaly_score" "GREATER_THAN"
                                  (PFloat (Real 0)))).
Proof. reflexivity. Qed.

End Specifications.

(** ** The alert-list cache *)

Section AlertList.
Import AlertRoutes.

Lemma truthy_dict_lookup (d : pydict) (key : string) (v : pyval) :
  d !! key = Some v -> truthy (PDict d) = true.
Proof.
  intros Hk. simpl. apply negb_true_iff, Nat.eqb_neq.
  apply map_size_ne_0_lookup. eauto.
Qed.

Lemma return_cached_spec (w : World) :
  exists resp,
    return_cached w = (Ok resp, w) /\
    body resp !! "alerts" = Some (PList (cached w)) /\
    body resp !! "cached" = Some (PBool (negb (Nat.eqb (length (cached w)) 0))) /\
    body resp !! "mcp_spec"
    = (if Nat.eqb (length (cached w)) 0
       then Some (PDict (CyodaAlertClient.list_all_alerts cyoda_client))
       else None).
Proof.
  unfold return_cached, cached, mbind, M_bind, get_cached_alerts.
  destruct (default [] (cached_alerts w)) as [|a l] eqn:E; simpl.
  - eexists. split; [reflexivity|]. by repeat split.
  - eexists. split; [reflexivity|]. by repeat split.
Qed.

(** C8. The cache of [/api/alerts/list] is one list.  (1) A POST whose body
    is an object with an [alerts] field, the entities of which normalise to
    [alerts], answers normally and leaves exactly [alerts] in the cache,
    whatever was cached before.  (2) A GET leaves the cached list as it
    was, and answers with the cached alerts; when that list is empty the
    answer carries the MCP list specification, otherwise it carries
    none.  Neither request touches the entities of the platform. *)
Theorem list_alerts_cache (w : World) :
  (forall (d : pydict) (field : pyval) (entities alerts : list pyval),
     d !! "alerts" = Some field ->
     iterate field = Ok entities ->
     normalize_alerts entities [] = Ok alerts ->
     exists resp w',
       list_alerts (POST (PDict d)) w = (Ok resp, w') /\
       cached w' = alerts /\
       cyoda_entities w' = cyoda_entities w /\
       body resp !! "count" = Some (PInt (Z.of_nat (length alerts)))) /\
  (exists resp w',
     list_alerts GET w = (Ok resp, w') /\
     cached w' = cached w /\
     cyoda_entities w' = cyoda_entities w /\
     body resp !! "alerts" = Some (PList (cached w)) /\
     body resp !! "mcp_spec"
     = (if Nat.eqb (length (cached w)) 0
        then Some (PDict (CyodaAlertClient.list_all_alerts cyoda_client))
        else None)).
Proof.
  split.
  - intros d field entities alerts Hfield Hiter Hnorm.
    unfold list_alerts, mbind, M_bind, get_cached_alerts, lift.
    rewrite (truthy_dict_lookup _ _ _ Hfield).
    unfold contains, getitem. rewrite Hfield.
    rewrite bool_decide_eq_true_2 by eauto. simpl of_option.
    destruct w as [ents [l|]]; cbn [cached_alerts cyoda_entities];
      unfold mret, M_ret, set_cached_alerts;
      rewrite Hiter, Hnorm;
      (do 2 eexists; split; [reflexivity|]); by repeat split.
  - unfold list_alerts, mbind, M_bind, get_cached_alerts.
    destruct w as [ents [l|]]; simpl.
    + destruct (return_cached_spec {| cyoda_entities := ents;
                                      cached_alerts := Some l |})
        as (resp & -> & Ha & _ & Hm).
      by exists resp, {| cyoda_entities := ents; cached_alerts := Some l |}.
    + destruct (return_cached_spec {| cyoda_entities := ents;
                                      cached_alerts := Some [] |})
        as (resp & -> & Ha & _ & Hm).
      by exists resp, {| cyoda_entities := ents; cached_alerts := Some [] |}.
Qed.

End AlertList.

Example list_alerts_replaces_cache :
  let entity :=
    PDict (list_to_map [("data", PDict (list_to_map [
      ("type", PStr "ENTITY");
      ("data", PDict (list_to_map [("severity", PStr "high")]));
      ("meta", PDict (list_to_map [("id", PStr "u-1")]))]))]) in
  let post := AlertRoutes.POST (PDict (list_to_map [
      ("alerts", PList [entity; PInt 3; PDict ∅])])) in
  let w := {| cyoda_entities := []; cached_alerts := Some [PStr "old"] |} in
  cached_alerts (AlertRoutes.list_alerts post w).2
  = Some [PDict (list_to_map [("technical_id", PStr "u-1");
                              ("severity", PStr "high")]);
          PDict ∅].
Proof. vm_compute. reflexivity. Qed.

Example list_alerts_malformed_wrapper :
  let post := AlertRoutes.POST (PDict (list_to_map [
      ("alerts", PList [PDict (list_to_map [("data", PStr "x")])])])) in
  let w := {| cyoda_entities := []; cached_alerts := Some [PStr "old"] |} in
  AlertRoutes.list_alerts post w = (Raise AttributeError, w).
Proof. vm_compute. reflexivity. Qed.

Lemma list_alerts_cache_witness :
  exists resp w',
    AlertRoutes.list_alerts
      (AlertRoutes.POST
         (PDict (list_to_map
                   [("alerts",
                     PList [PDict (list_to_map [("severity", PStr "high")])])])))
      Sample.world
    = (Ok resp, w') /\
    cached w' = [PDict (list_to_map [("severity", PStr "high")])].
Proof.
  destruct (list_alerts_cache Sample.world) as [Hpost _].
  destruct (Hpost
              (list_to_map
                 [("alerts",
                   PList [PDict (list_to_map [("severity", PStr "high")])])])
              (PList [PDict (list_to_map [("severity", PStr "high")])])
              [PDict (list_to_map [("severity", PStr "high")])]
              [PDict (list_to_map [("severity", PStr "high")])])
    as (resp & w' & Hrun & Hcache & _); [reflexivity..|].
  exists resp, w'. split; [exact Hrun | exact Hcache].
Defined.

(** Alerts sent as plain dictionaries, without a [data] field, are cached
    as they are. *)
Lemma normalize_alerts_plain (entities alerts : list pyval) :
  Forall (fun e => exists d : pydict, e = PDict d /\ d !! "data" = None)
         entities ->
  AlertRoutes.normalize_alerts entities alerts = Ok (alerts ++ entities)%list.
Proof.
  intros Hplain. revert alerts.
  induction Hplain as [|e entities (d & -> & Hd) _ IH]; intros alerts; simpl.
  - by rewrite app_nil_r.
  - rewrite Hd. simpl. rewrite IH. unfold append.
    by rewrite <- app_assoc.
Qed.

(** ** Frames *)

Section Frames.
Context {A : Type}.
Implicit Types (df : frame A) (name : string) (col : list A).

Lemma get_set_eq df name col : get (set df name col) name = Some col.
Proof.
  induction df as [|[n c] df IH]; simpl.
  - by rewrite String.eqb_refl.
  - destruct (n =? name) eqn:E; simpl; rewrite E; [done|apply IH].
Qed.

Lemma get_set_ne df name name' col :
  name <> name' -> get (set df name col) name' = get df name'.
Proof.
  intros Hne. induction df as [|[n c] df IH]; simpl.
  - by rewrite (proj2 (String.eqb_neq _ _) Hne).
  - destruct (String.eqb_spec n name) as [->|Hn]; simpl.
    + by rewrite (proj2 (String.eqb_neq _ _) Hne).
    + by rewrite IH.
Qed.

Lemma nrows_set df name col :
  df <> [] -> length col = nrows df -> nrows (set df name col) = nrows df.
Proof.
  destruct df as [|[n c] df]; [done|]. intros _ Hlen. simpl.
  by destruct (n =? name).
Qed.

Lemma set_not_nil df name col : set df name col <> [].
Proof. destruct df as [|[n c] df]; [done|]. simpl. by destruct (n =? name). Qed.

Lemma rectangular_get df name col :
  rectangular df -> get df name = Some col -> length col = nrows df.
Proof.
  unfold rectangular. generalize (nrows df) as k.
  induction df as [|[n c] df IH]; intros k Hrect Hget; [done|].
  apply Forall_cons in Hrect as [Hc Hrect]. simpl in *.
  destruct (n =? name); [by simplify_eq|eauto].
Qed.

Lemma Forall_set (P : string * list A -> Prop) df name col :
  Forall P df -> P (name, col) -> (forall n c, P (n, c) -> n = name -> P (n, col)) ->
  Forall P (set df name col).
Proof.
  intros Hall Hnew Hrepl. induction Hall as [|[n c] df Hx Hall IH]; simpl.
  - by constructor.
  - destruct (String.eqb_spec n name) as [->|Hn]; constructor; auto.
Qed.

Lemma rectangular_set df name col :
  rectangular df -> df = [] \/ length col = nrows df ->
  rectangular (set df name col).
Proof.
  intros Hrect [->|Hlen].
  - by repeat constructor.
  - destruct (decide (df = [])) as [->|Hne]; [by repeat constructor|].
    unfold rectangular. rewrite nrows_set by done.
    apply Forall_set; [done|done|]. by intros.
Qed.

Lemma setitem_Ok df name col :
  df = [] \/ length col = nrows df ->
  setitem df name col = Ok (set df name col).
Proof. intros H. unfold setitem. by rewrite bool_decide_eq_true_2. Qed.

Lemma setitem_inv df name col df' :
  setitem df name col = Ok df' ->
  df' = set df name col /\ (df = [] \/ length col = nrows df).
Proof.
  unfold setitem. case_bool_decide; [|done]. intros [= <-]. auto.
Qed.

Lemma select_nil_r (mask : list bool) : select mask (@nil A) = [].
Proof. by destruct mask. Qed.

Lemma row_at_S df (i : nat) : row_at df (S i) = row_at (each_column tail df) i.
Proof.
  unfold row_at, each_column. apply list_omap_ext.
  apply Forall2_fmap_r, Forall_Forall2_diag, Forall_true.
  intros [n c]. simpl. by destruct c.
Qed.

Lemma nrows_tail df : nrows (each_column tail df) = pred (nrows df).
Proof. destruct df as [|[n c] df]; [done|]. simpl. by destruct c. Qed.

Lemma iterrows_cons df (n : nat) :
  nrows df = S n ->
  iterrows df = row_at df 0 :: iterrows (each_column tail df).
Proof.
  intros Hn. unfold iterrows. rewrite nrows_tail, Hn. simpl.
  f_equal. rewrite <- fmap_S_seq, <- list_fmap_compose.
  apply list_fmap_ext. intros _ i _. apply row_at_S.
Qed.

Lemma iterrows_empty df : nrows df = 0%nat -> iterrows df = [].
Proof. unfold iterrows. by intros ->. Qed.

Lemma boolean_index_false df (mask : list bool) :
  boolean_index df (false :: mask) = boolean_index (each_column tail df) mask.
Proof.
  unfold boolean_index, each_column. rewrite <- list_fmap_compose.
  apply list_fmap_ext. intros _ [n c] _. simpl.
  destruct c; simpl; by rewrite ?select_nil_r.
Qed.

Lemma boolean_index_true df (mask : list bool) (n : nat) :
  nrows df = S n ->
  iterrows (boolean_index df (true :: mask))
  = row_at df 0 :: iterrows (boolean_index (each_column tail df) mask).
Proof.
  intros Hn.
  assert (exists m, nrows (boolean_index df (true :: mask)) = S m) as [m Hm].
  { destruct df as [|[k [|x c]] df]; try done. simpl. eauto. }
  rewrite (iterrows_cons _ _ Hm). f_equal.
  - unfold row_at, boolean_index, each_column. symmetry.
    apply list_omap_ext.
    apply Forall2_fmap_r, Forall_Forall2_diag, Forall_true.
    intros [k c]. simpl. by destruct c.
  - f_equal. unfold boolean_index, each_column.
    rewrite <- !list_fmap_compose. apply list_fmap_ext.
    intros _ [k c] _. simpl. destruct c; simpl; by rewrite ?select_nil_r.
Qed.

(** Iterating over the rows kept by a mask visits the kept rows of the
    frame, in their order. *)
Lemma iterrows_boolean_index df (mask : list bool) :
  iterrows (boolean_index df mask) = select mask (iterrows df).
Proof.
  revert df. induction mask as [|b mask IH]; intros df.
  - simpl. apply iterrows_empty. by destruct df as [|[n c] df].
  - destruct (nrows df) as [|n] eqn:Hn.
    + rewrite (iterrows_empty df Hn). simpl. apply iterrows_empty.
      destruct df as [|[k c] df]; [done|]. simpl in *.
      by destruct c.
    + rewrite (iterrows_cons df n Hn). destruct b; simpl.
      * rewrite <- IH. by eapply boolean_index_true.
      * rewrite <- IH. by rewrite boolean_index_false.
Qed.

Lemma row_get_row_at df (i : nat) name :
  rectangular df -> (i < nrows df)%nat ->
  row_get (row_at df i) name = get df name ≫= (fun col => col !! i).
Proof.
  unfold rectangular. generalize (nrows df) as k. intros k Hrect Hi.
  induction Hrect as [|[n c] df Hc Hrect IH]; [done|]. simpl in Hc.
  unfold row_at. simpl.
  destruct (lookup_lt_is_Some_2 c i) as [x Hx]; [lia|].
  rewrite Hx. simpl. destruct (n =? name); [done|]. apply IH.
Qed.

Lemma elem_of_iterrows df (r : row A) :
  r ∈ iterrows df -> exists i, (i < nrows df)%nat /\ r = row_at df i.
Proof.
  unfold iterrows. intros (i & -> & Hi)%list_elem_of_fmap.
  apply elem_of_seq in Hi. exists i. split; [lia|done].
Qed.

Lemma select_filter {B} (P : B -> bool) (mask : list bool) (xs : list B) :
  Forall2 (fun b x => P x = b) mask xs ->
  select mask xs = filter (fun x => P x = true) xs.
Proof.
  induction 1 as [|b x mask xs Hb _ IH]; [done|]. simpl.
  rewrite IH. destruct b.
  - by rewrite filter_cons_True.
  - rewrite filter_cons_False; [done|]. by rewrite Hb.
Qed.

End Frames.

(** ** The feature matrix *)

Section Features.
Import ClimateAnomalyDetector.

Lemma mapM_Ok_length {X Y} (f : X -> result Y) (l : list X) (k : list Y) :
  mapM f l = Ok k -> length k = length l.
Proof.
  revert k. induction l as [|x l IH]; intros k; simpl.
  - by intros [= <-].
  - destruct (f x) as [y|]; simpl; [|done].
    destruct (mapM f l) as [ys|]; simpl; [|done].
    intros [= <-]. simpl. by rewrite (IH ys).
Qed.

Lemma mapM_Ok_Forall2 {X Y} (f : X -> result Y) (l : list X) (k : list Y) :
  mapM f l = Ok k -> Forall2 (fun x y => f x = Ok y) l k.
Proof.
  revert k. induction l as [|x l IH]; intros k; simpl.
  - intros [= <-]. constructor.
  - destruct (f x) as [y|] eqn:Hx; simpl; [|done].
    destruct (mapM f l) as [ys|]; simpl; [|done].
    intros [= <-]. constructor; auto.
Qed.

Lemma as_numeric_fmap (values : list pyfloat) :
  as_numeric (Num <$> values) = Some values.
Proof.
  unfold as_numeric. induction values as [|x values IH]; [done|].
  rewrite fmap_cons. simpl. by rewrite IH.
Qed.

Lemma as_float64_fmap (pd : lib) (values : list pyfloat) :
  as_float64 pd (Num <$> values) = Ok values.
Proof.
  unfold as_float64. induction values as [|x values IH]; [done|].
  rewrite fmap_cons. simpl. by rewrite IH.
Qed.

Lemma length_rolling (w : nat) (agg : list Q -> pyfloat) (xs : list pyfloat) :
  length (rolling w agg xs) = length xs.
Proof. unfold rolling. by rewrite length_fmap, length_seq. Qed.

Lemma length_diff (xs : list pyfloat) : length (diff xs) = length xs.
Proof.
  destruct xs as [|x tl]; [done|]. simpl.
  rewrite length_zip_with. simpl. lia.
Qed.

Lemma length_bfill (xs : list pyfloat) : length (bfill xs) = length xs.
Proof. induction xs; simpl; congruence. Qed.

Lemma length_ffill (xs : list pyfloat) : length (ffill xs) = length xs.
Proof.
  unfold ffill. generalize NaN as prev.
  induction xs; intros prev; simpl; [done|]. by rewrite IHxs.
Qed.

Lemma length_fillna (v : Q) (xs : list pyfloat) :
  length (fillna v xs) = length xs.
Proof. apply length_fmap. Qed.

Lemma length_dt (field : Timestamp -> Z) (ts : list (option Timestamp)) :
  length (dt field ts) = length ts.
Proof. apply length_fmap. Qed.

Lemma fillna_no_nan (v : Q) (xs : list pyfloat) :
  Forall (fun x => is_nan x = false) (fillna v xs).
Proof. apply Forall_fmap, Forall_true. by intros []. Qed.

Lemma get_each_column {X Y} (f : list X -> list Y) (df : frame X)
    (name : string) :
  get (each_column f df) name = f <$> get df name.
Proof.
  induction df as [|[n c] df IH]; simpl; [done|].
  by destruct (n =? name).
Qed.

(** [prepare_features] on a frame whose value column is a column of
    floats. *)
Lemma prepare_features_unfold (pd : lib) (df : DataFrame) (value_column : string)
    (values : list pyfloat) :
  get df value_column = Some (Num <$> values) ->
  prepare_features pd df value_column
  = match get df "date" with
    | Some dates =>
        ts ← mapM (to_datetime1 pd) dates;
        Ok (each_column fill
              (value_features pd values ++ date_features pd ts)%list,
            set df "date" (Ts <$> ts))
    | None => Ok (each_column fill (value_features pd values), df)
    end.
Proof.
  intros Hcol. unfold prepare_features. rewrite Hcol. simpl of_option.
  unfold mbind at 1 2. unfold result_bind at 1 2.
  rewrite as_float64_fmap, as_numeric_fmap.
  unfold mbind at 1. unfold result_bind at 1.
  destruct (get df "date") as [dates|]; simpl.
  - unfold mbind, result_bind.
    destruct (mapM (to_datetime1 pd) dates) as [ts|]; reflexivity.
  - reflexivity.
Qed.

Lemma fill_no_nan (xs : list pyfloat) :
  Forall (fun x => is_nan x = false) (fill xs).
Proof. apply fillna_no_nan. Qed.

Lemma length_fill (xs : list pyfloat) : length (fill xs) = length xs.
Proof. unfold fill. by rewrite length_fillna, length_ffill, length_bfill. Qed.

Lemma value_features_lengths (pd : lib) (values : list pyfloat) :
  Forall (fun nc => length nc.2 = length values) (value_features pd values).
Proof.
  unfold value_features.
  repeat constructor; simpl; by rewrite ?length_rolling, ?length_diff.
Qed.

(** Filling leaves the numbers of a column where they are. *)
Lemma bfill_lookup_real (xs : list pyfloat) (i : nat) (q : Q) :
  xs !! i = Some (Real q) -> bfill xs !! i = Some (Real q).
Proof.
  revert i. induction xs as [|x xs IH]; intros [|i]; simpl; try done.
  - by intros [= ->].
  - apply IH.
Qed.

Lemma ffill_from_lookup_real (prev : pyfloat) (xs : list pyfloat) (i : nat)
    (q : Q) :
  xs !! i = Some (Real q) -> ffill_from prev xs !! i = Some (Real q).
Proof.
  revert prev i. induction xs as [|x xs IH]; intros prev [|i]; simpl; try done.
  - by intros [= ->].
  - apply IH.
Qed.

Lemma fill_lookup_real (xs : list pyfloat) (i : nat) (q : Q) :
  xs !! i = Some (Real q) -> fill xs !! i = Some (Real q).
Proof.
  intros Hx. unfold fill, fillna, ffill.
  rewrite list_lookup_fmap.
  by rewrite (ffill_from_lookup_real _ _ _ q) by (by apply bfill_lookup_real).
Qed.

(** The rolling aggregate at the end of a window of numbers. *)
Lemma window_at_is (w i : nat) (values : list pyfloat) (obs : list Q) :
  window_is w i values obs -> window_at w i values = Some obs.
Proof.
  intros (Hw & Hlen & Hobs). unfold window_at.
  destruct (Nat.ltb_spec (i + 1) w) as [|_]; [lia|].
  assert (take w (drop (i + 1 - w) values) = Real <$> obs) as ->.
  { apply list_eq. intros j. rewrite list_lookup_fmap.
    destruct (decide (j < w)%nat) as [Hj|Hj].
    - rewrite lookup_take_lt, lookup_drop by done. by apply Hobs.
    - rewrite lookup_take_ge by lia.
      by rewrite (lookup_ge_None_2 obs j) by lia. }
  clear. induction obs as [|q obs IH]; [done|].
  rewrite fmap_cons. simpl. by rewrite IH.
Qed.

Lemma rolling_lookup (w i : nat) (agg : list Q -> pyfloat)
    (values : list pyfloat) (obs : list Q) :
  (0 < w)%nat -> window_is w i values obs ->
  rolling w agg values !! i = Some (agg obs).
Proof.
  intros Hpos Hwin. pose proof (window_at_is _ _ _ _ Hwin) as Hat.
  destruct Hwin as (Hw & Hlen & Hobs).
  assert (i < length values)%nat as Hi.
  { apply lookup_lt_is_Some.
    specialize (Hobs (w - 1)%nat ltac:(lia)).
    replace (i + 1 - w + (w - 1))%nat with i in Hobs by lia.
    rewrite Hobs.
    destruct (lookup_lt_is_Some_2 obs (w - 1)%nat) as [q ->]; [lia|].
    by eexists. }
  unfold rolling. rewrite list_lookup_fmap, lookup_seq_lt by done.
  simpl. by rewrite Hat.
Qed.

Lemma mean_average (obs : list Q) : mean obs = Real (average obs).
Proof. reflexivity. Qed.

Lemma std_deviation (pd : lib) (obs : list Q) :
  (2 <= length obs)%nat -> std pd obs = Real (deviation pd obs).
Proof.
  intros Hlen. unfold std.
  by destruct (Nat.leb_spec (length obs) 1) as [|_]; [lia|].
Qed.

Lemma diff_lookup (values : list pyfloat) (i : nat) (x y : Q) :
  values !! i = Some (Real x) -> values !! S i = Some (Real y) ->
  diff values !! S i = Some (Real (y - x)).
Proof.
  destruct values as [|v tl]; [done|]. simpl. intros Hx Hy.
  by rewrite lookup_zip_with, Hy, Hx.
Qed.

(** C6. On a rectangular frame whose value column holds the floats
    [values] and whose date column, if there is one, is accepted by
    [pd.to_datetime], [prepare_features] returns a matrix whose columns
    are, in this order, the value, the rolling mean and standard deviation
    over 7, 14 and 30 rows, the daily change and, when a date column
    exists, day of year and month, each passed through bfill, ffill and
    fillna(0); every column has one entry per input row and no entry is
    NaN, whatever the number of rows.  What the columns hold: the value
    column the numbers of the input; at a row that ends a window of [w]
    numbers, the rolling mean their sum over [w] and the rolling standard
    deviation the root of their squared deviations from that mean over
    [w - 1]; the daily change, from the second row on, the difference to
    the row before; the two calendar columns the day of the year and the
    month of the row's date. *)
Theorem prepare_features_no_nan (pd : lib) (df : DataFrame)
    (value_column : string) (values : list pyfloat) :
  rectangular df ->
  get df value_column = Some (Num <$> values) ->
  (forall dates, get df "date" = Some dates ->
     exists ts, mapM (to_datetime1 pd) dates = Ok ts) ->
  exists (X : frame pyfloat) (df' : DataFrame),
    prepare_features pd df value_column = Ok (X, df') /\
    X = each_column fill
          (value_features pd values ++ calendar_features pd df)%list /\
    columns X
    = (value_feature_names
       ++ if get df "date" is Some _ then ["day_of_year"; "month"] else [])%list /\
    Forall (fun nc => length nc.2 = nrows df) X /\
    Forall (fun nc => Forall (fun x => is_nan x = false) nc.2) X /\
    (exists c, get X "value" = Some c /\
       forall i q, values !! i = Some (Real q) -> c !! i = Some (Real q)) /\
    (forall w i obs, w ∈ [7; 14; 30]%nat -> window_is w i values obs ->
       exists cm cs,
         get X ("rolling_mean_" +:+ pretty w) = Some cm /\
         get X ("rolling_std_" +:+ pretty w) = Some cs /\
         cm !! i = Some (Real (average obs)) /\
         cs !! i = Some (Real (deviation pd obs))) /\
    (exists c, get X "daily_change" = Some c /\
       forall i x y,
         values !! i = Some (Real x) -> values !! S i = Some (Real y) ->
         c !! S i = Some (Real (y - x))) /\
    (forall dates ts,
       get df "date" = Some dates -> mapM (to_datetime1 pd) dates = Ok ts ->
       exists cd cm,
         get X "day_of_year" = Some cd /\ get X "month" = Some cm /\
         forall i t, ts !! i = Some (Some t) ->
           cd !! i = Some (Real (inject_Z (dayofyear pd t))) /\
           cm !! i = Some (Real (inject_Z (month pd t)))).
Proof.
  intros Hrect Hcol Hdates.
  assert (length values = nrows df) as Hlen.
  { rewrite <- (length_fmap Num). by eapply rectangular_get. }
  rewrite (prepare_features_unfold _ _ _ _ Hcol).
  assert (Forall (fun nc => length nc.2 = nrows df)
                 (value_features pd values)) as Hvf.
  { rewrite <- Hlen. apply value_features_lengths. }
  assert (exists X df',
            match get df "date" with
            | Some dates =>
                ts ← mapM (to_datetime1 pd) dates;
                Ok (each_column fill
                      (value_features pd values ++ date_features pd ts)%list,
                    set df "date" (Ts <$> ts))
            | None => Ok (each_column fill (value_features pd values), df)
            end = Ok (X, df') /\
            X = each_column fill
                  (value_features pd values ++ calendar_features pd df)%list)
    as (X & df' & Hrun & HX).
  { unfold calendar_features. destruct (get df "date") as [dates|] eqn:Hd.
    - destruct (Hdates dates eq_refl) as [ts Hts]. rewrite Hts.
      by do 2 eexists.
    - do 2 eexists. by rewrite app_nil_r. }
  exists X, df'. split; [exact Hrun|]. split; [exact HX|]. clear Hrun.
  split; [|split; [|split; [|split; [|split; [|split]]]]].
  - subst X. unfold calendar_features.
    destruct (get df "date") as [dates|] eqn:Hd; [|by rewrite app_nil_r].
    destruct (Hdates dates eq_refl) as [ts ->]. reflexivity.
  - subst X. unfold each_column. apply Forall_fmap, Forall_app. split.
    + eapply Forall_impl; [exact Hvf|]. intros [n c]; simpl.
      by rewrite length_fill.
    + unfold calendar_features.
      destruct (get df "date") as [dates|] eqn:Hd; [|constructor].
      destruct (Hdates dates eq_refl) as [ts Hts]. rewrite Hts.
      assert (length ts = nrows df) as Hlts.
      { rewrite (mapM_Ok_length _ _ _ Hts). by eapply rectangular_get. }
      repeat constructor; simpl; by rewrite length_fill, length_dt.
  - subst X. unfold each_column.
    apply Forall_fmap, Forall_true. intros [n c]. apply fill_no_nan.
  - subst X. rewrite get_each_column. simpl. eexists. split; [done|].
    intros i q. apply fill_lookup_real.
  - intros w i obs Hw Hwin.
    assert (length obs = w) as Hobs by apply Hwin.
    subst X. rewrite !get_each_column.
    repeat (apply elem_of_cons in Hw as [->|Hw]);
      [| | |by apply elem_of_nil in Hw];
      simpl; do 2 eexists; (split; [done|]); (split; [done|]);
      (split; apply fill_lookup_real);
      rewrite (rolling_lookup _ _ _ _ obs) by (done || lia);
      by rewrite ?mean_average, ?std_deviation by lia.
  - subst X. rewrite get_each_column. simpl. eexists. split; [done|].
    intros i x y Hx Hy. apply fill_lookup_real. by apply diff_lookup.
  - intros dates ts Hd Hts. subst X. rewrite !get_each_column.
    unfold calendar_features. rewrite Hd, Hts. simpl.
    do 2 eexists. split; [done|]. split; [done|].
    intros i t Ht.
    split; apply fill_lookup_real; unfold dt;
      by rewrite list_lookup_fmap, Ht.
Qed.

Lemma prepare_features_no_nan_witness :
  exists X df' cm cs,
    prepare_features Sample.pd Sample.eight_days "value" = Ok (X, df') /\
    Forall (fun nc => length nc.2 = 8%nat) X /\
    Forall (fun nc => Forall (fun x => is_nan x = false) nc.2) X /\
    get X "rolling_mean_7" = Some cm /\
    get X "rolling_std_7" = Some cs /\
    cm !! 7%nat = Some (Real (average [12; 14; 16; 18; 20; 22; 24]%Q)) /\
    cs !! 7%nat
    = Some (Real (deviation Sample.pd [12; 14; 16; 18; 20; 22; 24]%Q)) /\
    (average [12; 14; 16; 18; 20; 22; 24]%Q == 18)%Q.
Proof.
  destruct (prepare_features_no_nan Sample.pd Sample.eight_days "value"
              [Real 10; Real 12; Real 14; Real 16; Real 18; Real 20; Real 22;
               Real 24])
    as (X & df' & Hrun & _ & _ & Hlen & Hnan & _ & Hroll & _).
  - repeat constructor.
  - reflexivity.
  - intros dates [=].
  - destruct (Hroll 7%nat 7%nat [12; 14; 16; 18; 20; 22; 24]%Q)
      as (cm & cs & Hcm & Hcs & Hm & Hs).
    + set_solver.
    + split; [simpl; lia|]. split; [reflexivity|].
      intros j Hj. do 7 (destruct j as [|j]; [reflexivity|]). lia.
    + exists X, df', cm, cs.
      split; [exact Hrun|]. split; [exact Hlen|]. split; [exact Hnan|].
      split; [exact Hcm|]. split; [exact Hcs|]. split; [exact Hm|].
      split; [exact Hs|]. reflexivity.
Defined.

Example prepare_features_single_row :
  prepare_features Sample.pd Sample.single_row "value"
  = Ok ([ ("value", [Real 21.5]);
          ("rolling_mean_7", [Real 0]); ("rolling_std_7", [Real 0]);
          ("rolling_mean_14", [Real 0]); ("rolling_std_14", [Real 0]);
          ("rolling_mean_30", [Real 0]); ("rolling_std_30", [Real 0]);
          ("daily_change", [Real 0]);
          ("day_of_year", [Real 2]); ("month", [Real 1]) ],
        [ ("date", [Ts (Some Sample.ns_per_day)]);
          ("value", [Num (Real 21.5)]) ]).
Proof. reflexivity. Qed.

Example rolling_mean_skips_incomplete_windows :
  rolling 2 mean [Real 1; NaN; Real 3; Real 7; Real 8]
  = [NaN; NaN; NaN; Real (10 # 2); Real (15 # 2)].
Proof. reflexivity. Qed.

Example fill_order :
  fill [NaN; Real 4; NaN; Real 6; NaN] = [Real 4; Real 4; Real 6; Real 6; Real 6].
Proof. reflexivity. Qed.

End Features.

(** ** Detection *)

Section Detection.
Import ClimateAnomalyDetector.

(** What a successful [prepare_features] did. *)
Lemma prepare_features_inv (pd : lib) (df : DataFrame) (value_column : string)
    (X : frame pyfloat) (df' : DataFrame) :
  prepare_features pd df value_column = Ok (X, df') ->
  exists col values change extra,
    get df value_column = Some col /\
    as_float64 pd col = Ok values /\
    X = each_column fill (feature_columns pd values change ++ extra)%list /\
    match get df "date" with
    | Some dates =>
        exists ts, mapM (to_datetime1 pd) dates = Ok ts /\
                   df' = set df "date" (Ts <$> ts)
    | None => df' = df
    end.
Proof.
  unfold prepare_features. intros Hrun.
  destruct (get df value_column) as [col|] eqn:Hcol; [|done].
  simpl of_option in Hrun.
  unfold mbind at 1, result_bind at 1 in Hrun.
  destruct (as_float64 pd col) as [values|] eqn:Hval; [|done].
  unfold mbind at 1, result_bind at 1 in Hrun.
  destruct (match as_numeric col with
            | Some values => Ok (diff values)
            | None => diff_object pd col
            end) as [change|]; [|done].
  exists col, values, change.
  destruct (get df "date") as [dates|].
  - destruct (mapM (to_datetime1 pd) dates) as [ts|]; [|done].
    unfold mbind, result_bind in Hrun. injection Hrun as <- <-.
    exists (date_features pd ts). repeat split; eauto.
  - unfold mbind, result_bind in Hrun. injection Hrun as <- <-.
    exists []. rewrite app_nil_r. by repeat split.
Qed.

Lemma prepare_features_frame (pd : lib) (df : DataFrame) (value_column : string)
    (X : frame pyfloat) (df' : DataFrame) :
  prepare_features pd df value_column = Ok (X, df') ->
  df' <> [] /\ nrows df' = nrows df /\
  (forall name, name <> "date" -> get df' name = get df name) /\
  (rectangular df -> rectangular df').
Proof.
  intros Hrun.
  destruct (prepare_features_inv _ _ _ _ _ Hrun)
    as (col & values & change & extra & Hcol & Hnum & _ & Hdate).
  assert (df <> []) as Hne by (by intros ->).
  destruct (get df "date") as [dates|] eqn:Hd.
  - destruct Hdate as (ts & Hts & ->).
    assert (length (Ts <$> ts) = length dates) as Hlen.
    { by rewrite length_fmap, (mapM_Ok_length _ _ _ Hts). }
    split; [by destruct df as [|[n c] df]; [|simpl; destruct (n =? "date")]|].
    split; [|split].
    + destruct df as [|[n c] df]; [done|]. simpl in *.
      destruct (n =? "date"); [|done]. simpl. by simplify_eq.
    + intros name Hname. by rewrite get_set_ne.
    + intros Hrect. apply rectangular_set; [done|]. right.
      rewrite Hlen. by eapply rectangular_get.
  - by subst.
Qed.

(** C7. For a fitted detector, when feature preparation, scaling and the
    two calls into the outlier model return (one prediction and one score
    per row), [detect] returns the caller's frame, as [prepare_features]
    left it, with the columns [is_anomaly] and [anomaly_score] set: the
    flag of a row is true exactly when the prediction for it is -1, the
    anomaly score is the negated model score, every other column is the
    input's (the date column converted to timestamps), and a row that the
    model scores lower has the higher anomaly score. *)
Theorem detect_spec (pd : lib) (self : t) (df : DataFrame)
    (value_column : string) (X : frame pyfloat) (df' : DataFrame)
    (X_scaled : ndarray) (predictions : list Z) (scores : list Q) :
  fitted self = true ->
  prepare_features pd df value_column = Ok (X, df') ->
  transform (scaler self) X = Ok X_scaled ->
  predict (model self) X_scaled = Ok predictions ->
  score_samples (model self) X_scaled = Ok scores ->
  length predictions = nrows df ->
  length scores = nrows df ->
  exists (result_df : DataFrame) (flags anomaly : list cell),
    detect pd self df value_column = Ok (result_df, df') /\
    get result_df "is_anomaly" = Some flags /\
    get result_df "anomaly_score" = Some anomaly /\
    Forall2 (fun p c => exists b : bool, c = Bool b /\ (b = true <-> p = (-1)%Z))
            predictions flags /\
    Forall2 (fun s c => c = Num (Real (- s))) scores anomaly /\
    (forall name, name <> "is_anomaly" -> name <> "anomaly_score" ->
       get result_df name = get df' name) /\
    (forall name, name <> "date" -> get df' name = get df name) /\
    nrows result_df = nrows df /\
    (forall i j si sj,
       scores !! i = Some si -> scores !! j = Some sj -> (si < sj)%Q ->
       exists ai aj,
         anomaly !! i = Some (Num (Real ai)) /\
         anomaly !! j = Some (Num (Real aj)) /\ (aj < ai)%Q).
Proof.
  intros Hfit Hprep Htrans Hpred Hscore Hlp Hls.
  destruct (prepare_features_frame _ _ _ _ _ Hprep) as (Hne & Hrows & Hcols & _).
  unfold detect. rewrite Hfit, Hprep. simpl negb. cbv iota.
  unfold mbind at 1, result_bind at 1. cbv beta iota.
  rewrite Htrans. unfold mbind at 1, result_bind at 1. cbv beta iota.
  rewrite Hpred. unfold mbind at 1, result_bind at 1. cbv beta iota.
  rewrite Hscore. unfold mbind at 1, result_bind at 1. cbv beta iota.
  rewrite setitem_Ok
    by (right; rewrite length_fmap; congruence).
  unfold mbind at 1, result_bind at 1. cbv beta iota.
  rewrite setitem_Ok
    by (right; rewrite length_fmap, nrows_set;
        rewrite ?length_fmap; congruence).
  unfold mbind, result_bind. cbv beta iota.
  do 3 eexists. split; [reflexivity|].
  split; [by rewrite get_set_ne, get_set_eq|].
  split; [by rewrite get_set_eq|].
  split.
  { apply Forall2_fmap_r, Forall_Forall2_diag, Forall_true.
    intros p. eexists. split; [done|]. apply Z.eqb_eq. }
  split.
  { by apply Forall2_fmap_r, Forall_Forall2_diag, Forall_true. }
  split.
  { intros name H1 H2. by rewrite !get_set_ne. }
  split; [done|].
  split.
  { rewrite nrows_set, nrows_set; rewrite ?length_fmap;
      auto using set_not_nil; try congruence.
    rewrite nrows_set; rewrite ?length_fmap; congruence. }
  intros i j si sj Hi Hj Hlt.
  exists (- si)%Q, (- sj)%Q. rewrite !list_lookup_fmap, Hi, Hj.
  repeat split. lra.
Qed.

Lemma detect_spec_witness :
  exists result_df flags anomaly,
    detect Sample.pd Sample.detector Sample.climate_data "value"
    = Ok (result_df, [ ("date", [Ts (Some 0%Z); Ts (Some Sample.ns_per_day)]);
                       ("value", [Num (Real 21.5); Num (Real 38.5)]) ]) /\
    get result_df "is_anomaly" = Some flags /\
    get result_df "anomaly_score" = Some anomaly /\
    flags = [Bool false; Bool true] /\
    Forall2 (fun s c => c = Num (Real (- s)))
            [(- 21.5 / 50)%Q; (- 38.5 / 50)%Q] anomaly.
Proof.
  edestruct (detect_spec Sample.pd Sample.detector Sample.climate_data "value")
    as (result_df & flags & anomaly & Hrun & Hf & Ha & Hflags & Hscores & _).
  - reflexivity.
  - reflexivity.
  - reflexivity.
  - reflexivity.
  - reflexivity.
  - reflexivity.
  - reflexivity.
  - exists result_df, flags, anomaly.
    split; [exact Hrun|]. split; [exact Hf|]. split; [exact Ha|].
    split; [|exact Hscores].
    pose proof Hrun as Hrun'. vm_compute in Hrun'.
    injection Hrun' as <-. vm_compute in Hf. by injection Hf.
Defined.

(** What a successful [detect] did. *)
Lemma detect_inv (pd : lib) (self : t) (df : DataFrame) (value_column : string)
    (result_df df' : DataFrame) :
  detect pd self df value_column = Ok (result_df, df') ->
  exists X X_scaled predictions scores,
    fitted self = true /\
    prepare_features pd df value_column = Ok (X, df') /\
    transform (scaler self) X = Ok X_scaled /\
    predict (model self) X_scaled = Ok predictions /\
    score_samples (model self) X_scaled = Ok scores /\
    length predictions = nrows df /\
    length scores = nrows df /\
    result_df
    = set (set df' "is_anomaly" ((fun p => Bool (p =? -1)%Z) <$> predictions))
          "anomaly_score" ((fun s => Num (neg (Real s))) <$> scores).
Proof.
  unfold detect. intros Hrun.
  destruct (fitted self); [|done]. simpl in Hrun.
  destruct (prepare_features pd df value_column) as [[X d]|] eqn:Hprep;
    [|done]. simpl in Hrun.
  destruct (transform (scaler self) X) as [Xs|] eqn:Ht; [|done].
  simpl in Hrun.
  destruct (predict (model self) Xs) as [ps|] eqn:Hp; [|done].
  simpl in Hrun.
  destruct (score_samples (model self) Xs) as [ss|] eqn:Hs; [|done].
  simpl in Hrun.
  destruct (setitem d "is_anomaly" _) as [d1|] eqn:H1; [|done].
  simpl in Hrun.
  destruct (setitem d1 "anomaly_score" _) as [d2|] eqn:H2; [|done].
  simpl in Hrun. simplify_eq.
  destruct (prepare_features_frame _ _ _ _ _ Hprep) as (Hne & Hrows & _).
  apply setitem_inv in H1 as [-> [?|Hl1]]; [done|].
  apply setitem_inv in H2 as [-> [Hnil|Hl2]];
    [by apply set_not_nil in Hnil|].
  rewrite length_fmap in Hl1.
  rewrite length_fmap, nrows_set in Hl2
    by (rewrite ?length_fmap; done).
  exists X, Xs, ps, ss. repeat split; congruence.
Qed.

End Detection.

(** ** From detection to alert specifications *)

Section Alerts.
Import CyodaAlertClient ClimateAnomalyDetector ClimateAlertService.

Lemma create_alert_new (self : CyodaAlertClient.t) (now alert_type severity : string)
    (value : pyfloat) (date : string) (anomaly_score : pyfloat)
    (location metric : string) (description ai_analysis recommendations : pyval)
    (w : World) :
  exists spec entity_data,
    create_alert self now alert_type severity value date anomaly_score
                 location metric description ai_analysis recommendations w
    = (Ok spec, w) /\
    new_alert spec /\ classified alert_type severity spec /\
    spec !! "entity_data" = Some (PDict entity_data) /\
    entity_data !! "value" = Some (PFloat value) /\
    entity_data !! "anomaly_score" = Some (PFloat anomaly_score) /\
    entity_data !! "metric" = Some (PStr metric) /\
    entity_data !! "alert_type" = Some (PStr alert_type) /\
    entity_data !! "severity" = Some (PStr severity).
Proof.
  destruct (create_alert_run self now alert_type severity value date
              anomaly_score location metric description ai_analysis
              recommendations w)
    as (ed & -> & _ & Hty & Hsev & Hval & _ & Hsc & _ & Hmet & Hst & _ & Hack
           & Hres & _).
  eexists. exists ed. split; [reflexivity|].
  split; [exists ed; by repeat split|].
  split; [exists ed; by repeat split|].
  by repeat split.
Qed.

Lemma bind_lift_Ok {X Y} (x : X) (k : X -> M Y) (w : World) :
  (lift (Ok x) ≫= k) w = k x w.
Proof. reflexivity. Qed.

Lemma bind_lift_Raise {X Y} (e : exn) (k : X -> M Y) (w : World) :
  (lift (Raise e) ≫= k) w = (Raise e, w).
Proof. reflexivity. Qed.

(** The rows of a detection result on a frame whose value column holds
    floats: the flags are booleans, the scores and the values are numbers,
    and the date, if any, is a timestamp. *)
Lemma detect_rows (pd : lib) (txt : text)
    (detector : ClimateAnomalyDetector.t) (df : DataFrame)
    (value_column : string) (values : list pyfloat) (results df' : DataFrame) :
  rectangular df ->
  value_column ∉ ["date"; "is_anomaly"; "anomaly_score"] ->
  get df value_column = Some (Num <$> values) ->
  detect pd detector df value_column = Ok (results, df') ->
  exists (flags : list bool) (scores : list pyfloat),
    get results "is_anomaly" = Some (Bool <$> flags) /\
    get results "anomaly_score" = Some (Num <$> scores) /\
    get results value_column = Some (Num <$> values) /\
    length flags = nrows results /\
    length scores = nrows results /\
    length values = nrows results /\
    (forall i v s, values !! i = Some v -> scores !! i = Some s ->
       row_float txt (row_at results i) value_column = Ok v /\
       row_float txt (row_at results i) "anomaly_score" = Ok s /\
       (forall now, exists d,
          date_string pd (default (Str now)
                                  (row_get (row_at results i) "date"))
          = Ok d)).
Proof.
  intros Hrect Hvc Hcol Hrun.
  assert (value_column <> "date" /\ value_column <> "is_anomaly" /\
          value_column <> "anomaly_score") as (Hv0 & Hv1 & Hv2).
  { repeat split; intros ->; apply Hvc; set_solver. }
  destruct (detect_inv _ _ _ _ _ _ Hrun)
    as (X & Xs & ps & ss & _ & Hprep & _ & _ & _ & Hlp & Hls & ->).
  destruct (prepare_features_frame _ _ _ _ _ Hprep)
    as (Hne & Hrows & Hcols & Hrect').
  destruct (prepare_features_inv _ _ _ _ _ Hprep)
    as (col & vals & change & extra & _ & _ & _ & Hdate).
  specialize (Hrect' Hrect).
  set (flags := (fun p => (p =? -1)%Z) <$> ps).
  set (scores := (fun s => neg (Real s)) <$> ss).
  assert ((fun p => Bool (p =? -1)%Z) <$> ps = Bool <$> flags) as ->
    by (unfold flags; by rewrite <- list_fmap_compose).
  assert ((fun s => Num (neg (Real s))) <$> ss = Num <$> scores) as ->
    by (unfold scores; by rewrite <- list_fmap_compose).
  assert (length flags = nrows df') as Hlf
    by (unfold flags; rewrite length_fmap; congruence).
  assert (length scores = nrows df') as Hla
    by (unfold scores; rewrite length_fmap; congruence).
  assert (length values = nrows df') as Hlv.
  { rewrite Hrows, <- (length_fmap Num). by eapply rectangular_get. }
  assert (nrows (set df' "is_anomaly" (Bool <$> flags)) = nrows df') as Hn1
    by (apply nrows_set; [done|by rewrite length_fmap]).
  set (results := set (set df' "is_anomaly" (Bool <$> flags))
                      "anomaly_score" (Num <$> scores)).
  assert (nrows results = nrows df') as Hn2.
  { unfold results. rewrite nrows_set; auto using set_not_nil.
    rewrite length_fmap. congruence. }
  assert (rectangular results) as Hrr.
  { apply rectangular_set;
      [apply rectangular_set; [done|right; by rewrite length_fmap]|].
    right. rewrite length_fmap. congruence. }
  assert (get results value_column = Some (Num <$> values)) as Hval.
  { unfold results. by rewrite !get_set_ne, Hcols by done. }
  exists flags, scores.
  split; [unfold results; by rewrite get_set_ne, get_set_eq|].
  split; [unfold results; by rewrite get_set_eq|].
  split; [done|]. split; [congruence|]. split; [congruence|].
  split; [congruence|].
  intros i v s Hv Hs.
  assert (i < nrows results)%nat as Hi.
  { rewrite Hn2, <- Hlv. by eapply lookup_lt_Some. }
  assert (forall name,
            row_get (row_at results i) name
            = get results name ≫= (fun c => c !! i)) as Hrow.
  { intros name. by apply row_get_row_at. }
  split; [|split].
  - unfold row_float. rewrite Hrow, Hval. simpl.
    by rewrite list_lookup_fmap, Hv.
  - unfold row_float. rewrite Hrow. unfold results at 1. rewrite get_set_eq.
    simpl. by rewrite list_lookup_fmap, Hs.
  - intros now. rewrite Hrow. unfold results at 1.
    rewrite !get_set_ne by done.
    destruct (get df "date") as [dates|] eqn:Hd.
    + destruct Hdate as (ts & Hts & ->). rewrite get_set_eq. simpl.
      rewrite list_lookup_fmap.
      destruct (ts !! i) as [[t|]|]; simpl; by eexists.
    + subst df'. rewrite Hd. simpl. by eexists.
Qed.

(** The loop body either raises, leaving the state alone, or is the call of
    [create_alert] on the classification of the row's value and score. *)
Lemma alert_of_row_cases (pd : lib) (txt : text) (self : ClimateAlertService.t)
    (client : CyodaAlertClient.t) (clock : nat -> string)
    (value_column metric : string) (use_ai_analysis : bool)
    (k : nat) (r : row cell) (w : World) :
  let date_raw := default (Str (clock (2 * k)%nat)) (row_get r "date") in
  (exists e,
     alert_of_row pd txt self client clock value_column metric
                  use_ai_analysis k r w = (Raise e, w) /\
     (date_string pd date_raw = Raise e \/
      row_float txt r value_column = Raise e \/
      row_float txt r "anomaly_score" = Raise e)) \/
  (exists value score date description ai_analysis recommendations,
     row_float txt r value_column = Ok value /\
     row_float txt r "anomaly_score" = Ok score /\
     alert_of_row pd txt self client clock value_column metric
                  use_ai_analysis k r w
     = create_alert client (clock (2 * k + 1)%nat)
         (determine_alert_type value metric PNone)
         (classify_severity score value metric)
         value date score "Uruguay" metric
         description ai_analysis recommendations w).
Proof.
  intros date_raw. unfold alert_of_row. fold date_raw.
  destruct (date_string pd date_raw) as [date|e];
    [rewrite bind_lift_Ok|left; exists e; rewrite bind_lift_Raise; auto].
  destruct (row_float txt r value_column) as [value|e];
    [rewrite bind_lift_Ok|left; exists e; rewrite bind_lift_Raise; auto].
  destruct (row_float txt r "anomaly_score") as [score|e];
    [rewrite bind_lift_Ok|left; exists e; rewrite bind_lift_Raise; auto].
  right. exists value, score, date.
  destruct (use_ai_analysis && bool_decide (is_Some (gemini_client self)));
    do 3 eexists; by repeat split.
Qed.

Lemma alert_of_row_result (pd : lib) (txt : text)
    (self : ClimateAlertService.t) (client : CyodaAlertClient.t)
    (clock : nat -> string) (value_column metric : string)
    (use_ai_analysis : bool) (k : nat) (r : row cell) (w : World) :
  let date_raw := default (Str (clock (2 * k)%nat)) (row_get r "date") in
  (exists e,
     alert_of_row pd txt self client clock value_column metric
                  use_ai_analysis k r w = (Raise e, w) /\
     (date_string pd date_raw = Raise e \/
      row_float txt r value_column = Raise e \/
      row_float txt r "anomaly_score" = Raise e)) \/
  (exists spec,
     alert_of_row pd txt self client clock value_column metric
                  use_ai_analysis k r w = (Ok spec, w) /\
     alert_of txt value_column metric r spec).
Proof.
  intros date_raw.
  destruct (alert_of_row_cases pd txt self client clock value_column metric
              use_ai_analysis k r w)
    as [Hraise|(value & score & date & de & ai & re & Hv & Hs & ->)];
    [by left|right].
  destruct (create_alert_new client (clock (2 * k + 1)%nat)
              (determine_alert_type value metric PNone)
              (classify_severity score value metric) value date score
              "Uruguay" metric de ai re w)
    as (spec & ed & -> & Hnew & Hcl & Hfields).
  exists spec. split; [done|]. exists value, score.
  do 4 (split; [done|]). by exists ed.
Qed.

Section Loop.
Context (body : nat -> row cell -> M pydict) (P : row cell -> pydict -> Prop).

(** A loop whose body leaves the state alone returns, when it returns, the
    accumulator followed by one alert per row, in the order of the rows. *)
Lemma alerts_loop_inv (k : nat) (rows : list (row cell)) (acc alerts : list pydict)
    (w w' : World) :
  (forall k r w, (exists e, body k r w = (Raise e, w)) \/
                 (exists a, body k r w = (Ok a, w) /\ P r a)) ->
  alerts_loop body k rows acc w = (Ok alerts, w') ->
  w' = w /\ exists new, alerts = (acc ++ new)%list /\ Forall2 P rows new.
Proof.
  intros Hbody. revert k acc.
  induction rows as [|r rows IH]; intros k acc; simpl.
  - intros [= <- <-]. split; [done|]. exists []. by rewrite app_nil_r.
  - unfold mbind, M_bind.
    destruct (Hbody k r w) as [[e ->]|(a & -> & Ha)]; [done|].
    intros Hrun. destruct (IH _ _ Hrun) as (-> & new & -> & Hnew).
    split; [done|]. exists (a :: new). unfold append.
    rewrite <- app_assoc. split; [done|]. by constructor.
Qed.

(** If the body returns on every row of the list, the loop returns. *)
Lemma alerts_loop_run (k : nat) (rows : list (row cell)) (acc : list pydict)
    (w : World) :
  (forall k r, r ∈ rows -> exists a, body k r w = (Ok a, w) /\ P r a) ->
  exists new,
    alerts_loop body k rows acc w = (Ok (acc ++ new)%list, w) /\
    Forall2 P rows new.
Proof.
  revert k acc. induction rows as [|r rows IH]; intros k acc Hbody; simpl.
  - exists []. by rewrite app_nil_r.
  - unfold mbind, M_bind.
    destruct (Hbody k r) as (a & -> & Ha); [set_solver|].
    destruct (IH (S k) (append acc a)) as (new & -> & Hnew).
    { intros k' r' Hr'. apply Hbody. set_solver. }
    exists (a :: new). unfold append. rewrite <- app_assoc.
    split; [done|]. by constructor.
Qed.

End Loop.

Lemma select_elem_of {B} (mask : list bool) (xs : list B) (x : B) :
  x ∈ select mask xs -> x ∈ xs.
Proof.
  revert xs. induction mask as [|b mask IH]; intros [|y xs]; simpl;
    try (by intros ?%elem_of_nil).
  destruct b.
  - intros [->|Hx]%elem_of_cons; [left|right; auto].
  - intros Hx. right. auto.
Qed.

(** From the rows that the mask selects to the rows whose flag is set. *)
Lemma Forall2_select_zip {B C D} (P : B -> D -> Prop) (R : C -> D -> Prop)
    (Q : B -> C -> Prop) (mask : list bool) (xs : list B) (ys : list C)
    (out : list D) :
  Forall2 Q xs ys ->
  (forall x y d, Q x y -> P x d -> R y d) ->
  Forall2 P (select mask xs) out ->
  Forall2 (fun t d => R t.2 d)
          (filter (fun t => t.1 = true) (zip mask ys)) out.
Proof.
  intros HQ HPR. revert mask out.
  induction HQ as [|x y xs ys Hxy _ IH]; intros [|b mask] out; simpl;
    try (by intros ->%Forall2_nil_inv_l).
  destruct b.
  - intros (d & out' & Hd & Hout & ->)%Forall2_cons_inv_l.
    rewrite filter_cons_True by done. constructor; eauto.
  - intros Hout. rewrite filter_cons_False by done. auto.
Qed.

(** C4. For a service with a detector and a client and a rectangular frame
    whose value column holds floats and is none of the columns that
    detection writes: whenever detection returns [results], whose
    [is_anomaly] column holds the booleans [flags] and whose
    [anomaly_score] column the numbers [scores],
    [detect_and_create_alerts] returns, leaving the state as it was, one
    specification per row whose flag is true, in row order, and none for
    the other rows; the [entity_data] of the specification of a row holds
    the value and the anomaly score of that row, with
    [alert_type = determine_alert_type(value, metric)] and
    [severity = classify_severity(anomaly_score, value, metric)]. *)
Theorem detect_and_create_alerts_spec (pd : lib) (txt : text)
    (self : ClimateAlertService.t) (detector : ClimateAnomalyDetector.t)
    (client : CyodaAlertClient.t) (clock : nat -> string)
    (climate_data : DataFrame) (value_column metric : string)
    (use_ai_analysis : bool) (values : list pyfloat)
    (results df' : DataFrame) (w : World) :
  anomaly_detector self = Some detector ->
  ClimateAlertService.cyoda_client self = Some client ->
  rectangular climate_data ->
  value_column ∉ ["date"; "is_anomaly"; "anomaly_score"] ->
  get climate_data value_column = Some (Num <$> values) ->
  detect pd detector climate_data value_column = Ok (results, df') ->
  exists (flags : list bool) (scores : list pyfloat) (alerts : list pydict),
    get results "is_anomaly" = Some (Bool <$> flags) /\
    get results "anomaly_score" = Some (Num <$> scores) /\
    get results value_column = Some (Num <$> values) /\
    length flags = nrows results /\
    length scores = nrows results /\
    length values = nrows results /\
    detect_and_create_alerts pd txt self clock climate_data value_column
                             metric use_ai_analysis w
    = (Ok (alerts, df'), w) /\
    Forall2 (fun row spec => alert_for metric row.2.1 row.2.2 spec)
            (filter (fun row => row.1 = true)
                    (zip flags (zip values scores)))
            alerts.
Proof.
  intros Hdet Hcli Hrect Hvc Hcol Hrun.
  destruct (detect_rows _ txt _ _ _ _ _ _ Hrect Hvc Hcol Hrun)
    as (flags & scores & Hf & Hs & Hv & Hlf & Hls & Hlv & Hrows).
  exists flags, scores.
  unfold detect_and_create_alerts. rewrite Hdet, Hcli, Hrun.
  rewrite bind_lift_Ok. cbv beta iota. rewrite Hf. simpl of_option.
  rewrite bind_lift_Ok.
  assert (eq_True <$> (Bool <$> flags) = flags) as ->.
  { rewrite <- list_fmap_compose. by rewrite <- (list_fmap_id flags) at 2. }
  rewrite iterrows_boolean_index.
  assert (Forall2 (fun r p =>
                     row_float txt r value_column = Ok p.1 /\
                     row_float txt r "anomaly_score" = Ok p.2 /\
                     forall now, exists d,
                       date_string pd (default (Str now) (row_get r "date"))
                       = Ok d)
                  (iterrows results) (zip values scores)) as Hall.
  { apply Forall2_same_length_lookup_2.
    - unfold iterrows.
      rewrite length_fmap, length_seq, length_zip. lia.
    - intros i r [v s] Hr Hp. unfold iterrows in Hr.
      rewrite list_lookup_fmap in Hr.
      destruct (seq 0 (nrows results) !! i) as [j|] eqn:Hj; [|done].
      apply lookup_seq in Hj as [-> Hi]. simpl in Hr. simplify_eq.
      apply lookup_zip_with_Some in Hp as (v' & s' & [= <- <-] & Hv' & Hs').
      by apply Hrows. }
  destruct (alerts_loop_run
              (alert_of_row pd txt self client clock value_column metric
                            use_ai_analysis)
              (alert_of txt value_column metric) 0
              (select flags (iterrows results)) [] w)
    as (alerts & Hloop & Hspecs).
  { intros k r Hr%select_elem_of.
    apply list_elem_of_lookup in Hr as [i Hr].
    destruct (Forall2_lookup_l _ _ _ _ _ Hall Hr)
      as ([v s] & _ & Hrv & Hrs & Hd).
    destruct (Hd (clock (2 * k)%nat)) as [d Hdate].
    destruct (alert_of_row_result pd txt self client clock value_column
                metric use_ai_analysis k r w)
      as [(e & _ & [He|[He|He]])|Hok]; [congruence..|done]. }
  exists alerts. do 6 (split; [done|]). split.
  - unfold mbind, M_bind. by rewrite Hloop.
  - simpl in Hspecs.
    apply (Forall2_select_zip
             (alert_of txt value_column metric)
             (fun p spec => alert_for metric p.1 p.2 spec)
             _ _ _ _ _ Hall); [|done].
    intros r [v s] spec (Hrv & Hrs & _) (v' & s' & Hv' & Hs' & _ & _ & Hfor).
    simpl in *. congruence.
Qed.

(** C9. Every specification made by [create_alert] describes a new alert:
    its [entity_data] has [status] "active", [acknowledged] False and
    [resolved] False, whatever the arguments; and so does every
    specification in a list returned by [detect_and_create_alerts]. *)
Theorem alert_specifications_new :
  (forall (self : CyodaAlertClient.t) (now alert_type severity : string)
          (value : pyfloat) (date : string) (anomaly_score : pyfloat)
          (location metric : string)
          (description ai_analysis recommendations : pyval) (w : World),
     exists spec,
       create_alert self now alert_type severity value date anomaly_score
                    location metric description ai_analysis recommendations w
       = (Ok spec, w) /\
       new_alert spec) /\
  (forall (pd : lib) (txt : text) (self : ClimateAlertService.t)
          (clock : nat -> string) (climate_data : DataFrame)
          (value_column metric : string) (use_ai_analysis : bool)
          (w w' : World) (alerts : list pydict) (df' : DataFrame),
     detect_and_create_alerts pd txt self clock climate_data value_column
                              metric use_ai_analysis w
     = (Ok (alerts, df'), w') ->
     Forall new_alert alerts).
Proof.
  split.
  - intros. destruct (create_alert_new self now alert_type severity value
                        date anomaly_score location metric description
                        ai_analysis recommendations w)
      as (spec & ? & ? & ? & _).
    eauto.
  - intros pd txt self clock df vc metric use_ai w w' alerts df'.
    unfold detect_and_create_alerts.
    destruct (anomaly_detector self) as [detector|]; [|done].
    destruct (ClimateAlertService.cyoda_client self) as [client|]; [|done].
    destruct (detect pd detector df vc) as [[results d]|];
      [rewrite bind_lift_Ok|by rewrite bind_lift_Raise].
    cbv beta iota.
    destruct (get results "is_anomaly") as [flags|]; simpl of_option;
      [rewrite bind_lift_Ok|by rewrite bind_lift_Raise].
    unfold mbind at 1, M_bind at 1.
    destruct (alerts_loop _ 0 _ [] w) as [[alerts0|e] w1] eqn:Hloop; [|done].
    intros [= <- <- <-].
    apply (alerts_loop_inv _ (fun _ spec => new_alert spec)) in Hloop
      as (_ & new & -> & Hnew).
    + simpl. clear -Hnew. induction Hnew; constructor; auto.
    + intros k r w0.
      destruct (alert_of_row_result pd txt self client clock vc metric
                  use_ai k r w0)
        as [(e & He & _)|(spec & Hs & (_ & _ & _ & _ & Hn & _))];
        [left|right]; eauto.
Qed.

Example detect_and_create_alerts_without_client :
  let service := {|
    anomaly_detector := Some Sample.detector;
    gemini_client := None;
    ClimateAlertService.cyoda_client := None |} in
  detect_and_create_alerts Sample.pd Sample.txt service Sample.clock
    Sample.climate_data "value" "temperature" true Sample.world
  = (Raise (ValueError "Cyoda client not initialized"), Sample.world).
Proof. reflexivity. Qed.

End Alerts.

Lemma detect_and_create_alerts_spec_witness :
  exists (spec entity_data : pydict) (df' : DataFrame),
    ClimateAlertService.detect_and_create_alerts Sample.pd Sample.txt
      Sample.service Sample.clock Sample.climate_data "value" "temperature"
      true Sample.world
    = (Ok ([spec], df'), Sample.world) /\
    spec !! "entity_data" = Some (PDict entity_data) /\
    entity_data !! "value" = Some (PFloat (Real 38.5)) /\
    entity_data !! "alert_type" = Some (PStr "heat_wave") /\
    entity_data !! "severity" = Some (PStr "high").
Proof.
  assert (exists results df' a b,
            ClimateAnomalyDetector.detect Sample.pd Sample.detector
              Sample.climate_data "value" = Ok (results, df') /\
            get results "is_anomaly" = Some [Bool false; Bool true] /\
            get results "anomaly_score" = Some [Num a; Num b] /\
            CyodaAlertClient.classify_severity b (Real 38.5) "temperature"
            = "high")
    as (results & df' & a & b & Hdet & Hflags & Hscores & Hhigh)
    by (do 4 eexists; repeat split; vm_compute; reflexivity).
  destruct (detect_and_create_alerts_spec Sample.pd Sample.txt Sample.service
              Sample.detector CyodaAlertClient.new Sample.clock
              Sample.climate_data "value" "temperature" true
              [Real 21.5; Real 38.5] results df' Sample.world)
    as (flags & scores & alerts & Hf & Hs & _ & _ & _ & _ & Hrun & Hall).
  - reflexivity.
  - reflexivity.
  - repeat constructor.
  - intros H. repeat (apply elem_of_cons in H as [H|H]; [discriminate H|]).
    by apply elem_of_nil in H.
  - reflexivity.
  - exact Hdet.
  - rewrite Hflags in Hf. injection Hf as Hf.
    destruct flags as [|b1 [|b2 [|b3 flags]]]; try discriminate Hf.
    injection Hf as <- <-.
    rewrite Hscores in Hs. injection Hs as Hs.
    destruct scores as [|s1 [|s2 [|s3 scores]]]; try discriminate Hs.
    injection Hs as <- <-.
    simpl in Hall. rewrite filter_cons_False in Hall by done.
    rewrite filter_cons_True in Hall by done.
    apply Forall2_cons_inv_l in Hall
      as (spec & rest & (ed & Hed & Hval & _ & _ & Hty & Hsev) & Hrest & ->).
    apply Forall2_nil_inv_l in Hrest as ->.
    exists spec, ed, df'. split; [exact Hrun|]. split; [exact Hed|].
    split; [exact Hval|]. split; [exact Hty|].
    simpl in Hsev. rewrite Hsev. by rewrite Hhigh.
Defined.

Lemma alert_specifications_new_witness :
  exists alerts df' w',
    ClimateAlertService.detect_and_create_alerts Sample.pd Sample.txt
      Sample.service Sample.clock Sample.climate_data "value" "temperature"
      false Sample.world
    = (Ok (alerts, df'), w') /\
    Forall new_alert alerts.
Proof.
  destruct alert_specifications_new as [_ Hall].
  assert (exists alerts df' w',
            ClimateAlertService.detect_and_create_alerts Sample.pd Sample.txt
              Sample.service Sample.clock Sample.climate_data "value"
              "temperature" false Sample.world
            = (Ok (alerts, df'), w'))
    as (alerts & df' & w' & Hrun)
    by (do 3 eexists; vm_compute; reflexivity).
  exists alerts, df', w'. split; [exact Hrun|].
  exact (Hall _ _ _ _ _ _ _ _ _ _ _ _ Hrun).
Defined.

Example detect_and_create_alerts_heat_wave :
  match (ClimateAlertService.detect_and_create_alerts Sample.pd Sample.txt
           Sample.service Sample.clock Sample.climate_data "value"
           "temperature" true Sample.world).1 with
  | Ok ([spec], _) =>
      match spec !! "entity_data" with
      | Some (PDict entity_data) =>
          [entity_data !! "alert_type"; entity_data !! "severity";
           entity_data !! "status"; entity_data !! "date";
           entity_data !! "value"; entity_data !! "recommendations"]
      | _ => []
      end
  | _ => []
  end
  = [Some (PStr "heat_wave"); Some (PStr "high"); Some (PStr "active");
     Some (PStr "1970-01-02T00:00:00"); Some (PFloat (Real 38.5));
     Some (PList [PStr "Issue public advisory immediately";
                  PStr "Activate emergency response protocols";
                  PStr "Increase water reserves monitoring";
                  PStr "Advise vulnerable populations to stay indoors";
                  PStr "Monitor energy grid for increased cooling demand"])].
Proof. vm_compute. reflexivity. Qed.

(** * Further properties of the client *)

Section Client.
Import CyodaAlertClient.

Lemma lookup_if_ne (b : bool) (key key' : string) (v : pyval) (d : pydict) :
  key <> key' -> (if b then <[key := v]> d else d) !! key' = d !! key'.
Proof. intros. destruct b; [by rewrite lookup_insert_ne|done]. Qed.

Lemma lookup_if_eq (b : bool) (key : string) (v : pyval) (d : pydict) :
  d !! key = None ->
  (if b then <[key := v]> d else d) !! key = (if b then Some v else None).
Proof. intros. destruct b; [by rewrite lookup_insert_eq|done]. Qed.

Ltac lookup_if :=
  repeat first
    [ rewrite lookup_if_ne by done
    | rewrite lookup_if_eq by lookup_if ];
  try reflexivity.

(** X1. An update specification carries [resolved_at] exactly when
    [resolved] is truthy and [acknowledged_at] exactly when [acknowledged]
    is truthy and [resolved] is not, so never both; [resolution_notes] is
    kept exactly when truthy; status, flags and [updated_at] are always
    there, and the identifier is the one given. *)
Theorem update_alert_status_stamps (self : t) (now now' alert_id : string)
    (status acknowledged resolved resolution_notes : pyval) :
  exists entity_data : pydict,
    update_alert_status self now now' alert_id status acknowledged resolved
                        resolution_notes
    = list_to_map [("entity_model", PStr (ENTITY_MODEL self));
                   ("entity_id", PStr alert_id);
                   ("entity_version", PStr (ENTITY_VERSION self));
                   ("entity_data", PDict entity_data)] /\
    entity_data !! "status" = Some status /\
    entity_data !! "acknowledged" = Some acknowledged /\
    entity_data !! "resolved" = Some resolved /\
    entity_data !! "updated_at" = Some (PStr now) /\
    entity_data !! "resolved_at"
    = (if truthy resolved then Some (PStr now') else None) /\
    entity_data !! "acknowledged_at"
    = (if truthy acknowledged && negb (truthy resolved)
       then Some (PStr now') else None) /\
    entity_data !! "resolution_notes" = optional_value resolution_notes /\
    ~ (is_Some (entity_data !! "resolved_at") /\
       is_Some (entity_data !! "acknowledged_at")).
Proof.
  eexists. split; [reflexivity|]. cbv zeta. unfold optional_value.
  repeat split; try (by lookup_if).
  intros [H1 H2]. revert H1 H2. lookup_if.
  destruct (truthy resolved), (truthy acknowledged); simpl;
    intros [? ?] [? ?]; discriminate.
Qed.

(** X2. The specifications for reading and for deleting an alert are the
    same dictionary, and it is the list specification with the [entity_id]
    added. *)
Theorem get_delete_same_specification (self : t) (alert_id : string) :
  get_alert self alert_id = delete_alert self alert_id /\
  get_alert self alert_id
  = <["entity_id" := PStr alert_id]> (list_all_alerts self) /\
  delete "entity_id" (get_alert self alert_id) = list_all_alerts self.
Proof.
  split; [reflexivity|]. unfold get_alert, list_all_alerts. simpl.
  split.
  - apply map_eq. intros k.
    destruct (decide (k = "entity_id")) as [->|?];
      [by rewrite lookup_insert_eq|].
    rewrite (lookup_insert_ne _ "entity_id") by done.
    destruct (decide (k = "entity_model")) as [->|?];
      [by rewrite !lookup_insert_eq|].
    rewrite !(lookup_insert_ne _ "entity_model") by done.
    by rewrite (lookup_insert_ne _ "entity_id") by done.
  - apply map_eq. intros k.
    destruct (decide (k = "entity_id")) as [->|?].
    + rewrite lookup_delete_eq.
      by rewrite !lookup_insert_ne, lookup_empty by done.
    + rewrite lookup_delete_ne by done.
      destruct (decide (k = "entity_model")) as [->|?];
        [by rewrite !lookup_insert_eq|].
      rewrite !(lookup_insert_ne _ "entity_model") by done.
      by rewrite (lookup_insert_ne _ "entity_id") by done.
Qed.

End Client.

Section ClassifierEdges.
Import CyodaAlertClient.

(** X3. NaN never raises the severity: a NaN anomaly score is classified
    like the score 0, a NaN value like the unremarkable value 20 (for both
    metrics with value rules), and NaN for both is [low] for every
    metric. *)
Theorem classify_severity_nan :
  (forall value metric,
     classify_severity NaN value metric
     = classify_severity (Real 0) value metric) /\
  (forall score,
     classify_severity score NaN "temperature"
     = classify_severity score (Real 20) "temperature" /\
     classify_severity score NaN "precipitation"
     = classify_severity score (Real 20) "precipitation") /\
  (forall metric, classify_severity NaN NaN metric = "low").
Proof.
  split; [|split].
  - intros value metric. unfold classify_severity.
    by destruct (metric =? "temperature"), (metric =? "precipitation").
  - intros score. split; reflexivity.
  - intros metric. unfold classify_severity.
    by destruct (metric =? "temperature"), (metric =? "precipitation").
Qed.

(** X4. The two classifiers agree on the severe events: whenever
    [determine_alert_type] answers [heat_wave] or [extreme_precipitation],
    [classify_severity] answers [high] or [critical] for the same value and
    metric, whatever the anomaly score (a number or NaN). *)
Theorem severe_event_at_least_high (score value : pyfloat) (metric : string)
    (ctx : pyval) :
  determine_alert_type value metric ctx = "heat_wave" \/
  determine_alert_type value metric ctx = "extreme_precipitation" ->
  (3 <= ClimateAlertService.severity_order
          (classify_severity score value metric))%Z.
Proof.
  destruct severity_order_labels as (_ & _ & Hh & Hc).
  unfold determine_alert_type, classify_severity.
  destruct (metric =? "temperature"); [|destruct (metric =? "precipitation")].
  - destruct (gt value 35) eqn:E35; simpl.
    + intros _. rewrite !orb_true_r. simpl.
      destruct (gt score 0.9 || gt value 40 || lt value (-10));
        rewrite ?Hh, ?Hc; lia.
    + destruct (lt value 0), (lt value 5); intros [?|?]; discriminate.
  - destruct (gt value 50) eqn:E50; simpl.
    + intros _. rewrite !orb_true_r.
      destruct (gt score 0.9 || gt value 100); rewrite ?Hh, ?Hc; lia.
    + destruct (lt value 0.1); intros [?|?]; discriminate.
  - intros [?|?]; discriminate.
Qed.

Lemma severe_event_at_least_high_witness :
  (3 <= ClimateAlertService.severity_order
          (classify_severity (Real 0.1) (Real 38.5) "temperature"))%Z.
Proof.
  apply (severe_event_at_least_high (Real 0.1) (Real 38.5) "temperature" PNone).
  left. reflexivity.
Defined.

Example freeze_event_can_be_low :
  determine_alert_type (Real (-2)) "temperature" PNone = "freeze_event" /\
  classify_severity (Real 0.1) (Real (-2)) "temperature" = "low".
Proof. split; reflexivity. Qed.

End ClassifierEdges.

(** * Further properties of the alert-list route *)

Section AlertListMore.
Import AlertRoutes.

(** X5. An entity in wrapper format is cached as its inner data with
    [technical_id] added from the meta data; a [technical_id] that the inner
    data already has is kept, the identifier of the meta data being dropped;
    every other field is the inner data's. *)
Theorem normalize_entity_wrapper (e inner fields meta : pydict) (id : pyval) :
  e !! "data" = Some (PDict inner) ->
  inner !! "type" = Some (PStr "ENTITY") ->
  inner !! "data" = Some (PDict fields) ->
  inner !! "meta" = Some (PDict meta) ->
  meta !! "id" = Some id ->
  exists alert : pydict,
    normalize_entity (PDict e) = Ok (Some (PDict alert)) /\
    alert !! "technical_id" = Some (default id (fields !! "technical_id")) /\
    (forall key, key <> "technical_id" -> alert !! key = fields !! key).
Proof.
  intros He Hty Hdata Hmeta Hid. unfold normalize_entity.
  rewrite He, Hty. simpl. rewrite He. simpl. rewrite Hdata, Hmeta. simpl.
  rewrite Hid. simpl. eexists. split; [reflexivity|]. split.
  - rewrite lookup_union. destruct (fields !! "technical_id"); simpl.
    + by rewrite lookup_singleton_eq.
    + by rewrite lookup_singleton_eq.
  - intros key Hkey. rewrite lookup_union, lookup_singleton_ne by done.
    by destruct (fields !! key).
Qed.

Lemma normalize_entity_wrapper_witness :
  exists alert : pydict,
    normalize_entity
      (PDict (list_to_map [("data", PDict (list_to_map [
         ("type", PStr "ENTITY");
         ("data", PDict (list_to_map [("technical_id", PStr "mine");
                                      ("severity", PStr "high")]));
         ("meta", PDict (list_to_map [("id", PStr "u-1")]))]))]))
    = Ok (Some (PDict alert)) /\
    alert !! "technical_id" = Some (PStr "mine").
Proof.
  destruct (normalize_entity_wrapper
              (list_to_map [("data", PDict (list_to_map [
                 ("type", PStr "ENTITY");
                 ("data", PDict (list_to_map [("technical_id", PStr "mine");
                                              ("severity", PStr "high")]));
                 ("meta", PDict (list_to_map [("id", PStr "u-1")]))]))])
              (list_to_map [
                 ("type", PStr "ENTITY");
                 ("data", PDict (list_to_map [("technical_id", PStr "mine");
                                              ("severity", PStr "high")]));
                 ("meta", PDict (list_to_map [("id", PStr "u-1")]))])
              (list_to_map [("technical_id", PStr "mine");
                            ("severity", PStr "high")])
              (list_to_map [("id", PStr "u-1")])
              (PStr "u-1"))
    as (alert & Hrun & Hid & _); [reflexivity..|].
  exists alert. split; [exact Hrun|exact Hid].
Defined.

Lemma normalize_entity_kept (entity : pyval) (alert : option pyval) :
  normalize_entity entity = Ok alert ->
  is_dict entity = bool_decide (is_Some alert).
Proof.
  destruct entity; simpl; try (by intros [= <-]).
  unfold getitem, of_option, mbind, result_bind.
  intros Hrun.
  repeat (case_match; try discriminate Hrun); by injection Hrun as <-.
Qed.

(** X6. When the normalisation loop returns, it has kept one alert for each
    entity that is a dictionary, in the order of the entities, and dropped
    every other entity; what is there before the loop stays in front. *)
Theorem normalize_alerts_keeps_dicts (entities acc alerts : list pyval) :
  normalize_alerts entities acc = Ok alerts ->
  exists kept,
    alerts = (acc ++ kept)%list /\
    Forall2 (fun entity alert => normalize_entity entity = Ok (Some alert))
            (filter (fun e => is_dict e = true) entities) kept.
Proof.
  revert acc. induction entities as [|e entities IH]; intros acc; simpl.
  - intros [= <-]. exists []. by rewrite app_nil_r.
  - destruct (normalize_entity e) as [alert|] eqn:He; simpl; [|done].
    pose proof (normalize_entity_kept _ _ He) as Hk.
    intros Hrun. apply IH in Hrun as (kept & -> & Hkept).
    destruct alert as [a|]; simpl in Hk.
    + rewrite filter_cons_True by done. exists (a :: kept).
      unfold append. rewrite <- app_assoc. split; [done|]. by constructor.
    + rewrite filter_cons_False by (by rewrite Hk). by exists kept.
Qed.

Lemma normalize_alerts_keeps_dicts_witness :
  exists kept,
    Forall2 (fun entity alert => normalize_entity entity = Ok (Some alert))
            [PDict ∅; PDict (list_to_map [("severity", PStr "low")])] kept.
Proof.
  destruct (normalize_alerts_keeps_dicts
              [PInt 1; PDict ∅; PStr "x";
               PDict (list_to_map [("severity", PStr "low")])]
              [] [PDict ∅; PDict (list_to_map [("severity", PStr "low")])])
    as (kept & _ & Hkept); [reflexivity|].
  exists kept. exact Hkept.
Defined.

(** The first two lines of the handler: afterwards the attribute exists. *)
Lemma list_alerts_initialised (req : request) (w : World) :
  list_alerts req w
  = (match req with
     | POST data =>
         has_alerts ← lift (if truthy data then contains "alerts" data
                            else Ok false);
         if (has_alerts : bool) then
           field ← lift (getitem data "alerts");
           entities ← lift (iterate field);
           alerts ← lift (normalize_alerts entities []);
           set_cached_alerts alerts;;
           mret (jsonify (list_to_map [
             ("success", PBool true);
             ("message",
              PStr ("Cached " +:+ pretty (length alerts) +:+ " alerts"));
             ("count", PInt (Z.of_nat (length alerts)))
           ]))
         else return_cached
     | GET => return_cached
     end)
      {| cyoda_entities := cyoda_entities w;
         cached_alerts := Some (cached w) |}.
Proof. by destruct w as [ents [l|]]. Qed.

(** X7. A POST that carries no [alerts] field (the body is falsy, or an
    object without that key) is answered exactly like a GET: same answer,
    same state. *)
Theorem list_alerts_post_without_alerts (data : pyval) (w : World) :
  truthy data = false \/
  (exists d : pydict, data = PDict d /\ d !! "alerts" = None) ->
  list_alerts (POST data) w = list_alerts GET w.
Proof.
  intros Hdata. rewrite !list_alerts_initialised.
  destruct Hdata as [Hfalsy|(d & -> & Hd)].
  - by rewrite Hfalsy, bind_lift_Ok.
  - destruct (truthy (PDict d)); [|by rewrite bind_lift_Ok].
    unfold contains. rewrite Hd.
    rewrite bool_decide_eq_false_2 by (by intros [? ?]).
    by rewrite bind_lift_Ok.
Qed.

Lemma list_alerts_post_without_alerts_witness :
  list_alerts (POST (PDict (list_to_map [("items", PList [])]))) Sample.world
  = list_alerts GET Sample.world.
Proof.
  apply list_alerts_post_without_alerts. right.
  eexists. split; reflexivity.
Defined.

(** X8. Round trip through the cache: after a POST that stored [alerts], a
    GET answers with exactly these alerts, their number, and the flag
    [cached] set iff there is at least one; if the POST stored the empty
    list, the GET falls back to the MCP list specification. *)
Theorem list_alerts_post_then_get (d : pydict) (field : pyval)
    (entities alerts : list pyval) (w : World) :
  d !! "alerts" = Some field ->
  iterate field = Ok entities ->
  normalize_alerts entities [] = Ok alerts ->
  exists posted w' got,
    list_alerts (POST (PDict d)) w = (Ok posted, w') /\
    list_alerts GET w' = (Ok got, w') /\
    body got !! "alerts" = Some (PList alerts) /\
    body got !! "cached" = Some (PBool (negb (Nat.eqb (length alerts) 0))) /\
    body got !! "count"
    = (if Nat.eqb (length alerts) 0 then None
       else Some (PInt (Z.of_nat (length alerts)))) /\
    body got !! "mcp_spec"
    = (if Nat.eqb (length alerts) 0
       then Some (PDict (CyodaAlertClient.list_all_alerts cyoda_client))
       else None).
Proof.
  intros Hfield Hiter Hnorm. rewrite list_alerts_initialised.
  rewrite (truthy_dict_lookup _ _ _ Hfield).
  unfold contains, getitem. rewrite Hfield.
  rewrite bool_decide_eq_true_2 by eauto. simpl of_option.
  rewrite !bind_lift_Ok, Hiter, bind_lift_Ok, Hnorm, bind_lift_Ok.
  clear Hnorm.
  destruct alerts as [|a alerts']; do 3 eexists;
    (split; [reflexivity|]); rewrite list_alerts_initialised;
    (split; [reflexivity|]); by repeat split.
Qed.

Lemma list_alerts_post_then_get_witness :
  exists posted w' got,
    list_alerts
      (POST (PDict (list_to_map [("alerts", PList [PDict ∅; PInt 7])])))
      Sample.world = (Ok posted, w') /\
    list_alerts GET w' = (Ok got, w') /\
    body got !! "alerts" = Some (PList [PDict ∅]).
Proof.
  destruct (list_alerts_post_then_get
              (list_to_map [("alerts", PList [PDict ∅; PInt 7])])
              (PList [PDict ∅; PInt 7]) [PDict ∅; PInt 7] [PDict ∅]
              Sample.world)
    as (posted & w' & got & Hpost & Hget & Halerts & _); [reflexivity..|].
  exists posted, w', got. split; [exact Hpost|]. split; [exact Hget|].
  exact Halerts.
Defined.

(** X9. A request that ends in an exception leaves the cached list and the
    entities of the platform as they were: the cache is only written after
    the whole body has been normalised. *)
Theorem list_alerts_failure_keeps_cache (req : request) (w w' : World)
    (e : exn) :
  list_alerts req w = (Raise e, w') ->
  cached w' = cached w /\ cyoda_entities w' = cyoda_entities w.
Proof.
  rewrite list_alerts_initialised.
  set (w0 := {| cyoda_entities := cyoda_entities w;
                cached_alerts := Some (cached w) |}).
  assert (forall r, return_cached w0 = (Raise e, r) -> False) as Hget.
  { intros r. destruct (return_cached_spec w0) as (resp & -> & _). done. }
  destruct req as [|data]; [by intros ?%Hget|].
  destruct (if truthy data then contains "alerts" data else Ok false)
    as [[|]|e0]; rewrite ?bind_lift_Ok, ?bind_lift_Raise;
    [|by intros ?%Hget|by intros [= <- <-]].
  destruct (getitem data "alerts") as [field|e1];
    rewrite ?bind_lift_Ok, ?bind_lift_Raise; [|by intros [= <- <-]].
  destruct (iterate field) as [entities|e2];
    rewrite ?bind_lift_Ok, ?bind_lift_Raise; [|by intros [= <- <-]].
  destruct (normalize_alerts entities []) as [alerts|e3];
    rewrite ?bind_lift_Ok, ?bind_lift_Raise; [|by intros [= <- <-]].
  done.
Qed.

Lemma list_alerts_failure_keeps_cache_witness :
  cached (list_alerts (POST (PDict (list_to_map [("alerts", PInt 3)])))
                      Sample.world).2
  = cached Sample.world.
Proof.
  eapply (list_alerts_failure_keeps_cache
            (POST (PDict (list_to_map [("alerts", PInt 3)]))) Sample.world
            _ TypeError).
  reflexivity.
Defined.

End AlertListMore.

(** * Prioritising alerts *)

Section Prioritize.
Import ClimateAlertService.
Context {A : Type}.
Implicit Types (x : Q * A) (l : list (Q * A)).

Lemma insert_desc_perm x l : insert_desc x l ≡ₚ x :: l.
Proof.
  induction l as [|y l IH]; simpl; [done|].
  destruct (Qlt_le_dec x.1 y.1); [|done].
  rewrite IH. apply Permutation_swap.
Qed.

Lemma sorted_desc_perm l : sorted_desc l ≡ₚ l.
Proof.
  induction l as [|x l IH]; simpl; [done|].
  by rewrite insert_desc_perm, IH.
Qed.

Lemma StronglySorted_at (R : relation (Q * A)) l (i j : nat) x y :
  StronglySorted R l -> (i < j)%nat ->
  l !! i = Some x -> l !! j = Some y -> R x y.
Proof.
  intros Hs. revert i j. induction Hs as [|z l Hl IH Hz]; intros i j Hij Hi Hj.
  - done.
  - destruct j as [|j]; [lia|]. simpl in Hj. destruct i as [|i].
    + simpl in Hi. simplify_eq. rewrite Forall_lookup in Hz. eauto.
    + simpl in Hi. apply (IH i j); [lia|done..].
Qed.

Lemma insert_desc_sorted x l :
  StronglySorted (fun a b => (b.1 <= a.1)%Q) l ->
  StronglySorted (fun a b => (b.1 <= a.1)%Q) (insert_desc x l).
Proof.
  induction 1 as [|y l Hl IH Hy]; simpl.
  - repeat constructor.
  - destruct (Qlt_le_dec x.1 y.1) as [Hlt|Hle].
    + constructor; [done|].
      rewrite insert_desc_perm. constructor; [lra|done].
    + constructor; [by constructor|]. constructor; [done|].
      eapply Forall_impl; [exact Hy|]. intros z Hz. simpl in Hz. lra.
Qed.

Lemma sorted_desc_sorted l :
  StronglySorted (fun a b => (b.1 <= a.1)%Q) (sorted_desc l).
Proof.
  induction l as [|x l IH]; simpl; [constructor|].
  by apply insert_desc_sorted.
Qed.

Lemma filter_insert_desc (q : Q) x l :
  filter (fun p => Qeq_bool p.1 q = true) (insert_desc x l)
  = filter (fun p => Qeq_bool p.1 q = true) (x :: l).
Proof.
  induction l as [|y l IH]; simpl; [done|].
  destruct (Qlt_le_dec x.1 y.1) as [Hlt|Hle]; [|done].
  destruct (Qeq_bool x.1 q) eqn:Hx.
  - apply Qeq_bool_iff in Hx.
    rewrite (filter_cons_False _ y).
    2:{ intros Hy%Qeq_bool_iff. lra. }
    rewrite IH. rewrite !filter_cons_True by (by apply Qeq_bool_iff).
    f_equal. rewrite filter_cons_False; [done|].
    intros Hy%Qeq_bool_iff. lra.
  - rewrite (filter_cons_False _ x (y :: l)) by (by rewrite Hx).
    destruct (Qeq_bool y.1 q) eqn:Hy.
    + rewrite !filter_cons_True by done. f_equal. rewrite IH.
      by rewrite filter_cons_False by (by rewrite Hx).
    + rewrite !(filter_cons_False _ y) by (by rewrite Hy). rewrite IH.
      by rewrite filter_cons_False by (by rewrite Hx).
Qed.

Lemma filter_sorted_desc (q : Q) l :
  filter (fun p => Qeq_bool p.1 q = true) (sorted_desc l)
  = filter (fun p => Qeq_bool p.1 q = true) l.
Proof.
  induction l as [|x l IH]; simpl; [done|].
  rewrite filter_insert_desc.
  destruct (Qeq_bool x.1 q) eqn:Hx.
  - rewrite !filter_cons_True by done. by rewrite IH.
  - rewrite !filter_cons_False by (by rewrite Hx). done.
Qed.

End Prioritize.

Section PrioritizeAlerts.
Import ClimateAlertService.

Lemma mapM_Ok_exists {X Y} (f : X -> result Y) (l : list X) :
  Forall (fun x => exists y, f x = Ok y) l -> exists k, mapM f l = Ok k.
Proof.
  induction 1 as [|x l [y Hy] _ [k IH]]; [by exists []|].
  exists (y :: k). simpl. rewrite Hy. simpl. by rewrite IH.
Qed.

(** The alerts that come out of the sort, with their keys. *)
Lemma prioritize_alerts_inv (fl : floats) (cal : calendar)
    (alerts out : list pyval) :
  prioritize_alerts fl cal alerts = Ok out ->
  exists keyed : list (Q * pyval),
    out = (sorted_desc keyed).*2 /\ scored fl cal alerts keyed.
Proof.
  unfold prioritize_alerts, scored. destruct alerts as [|a alerts].
  - simpl. intros [= <-]. by exists [].
  - simpl negb. cbv iota. generalize (a :: alerts). clear a alerts.
    intros alerts.
    destruct (mapM _ (zip (seq 0 (length alerts)) alerts)) as [keys|] eqn:Hk;
      [|done].
    simpl. intros [= <-]. exists (zip keys alerts).
    split; [done|].
    pose proof (mapM_Ok_length _ _ _ Hk) as Hlen.
    rewrite length_zip, length_seq in Hlen.
    split; [apply snd_zip; lia|].
    apply mapM_Ok_Forall2 in Hk.
    intros k [s a] (s' & a' & [= <- <-] & Hs & Ha)%lookup_zip_with_Some.
    assert (zip (seq 0 (length alerts)) alerts !! k = Some (k, a)) as Hka.
    { apply lookup_zip_with_Some. exists k, a. split; [done|].
      split; [|done]. apply lookup_seq. split; [done|].
      by eapply lookup_lt_Some. }
    destruct (Forall2_lookup_l _ _ _ _ _ Hk Hka) as (s'' & Hs'' & Hscore).
    simpl in *. congruence.
Qed.

(** X10. When [prioritize_alerts] returns, its result is a rearrangement of
    the given alerts: none is lost, added or duplicated. *)
Theorem prioritize_alerts_permutation (fl : floats) (cal : calendar)
    (alerts out : list pyval) :
  prioritize_alerts fl cal alerts = Ok out -> out ≡ₚ alerts.
Proof.
  intros (keyed & -> & <- & _)%prioritize_alerts_inv.
  by rewrite sorted_desc_perm.
Qed.

Lemma prioritize_alerts_permutation_witness :
  exists out,
    prioritize_alerts Sample.floats Sample.calendar
      [Sample.alert_low; Sample.alert_acknowledged; Sample.alert_critical]
    = Ok out /\
    out ≡ₚ [Sample.alert_low; Sample.alert_acknowledged;
            Sample.alert_critical].
Proof.
  assert (exists out,
            prioritize_alerts Sample.floats Sample.calendar
              [Sample.alert_low; Sample.alert_acknowledged;
               Sample.alert_critical] = Ok out) as [out Hrun]
    by (eexists; vm_compute; reflexivity).
  exists out. split; [exact Hrun|].
  exact (prioritize_alerts_permutation _ _ _ _ Hrun).
Defined.

(** X11. The result is in order of priority: pair every alert with the
    score computed for it at its place in the given list; then the result
    is a rearrangement of these pairs in which a later alert never has the
    higher score. *)
Theorem prioritize_alerts_descending (fl : floats) (cal : calendar)
    (alerts out : list pyval) :
  prioritize_alerts fl cal alerts = Ok out ->
  exists keyed keyed_out : list (Q * pyval),
    scored fl cal alerts keyed /\
    keyed_out.*2 = out /\
    keyed_out ≡ₚ keyed /\
    forall i j p q,
      (i < j)%nat -> keyed_out !! i = Some p -> keyed_out !! j = Some q ->
      (q.1 <= p.1)%Q.
Proof.
  intros (keyed & -> & Hscored)%prioritize_alerts_inv.
  exists keyed, (sorted_desc keyed). split; [done|]. split; [done|].
  split; [apply sorted_desc_perm|].
  intros i j p q Hij Hi Hj.
  pose proof (sorted_desc_sorted keyed) as Hsorted.
  apply (StronglySorted_at _ _ i j _ _ Hsorted Hij Hi Hj).
Qed.

Lemma prioritize_alerts_descending_witness :
  exists keyed_out : list (Q * pyval),
    keyed_out.*2
    = [Sample.alert_critical; Sample.alert_acknowledged; Sample.alert_low] /\
    forall i j p q,
      (i < j)%nat -> keyed_out !! i = Some p -> keyed_out !! j = Some q ->
      (q.1 <= p.1)%Q.
Proof.
  destruct (prioritize_alerts_descending Sample.floats Sample.calendar
              [Sample.alert_low; Sample.alert_acknowledged;
               Sample.alert_critical]
              [Sample.alert_critical; Sample.alert_acknowledged;
               Sample.alert_low])
    as (keyed & keyed_out & _ & Hout & _ & Hsorted).
  - vm_compute. reflexivity.
  - by exists keyed_out.
Defined.

(** X12. The sort is stable: pair every alert with the score computed for
    it at its place in the given list; then the alerts whose scores are
    equal, as the floats that the code adds up, come out in the order in
    which they were given. *)
Theorem prioritize_alerts_stable (fl : floats) (cal : calendar)
    (alerts out : list pyval) :
  prioritize_alerts fl cal alerts = Ok out ->
  exists keyed keyed_out : list (Q * pyval),
    scored fl cal alerts keyed /\
    keyed_out.*2 = out /\
    forall s : Q,
      filter (fun p => Qeq_bool p.1 s = true) keyed_out
      = filter (fun p => Qeq_bool p.1 s = true) keyed.
Proof.
  intros (keyed & -> & Hscored)%prioritize_alerts_inv.
  exists keyed, (sorted_desc keyed). split; [done|]. split; [done|].
  intros s. apply filter_sorted_desc.
Qed.

Lemma prioritize_alerts_stable_witness :
  exists keyed keyed_out : list (Q * pyval),
    keyed.*2 = [Sample.alert_acknowledged; Sample.alert_low;
                PDict (list_to_map [("severity", PStr "medium")])] /\
    keyed_out.*2
    = [Sample.alert_acknowledged;
       PDict (list_to_map [("severity", PStr "medium")]);
       Sample.alert_low] /\
    filter (fun p => Qeq_bool p.1 4 = true) keyed_out
    = filter (fun p => Qeq_bool p.1 4 = true) keyed.
Proof.
  destruct (prioritize_alerts_stable Sample.floats Sample.calendar
              [Sample.alert_acknowledged; Sample.alert_low;
               PDict (list_to_map [("severity", PStr "medium")])]
              [Sample.alert_acknowledged;
               PDict (list_to_map [("severity", PStr "medium")]);
               Sample.alert_low])
    as (keyed & keyed_out & [Hkeyed _] & Hout & Hstable).
  - vm_compute. reflexivity.
  - exists keyed, keyed_out. split; [exact Hkeyed|].
    split; [exact Hout|apply Hstable].
Defined.

(** X13. The parts of the score of an alert.  Severity: a missing field
    counts as "low", a string as its rank, which is 4, 3, 2, 1 for the
    four labels and 0 for every other string; null, a boolean or a number
    counts 0; a list or a dictionary raises [TypeError].  Acknowledgement:
    0 when [acknowledged] is truthy and 2 otherwise.  Recency: when the
    date cannot be read it is the integer 0 and the score is the integer
    sum of the other two; for a date [d] days old it is the float nearest
    to [x = max(0, 30 - d) / 30], where [x] is 0 from 30 days on,
    [(30 - d) / 30] before, and above 1 exactly for a date in the future,
    and the score is the float nearest to the sum. *)
Theorem priority_score_parts (fl : floats) (cal : calendar) (k : nat)
    (alert : pydict) :
  (alert !! "severity" = None -> severity_score alert = Ok 1%Z) /\
  (forall s, alert !! "severity" = Some (PStr s) ->
     severity_score alert = Ok (severity_order s)) /\
  (severity_order "critical" = 4%Z /\ severity_order "high" = 3%Z /\
   severity_order "medium" = 2%Z /\ severity_order "low" = 1%Z /\
   forall s, s ∉ ["critical"; "high"; "medium"; "low"] ->
             severity_order s = 0%Z) /\
  (forall v, alert !! "severity" = Some v ->
     v = PNone \/ (exists b, v = PBool b) \/ (exists n, v = PInt n) \/
     (exists x, v = PFloat x) ->
     severity_score alert = Ok 0%Z) /\
  (forall v, alert !! "severity" = Some v ->
     (exists l, v = PList l) \/ (exists d, v = PDict d) ->
     severity_score alert = Raise TypeError /\
     priority_score fl cal k (PDict alert) = Raise TypeError) /\
  (ack_penalty alert = 0%Z \/ ack_penalty alert = 2%Z) /\
  (ack_penalty alert = 0%Z
   <-> exists v, alert !! "acknowledged" = Some v /\ truthy v = true) /\
  (days_ago cal k (default (PStr "2000-01-01") (alert !! "date")) = None ->
   recency_score fl cal k alert = None /\
   forall s, severity_score alert = Ok s ->
     priority_score fl cal k (PDict alert)
     = Ok (inject_Z (s + ack_penalty alert))) /\
  (forall d,
     days_ago cal k (default (PStr "2000-01-01") (alert !! "date")) = Some d ->
     exists x : Q,
       recency_score fl cal k alert = Some (nearest fl x) /\
       (0 <= x)%Q /\
       ((30 <= d)%Z -> x == 0) /\
       ((d < 30)%Z -> x == (30 - inject_Z d) / 30) /\
       ((d < 0)%Z <-> (1 < x)%Q) /\
       forall s, severity_score alert = Ok s ->
         priority_score fl cal k (PDict alert)
         = Ok (nearest fl (inject_Z (s + ack_penalty alert) + nearest fl x))).
Proof.
  split; [|split; [|split; [|split; [|split; [|split; [|split; [|split]]]]]]].
  - intros Hs. unfold severity_score. by rewrite Hs.
  - intros s Hs. unfold severity_score. by rewrite Hs.
  - do 4 (split; [reflexivity|]). intros s Hs. unfold severity_order.
    rewrite (not_elem_of_list_to_map_1 _ s); [done|]. exact Hs.
  - intros v Hv Hkind. unfold severity_score. rewrite Hv. simpl.
    by destruct Hkind as [->|[[b ->]|[[n ->]|[x ->]]]].
  - intros v Hv Hkind.
    assert (severity_score alert = Raise TypeError) as Hs.
    { unfold severity_score. rewrite Hv. simpl.
      by destruct Hkind as [[l ->]|[d ->]]. }
    split; [done|]. simpl. by rewrite Hs.
  - unfold ack_penalty. destruct (truthy _); auto.
  - unfold ack_penalty. destruct (alert !! "acknowledged") as [v|]; simpl.
    + destruct (truthy v) eqn:Hv; split; try done; eauto.
      intros (v' & [= <-] & ?). congruence.
    + split; [done|]. by intros (v & ? & _).
  - intros Hd. unfold recency_score. rewrite Hd. split; [done|].
    intros s Hs. simpl. rewrite Hs. simpl. unfold recency_score.
    by rewrite Hd.
  - intros d Hd. exists (inject_Z (Z.max 0 (30 - d)) / 30)%Q.
    split; [unfold recency_score; by rewrite Hd|].
    split.
    { apply Qle_shift_div_l; [done|]. rewrite Qmult_0_l.
      change 0%Q with (inject_Z 0). rewrite <- Zle_Qle. lia. }
    split.
    { intros Hle. rewrite Z.max_l by lia. reflexivity. }
    split.
    { intros Hlt. rewrite Z.max_r by lia.
      replace (30 - d)%Z with (30 + - d)%Z by lia.
      rewrite inject_Z_plus, inject_Z_opp. reflexivity. }
    split.
    { set (z := Z.max 0 (30 - d)).
      assert ((d < 0)%Z <-> (30 < z)%Z) as -> by lia.
      rewrite (Zlt_Qlt 30 z). change (inject_Z 30) with 30%Q.
      generalize (inject_Z z). intros m. split; intros H.
      * apply Qlt_shift_div_l; [done|]. lra.
      * destruct (Qlt_le_dec 30 m) as [|Hle]; [done|]. exfalso.
        assert (m / 30 <= 1)%Q by (apply Qle_shift_div_r; [done|lra]).
        lra. }
    intros s Hs. simpl. rewrite Hs. simpl. unfold recency_score.
    by rewrite Hd.
Qed.

Lemma priority_score_parts_witness :
  severity_score (list_to_map [("severity", PStr "urgent")]) = Ok 0%Z /\
  priority_score Sample.floats Sample.calendar 0
    (PDict (list_to_map [("severity", PStr "urgent")]))
  = Ok (inject_Z (0 + 2)).
Proof.
  destruct (priority_score_parts Sample.floats Sample.calendar 0
              (list_to_map [("severity", PStr "urgent")]))
    as (_ & Hstring & (_ & _ & _ & _ & Hunknown) & _ & _ & _ & _ & Hnodate
        & _).
  assert (severity_score (list_to_map [("severity", PStr "urgent")])
          = Ok 0%Z) as Hs.
  { rewrite (Hstring "urgent") by reflexivity.
    rewrite Hunknown; [reflexivity|].
    intros H. repeat (apply elem_of_cons in H as [H|H]; [discriminate H|]).
    by apply elem_of_nil in H. }
  split; [exact Hs|].
  destruct Hnodate as [_ Hscore]; [reflexivity|].
  exact (Hscore 0%Z Hs).
Defined.

Lemma priority_score_Ok_iff (fl : floats) (cal : calendar) (k : nat)
    (alert : pyval) :
  (exists s, priority_score fl cal k alert = Ok s) <-> scorable alert.
Proof.
  unfold scorable. split.
  - intros [s Hs]. destruct alert as [| | | | | |d]; try done.
    exists d. split; [done|]. simpl in Hs. unfold severity_score in Hs.
    split; intros x Hx; rewrite Hx in Hs; done.
  - intros (d & -> & Hl & Hm). simpl. unfold severity_score.
    destruct (d !! "severity") as [[]|] eqn:E; simpl; try by eexists.
    + by destruct (Hl l).
    + by destruct (Hm d0).
Qed.

(** X14. [prioritize_alerts] returns exactly when every alert is a
    dictionary whose severity, if any, is neither a list nor a dictionary;
    otherwise it raises (an alert that is not a dictionary has no [get], a
    list or dictionary cannot be looked up in the rank table).  The empty
    list gives the empty list. *)
Theorem prioritize_alerts_returns_iff (fl : floats) (cal : calendar)
    (alerts : list pyval) :
  ((exists out, prioritize_alerts fl cal alerts = Ok out)
   <-> Forall scorable alerts) /\
  prioritize_alerts fl cal [] = Ok [].
Proof.
  split; [|done]. split.
  - intros [out (keyed & _ & <- & Hk)%prioritize_alerts_inv].
    apply Forall_fmap, Forall_lookup. intros k [s a] Hka.
    apply (proj1 (priority_score_Ok_iff fl cal k a)).
    exists s. exact (Hk k _ Hka).
  - intros Hall. unfold prioritize_alerts.
    destruct alerts as [|a alerts]; [by eexists|]. simpl negb. cbv iota.
    revert Hall. generalize (a :: alerts). clear a alerts.
    intros alerts Hall.
    destruct (mapM_Ok_exists
                (fun ka => priority_score fl cal ka.1 ka.2)
                (zip (seq 0 (length alerts)) alerts)) as [keys ->].
    { apply Forall_forall. intros [k a] Hka%elem_of_zip_r.
      rewrite Forall_forall in Hall.
      apply (proj2 (priority_score_Ok_iff fl cal k a)). by apply Hall. }
    by eexists.
Qed.

Lemma prioritize_alerts_returns_iff_witness :
  exists out,
    prioritize_alerts Sample.floats Sample.calendar
      [Sample.alert_low; Sample.alert_critical]
    = Ok out.
Proof.
  destruct (prioritize_alerts_returns_iff Sample.floats Sample.calendar
              [Sample.alert_low; Sample.alert_critical]) as [Hiff _].
  apply (proj2 Hiff).
  repeat constructor; eexists; (split; [reflexivity|]); split; intros x;
    vm_compute; discriminate.
Defined.

Example prioritize_alerts_rejects_non_dict :
  prioritize_alerts Sample.floats Sample.calendar
    [Sample.alert_low; PStr "alert"]
  = Raise AttributeError.
Proof. vm_compute. reflexivity. Qed.

Example prioritize_alerts_unacknowledged_first :
  prioritize_alerts Sample.floats Sample.calendar
    [Sample.alert_low; Sample.alert_acknowledged; Sample.alert_critical]
  = Ok [Sample.alert_critical; Sample.alert_acknowledged; Sample.alert_low].
Proof. vm_compute. reflexivity. Qed.

(** The sums [1 + 32/30] and [2 + 2/30] are equal as rationals and differ
    as floats, so the second alert comes first. *)
Example prioritize_alerts_rounded_sums :
  prioritize_alerts Sample.floats Sample.calendar
    [Sample.alert_future; Sample.alert_recent]
  = Ok [Sample.alert_recent; Sample.alert_future].
Proof. vm_compute. reflexivity. Qed.

End PrioritizeAlerts.

(** * Recommendations, descriptions and the state of the service *)

Section ServiceMore.
Import CyodaAlertClient ClimateAnomalyDetector ClimateAlertService.

Lemma default_recommendations_length (alert_type severity : string) :
  (length (_get_default_recommendations alert_type severity) <= 5)%nat.
Proof.
  unfold _get_default_recommendations, append.
  destruct ((severity =? "critical") || (severity =? "high"));
    destruct (alert_type =? "heat_wave");
    destruct (alert_type =? "extreme_precipitation");
    destruct ((alert_type =? "cold_snap") || (alert_type =? "freeze_event"));
    destruct (alert_type =? "drought_indicator"); simpl; lia.
Qed.

(** X15. At most five recommendations are returned.  Lines found in the
    report win over the defaults; the defaults (never more than five, so
    never cut) are used when the report has none, and they are empty
    exactly when the severity is neither critical nor high and the alert
    type is none of heat_wave, extreme_precipitation, cold_snap,
    freeze_event and drought_indicator. *)
Theorem extract_recommendations_bounds (txt : text)
    (report alert_type severity : string) :
  let recs :=
    _extract_recommendations_from_report txt report alert_type severity in
  (length recs <= 5)%nat /\
  (scan_report txt report <> [] -> recs = take 5 (scan_report txt report)) /\
  (scan_report txt report = [] ->
     recs = _get_default_recommendations alert_type severity) /\
  (_get_default_recommendations alert_type severity = []
   <-> severity <> "critical" /\ severity <> "high" /\
       alert_type <> "heat_wave" /\ alert_type <> "extreme_precipitation" /\
       alert_type <> "cold_snap" /\ alert_type <> "freeze_event" /\
       alert_type <> "drought_indicator").
Proof.
  intros recs. subst recs. unfold _extract_recommendations_from_report.
  split; [|split; [|split]].
  - rewrite length_take. lia.
  - intros Hne. destruct (scan_report txt report); [done|]. done.
  - intros ->. simpl. apply take_ge. apply default_recommendations_length.
  - unfold _get_default_recommendations, append.
    destruct (String.eqb_spec severity "critical"),
      (String.eqb_spec severity "high"),
      (String.eqb_spec alert_type "heat_wave"),
      (String.eqb_spec alert_type "extreme_precipitation"),
      (String.eqb_spec alert_type "cold_snap"),
      (String.eqb_spec alert_type "freeze_event"),
      (String.eqb_spec alert_type "drought_indicator");
      simpl; split; try done; intros (?&?&?&?&?&?&?); done.
Qed.

Lemma extract_recommendations_bounds_witness :
  _extract_recommendations_from_report Sample.txt "report" "temperature_anomaly"
                                       "medium" = [].
Proof.
  destruct (extract_recommendations_bounds Sample.txt "report"
              "temperature_anomaly" "medium") as (_ & _ & Hdef & Hempty).
  rewrite Hdef by reflexivity.
  apply (proj2 Hempty). repeat split; discriminate.
Defined.

Lemma append_not_empty (a b : string) : b <> EmptyString -> a +:+ b <> EmptyString.
Proof. destruct a; [done|]. simpl. discriminate. Qed.

Lemma basic_description_truthy (txt : text) (alert_type severity : string)
    (value : pyfloat) (metric : string) :
  truthy (PStr (_generate_basic_description txt alert_type severity value
                                            metric)) = true.
Proof.
  simpl. apply negb_true_iff, String.eqb_neq.
  unfold _generate_basic_description.
  apply append_not_empty. discriminate.
Qed.

(** X16. The description of an alert made from a row.  With AI analysis
    switched off, or without a Gemini client, the alert carries the basic
    description and neither analysis nor recommendations.  With AI analysis
    on and a Gemini client whose report call raises, the alert carries none
    of the three: the basic description is not used as a fallback. *)
Theorem alert_description (pd : lib) (txt : text)
    (self : ClimateAlertService.t) (client : CyodaAlertClient.t)
    (clock : nat -> string) (value_column metric : string)
    (use_ai_analysis : bool) (k : nat) (r : row cell) (w : World)
    (date : string) (value score : pyfloat) :
  date_string pd (default (Str (clock (2 * k)%nat)) (row_get r "date"))
  = Ok date ->
  row_float txt r value_column = Ok value ->
  row_float txt r "anomaly_score" = Ok score ->
  exists spec entity_data,
    alert_of_row pd txt self client clock value_column metric
                 use_ai_analysis k r w = (Ok spec, w) /\
    spec !! "entity_data" = Some (PDict entity_data) /\
    (use_ai_analysis = false \/ gemini_client self = None ->
       entity_data !! "description"
       = Some (PStr (_generate_basic_description txt
                       (determine_alert_type value metric PNone)
                       (classify_severity score value metric) value metric)) /\
       entity_data !! "ai_analysis" = None /\
       entity_data !! "recommendations" = None) /\
    (use_ai_analysis = true ->
     (exists gemini,
        gemini_client self = Some gemini /\
        forall data, exists e, generate_anomaly_report gemini data = Raise e) ->
       entity_data !! "description" = None /\
       entity_data !! "ai_analysis" = None /\
       entity_data !! "recommendations" = None).
Proof.
  intros Hdate Hvalue Hscore. unfold alert_of_row.
  rewrite Hdate, bind_lift_Ok, Hvalue, bind_lift_Ok, Hscore, bind_lift_Ok.
  set (severity := classify_severity score value metric).
  set (alert_type := determine_alert_type value metric PNone).
  destruct (use_ai_analysis && bool_decide (is_Some (gemini_client self)))
    eqn:Hai.
  - apply andb_true_iff in Hai as [-> Hg%bool_decide_eq_true].
    destruct Hg as [gemini Hg].
    destruct (create_alert_run client (clock (2 * k + 1)%nat) alert_type
                severity value date score "Uruguay" metric
                (default (PStr EmptyString)
                   (_generate_ai_analysis txt self alert_type severity value
                      metric score date !! "summary"))
                (default (PDict ∅)
                   (_generate_ai_analysis txt self alert_type severity value
                      metric score date !! "analysis"))
                (default (PList [])
                   (_generate_ai_analysis txt self alert_type severity value
                      metric score date !! "recommendations")) w)
      as (ed & Hrun & _ & _ & _ & _ & _ & _ & _ & _ & _ & _ & _ & _
             & Hd & Ha & Hr).
    eexists. exists ed. split; [exact Hrun|]. split; [reflexivity|].
    split; [intros [?|?]; congruence|].
    intros _ (gemini' & Hg' & Hfail). rewrite Hd, Ha, Hr.
    unfold _generate_ai_analysis. rewrite Hg'.
    match goal with |- context [generate_anomaly_report gemini' ?data] =>
      destruct (Hfail data) as [e ->] end.
    done.
  - destruct (create_alert_run client (clock (2 * k + 1)%nat) alert_type
                severity value date score "Uruguay" metric
                (PStr (_generate_basic_description txt alert_type severity
                         value metric)) PNone PNone w)
      as (ed & Hrun & _ & _ & _ & _ & _ & _ & _ & _ & _ & _ & _ & _
             & Hd & Ha & Hr).
    eexists. exists ed. split; [exact Hrun|]. split; [reflexivity|].
    split.
    + intros _. rewrite Hd, Ha, Hr. unfold optional_value.
      by rewrite basic_description_truthy.
    + intros -> (gemini & Hg & _). rewrite Hg in Hai. by simpl in Hai.
Qed.

Lemma alert_description_witness :
  exists spec entity_data,
    alert_of_row Sample.pd Sample.txt Sample.service_failing_gemini
      CyodaAlertClient.new Sample.clock "value" "temperature" true 0
      Sample.hot_row Sample.world = (Ok spec, Sample.world) /\
    spec !! "entity_data" = Some (PDict entity_data) /\
    entity_data !! "description" = None.
Proof.
  destruct (alert_description Sample.pd Sample.txt
              Sample.service_failing_gemini CyodaAlertClient.new Sample.clock
              "value" "temperature" true 0 Sample.hot_row Sample.world
              "1970-01-02T00:00:00" (Real 38.5) (Real 0.77))
    as (spec & ed & Hrun & Hed & _ & Hfail); [reflexivity..|].
  exists spec, ed. split; [exact Hrun|]. split; [exact Hed|].
  apply Hfail; [reflexivity|].
  exists Sample.failing_gemini. split; [reflexivity|].
  intros data. exists LibraryError. reflexivity.
Defined.

Lemma alerts_loop_frame (body : nat -> row cell -> M pydict) (k : nat)
    (rows : list (row cell)) (acc : list pydict) (w : World) :
  (forall k r w, (body k r w).2 = w) ->
  (alerts_loop body k rows acc w).2 = w.
Proof.
  intros Hbody. revert k acc.
  induction rows as [|r rows IH]; intros k acc; simpl; [done|].
  unfold mbind, M_bind. specialize (Hbody k r w).
  destruct (body k r w) as [[a|e] w1]; simpl in Hbody; subst w1; [|done].
  apply IH.
Qed.

Lemma columns_set_present {B} (df : frame B) (name : string)
    (col c : list B) :
  get df name = Some c -> columns (set df name col) = columns df.
Proof.
  unfold columns. induction df as [|[n x] df IH]; simpl; [done|].
  destruct (n =? name); [done|]. intros Hc. rewrite !fmap_cons.
  f_equal. by apply IH.
Qed.

(** X17. What [detect_and_create_alerts] changes.  The stored entities and
    the route cache are after the call what they were before it, whether
    the call returns or raises.  The caller's frame is changed in one
    place: a date column is replaced by its conversion to timestamps.
    The frame keeps its columns and rows, every other column is as it was,
    and the columns [is_anomaly] and [anomaly_score] are not added to it:
    detection writes them to a copy. *)
Theorem detect_and_create_alerts_frame (pd : lib) (txt : text)
    (self : ClimateAlertService.t) (clock : nat -> string)
    (climate_data : DataFrame) (value_column metric : string)
    (use_ai_analysis : bool) (w : World) :
  (detect_and_create_alerts pd txt self clock climate_data value_column
                            metric use_ai_analysis w).2 = w /\
  forall (alerts : list pydict) (df' : DataFrame) (w' : World),
    detect_and_create_alerts pd txt self clock climate_data value_column
                             metric use_ai_analysis w
    = (Ok (alerts, df'), w') ->
    columns df' = columns climate_data /\
    nrows df' = nrows climate_data /\
    (forall name, name <> "date" -> get df' name = get climate_data name) /\
    match get climate_data "date" with
    | Some dates =>
        exists ts, mapM (to_datetime1 pd) dates = Ok ts /\
                   get df' "date" = Some (Ts <$> ts)
    | None => df' = climate_data
    end.
Proof.
  unfold detect_and_create_alerts.
  destruct (anomaly_detector self) as [detector|]; [|done].
  destruct (ClimateAlertService.cyoda_client self) as [client|]; [|done].
  destruct (detect pd detector climate_data value_column)
    as [[results d]|] eqn:Hdet;
    [rewrite bind_lift_Ok|by rewrite bind_lift_Raise].
  cbv beta iota.
  destruct (get results "is_anomaly") as [flags|]; simpl of_option;
    [rewrite bind_lift_Ok|by rewrite bind_lift_Raise].
  unfold mbind at 1 2, M_bind at 1 2.
  pose proof (alerts_loop_frame
                (alert_of_row pd txt self client clock value_column metric
                              use_ai_analysis)
                0 (iterrows (boolean_index results (eq_True <$> flags))) [] w)
    as Hframe.
  destruct (alerts_loop _ 0 _ [] w) as [[alerts0|e] w1]; simpl in Hframe.
  - split.
    { simpl. apply Hframe. intros k r w0.
      destruct (alert_of_row_result pd txt self client clock value_column
                  metric use_ai_analysis k r w0)
        as [(e & -> & _)|(spec & -> & _)]; done. }
    intros alerts df' w' [= <- <- <-].
    destruct (detect_inv _ _ _ _ _ _ Hdet)
      as (X & Xs & ps & ss & _ & Hprep & _).
    destruct (prepare_features_frame _ _ _ _ _ Hprep)
      as (_ & Hrows & Hcols & _).
    destruct (prepare_features_inv _ _ _ _ _ Hprep)
      as (col & vals & change & extra & _ & _ & _ & Hdate).
    destruct (get climate_data "date") as [dates|] eqn:Hd.
    + destruct Hdate as (ts & Hts & ->).
      split; [by eapply columns_set_present|].
      split; [done|]. split; [done|].
      exists ts. split; [done|]. by rewrite get_set_eq.
    + by subst d.
  - split; [|done].
    simpl. apply Hframe. intros k r w0.
    destruct (alert_of_row_result pd txt self client clock value_column
                metric use_ai_analysis k r w0)
      as [(e' & -> & _)|(spec & -> & _)]; done.
Qed.

Lemma detect_and_create_alerts_frame_witness :
  exists alerts df',
    detect_and_create_alerts Sample.pd Sample.txt Sample.service Sample.clock
      Sample.climate_data "value" "temperature" true Sample.world
    = (Ok (alerts, df'), Sample.world) /\
    columns df' = ["date"; "value"] /\
    get df' "date" = Some [Ts (Some 0%Z); Ts (Some Sample.ns_per_day)].
Proof.
  assert (exists alerts df',
            detect_and_create_alerts Sample.pd Sample.txt Sample.service
              Sample.clock Sample.climate_data "value" "temperature" true
              Sample.world
            = (Ok (alerts, df'), Sample.world)) as (alerts & df' & Hrun)
    by (do 2 eexists; vm_compute; reflexivity).
  destruct (detect_and_create_alerts_frame Sample.pd Sample.txt Sample.service
              Sample.clock Sample.climate_data "value" "temperature" true
              Sample.world) as [_ Hframe].
  destruct (Hframe alerts df' Sample.world Hrun)
    as (Hcolumns & _ & _ & Hdate).
  simpl in Hdate. destruct Hdate as (ts & Hts & Hdate).
  injection Hts as <-.
  exists alerts, df'. split; [exact Hrun|].
  split; [exact Hcolumns|exact Hdate].
Defined.

(** X18. The guards and the errors of [detect_and_create_alerts]: without a
    detector it raises [ValueError] "Anomaly detector not initialized",
    also when the client is missing too; with a detector but no client it
    raises "Cyoda client not initialized" before any detection; and an
    exception of [detect] is passed on as it is. *)
Theorem detect_and_create_alerts_errors (pd : lib) (txt : text)
    (self : ClimateAlertService.t) (clock : nat -> string)
    (climate_data : DataFrame) (value_column metric : string)
    (use_ai_analysis : bool) (w : World) :
  let run :=
    detect_and_create_alerts pd txt self clock climate_data value_column
                             metric use_ai_analysis w in
  (anomaly_detector self = None ->
     run = (Raise (ValueError "Anomaly detector not initialized"), w)) /\
  (anomaly_detector self <> None ->
   ClimateAlertService.cyoda_client self = None ->
     run = (Raise (ValueError "Cyoda client not initialized"), w)) /\
  (forall detector e,
     anomaly_detector self = Some detector ->
     ClimateAlertService.cyoda_client self <> None ->
     detect pd detector climate_data value_column = Raise e ->
     run = (Raise e, w)).
Proof.
  intros run. subst run. unfold detect_and_create_alerts.
  split; [|split].
  - by intros ->.
  - intros Hd ->. by destruct (anomaly_detector self).
  - intros detector e -> Hc ->.
    by destruct (ClimateAlertService.cyoda_client self).
Qed.

Lemma detect_and_create_alerts_errors_witness :
  detect_and_create_alerts Sample.pd Sample.txt Sample.service Sample.clock
    Sample.climate_data "temperature" "temperature" true Sample.world
  = (Raise (KeyError "temperature"), Sample.world).
Proof.
  destruct (detect_and_create_alerts_errors Sample.pd Sample.txt
              Sample.service Sample.clock Sample.climate_data "temperature"
              "temperature" true Sample.world) as (_ & _ & Hdetect).
  apply (Hdetect Sample.detector); [reflexivity|discriminate|reflexivity].
Defined.

End ServiceMore.

(** * Further properties of the feature pipeline and of detection *)

Section FeaturesMore.
Import ClimateAnomalyDetector.

Lemma is_nan_true (x : pyfloat) : is_nan x = true -> x = NaN.
Proof. by destruct x. Qed.

Lemma bfill_elem (xs : list pyfloat) (x : pyfloat) :
  x ∈ bfill xs -> x ∈ xs.
Proof.
  induction xs as [|y xs IH]; simpl; [done|].
  intros [->|Hx]%elem_of_cons; [|right; auto].
  destruct (is_nan y) eqn:Hy; [|left].
  apply is_nan_true in Hy as ->.
  destruct (bfill xs) as [|z zs] eqn:E; simpl; [left|].
  right. apply IH. left.
Qed.

Lemma ffill_from_elem (prev : pyfloat) (xs : list pyfloat) (x : pyfloat) :
  x ∈ ffill_from prev xs -> x = prev \/ x ∈ xs.
Proof.
  revert prev. induction xs as [|y xs IH]; intros prev; simpl.
  - by intros ?%elem_of_nil.
  - intros [->|Hx]%elem_of_cons.
    + destruct (is_nan y); [by left|right; left].
    + apply IH in Hx as [->|Hx]; [|right; by right].
      destruct (is_nan y); [by left|right; left].
Qed.

Lemma ffill_from_no_nan (prev : pyfloat) (xs : list pyfloat) :
  is_nan prev = false ->
  Forall (fun x => is_nan x = false) (ffill_from prev xs).
Proof.
  revert prev. induction xs as [|y xs IH]; intros prev Hprev; simpl.
  - constructor.
  - destruct (is_nan y) eqn:Hy; constructor; auto.
Qed.

Lemma bfill_head_real (xs : list pyfloat) :
  Exists (fun x => is_nan x = false) xs ->
  exists y l, bfill xs = y :: l /\ is_nan y = false.
Proof.
  induction 1 as [x xs Hx|x xs _ (y & l & IH & Hy)]; simpl.
  - rewrite Hx. eauto.
  - rewrite IH. simpl. destruct (is_nan x) eqn:Hx; eauto.
Qed.

Lemma bfill_clean (xs : list pyfloat) :
  Forall (fun x => is_nan x = false) xs -> bfill xs = xs.
Proof. induction 1 as [|x xs Hx _ IH]; simpl; [done|]. by rewrite Hx, IH. Qed.

Lemma ffill_from_clean (prev : pyfloat) (xs : list pyfloat) :
  Forall (fun x => is_nan x = false) xs -> ffill_from prev xs = xs.
Proof.
  intros Hxs. revert prev.
  induction Hxs as [|x xs Hx _ IH]; intros prev; simpl; [done|].
  by rewrite Hx, IH.
Qed.

Lemma fillna_clean (v : Q) (xs : list pyfloat) :
  Forall (fun x => is_nan x = false) xs -> fillna v xs = xs.
Proof.
  induction 1 as [|x xs Hx _ IH]; [done|]. unfold fillna in *.
  rewrite fmap_cons, Hx. by rewrite IH.
Qed.

Lemma fill_all_nan (xs : list pyfloat) :
  Forall (fun x => is_nan x = true) xs ->
  fill xs = replicate (length xs) (Real 0).
Proof.
  intros Hxs. unfold fill.
  assert (bfill xs = xs) as ->.
  { induction Hxs as [|x xs Hx Hxs IH]; simpl; [done|]. rewrite Hx, IH.
    apply is_nan_true in Hx as ->.
    destruct Hxs as [|y ys Hy _]; simpl; [done|].
    by apply is_nan_true in Hy as ->. }
  assert (forall l, Forall (fun x => is_nan x = true) l -> ffill_from NaN l = l)
    as Hff.
  { induction 1 as [|x l Hx _ IH]; simpl; [done|]. rewrite Hx, IH.
    by apply is_nan_true in Hx as ->. }
  unfold ffill. rewrite Hff by done.
  induction Hxs as [|x xs Hx _ IH]; [done|].
  unfold fillna in *. rewrite fmap_cons, Hx. simpl. by rewrite IH.
Qed.

(** X19. What the three filling steps do to a column.  A column without
    NaN is left as it is.  A column with at least one number keeps only
    numbers that it already had: every gap is closed by a neighbouring
    observation and no zero is invented.  Only a column that is NaN
    throughout becomes the zero column. *)
Theorem fill_spec (xs : list pyfloat) :
  (Forall (fun x => is_nan x = false) xs -> fill xs = xs) /\
  (Exists (fun x => is_nan x = false) xs ->
     forall x, x ∈ fill xs -> x ∈ xs /\ is_nan x = false) /\
  (Forall (fun x => is_nan x = true) xs ->
     fill xs = replicate (length xs) (Real 0)).
Proof.
  split; [|split].
  - intros Hxs. unfold fill, ffill.
    by rewrite bfill_clean, ffill_from_clean, fillna_clean.
  - intros Hex x Hx. unfold fill, ffill in Hx.
    destruct (bfill_head_real xs Hex) as (y & l & Hb & Hy).
    assert (Forall (fun z => is_nan z = false) (ffill_from NaN (bfill xs)))
      as Hclean.
    { rewrite Hb. simpl. rewrite Hy. constructor; [done|].
      by apply ffill_from_no_nan. }
    rewrite fillna_clean in Hx by done.
    split; [|by rewrite Forall_forall in Hclean; apply Hclean].
    rewrite Forall_forall in Hclean. pose proof (Hclean x Hx) as Hreal.
    apply ffill_from_elem in Hx as [->|Hx]; [done|].
    by apply bfill_elem.
  - apply fill_all_nan.
Qed.

Lemma fill_spec_witness :
  Real 6 ∈ [NaN; Real 4; NaN; Real 6; NaN] /\ is_nan (Real 6) = false.
Proof.
  destruct (fill_spec [NaN; Real 4; NaN; Real 6; NaN]) as (_ & Hsome & _).
  apply Hsome.
  - apply Exists_cons_tl, Exists_cons_hd. reflexivity.
  - cbn. do 2 right. left.
Defined.

Lemma rolling_short (w : nat) (agg : list Q -> pyfloat) (xs : list pyfloat) :
  (length xs < w)%nat -> Forall (fun x => is_nan x = true) (rolling w agg xs).
Proof.
  intros Hlen. unfold rolling. apply Forall_fmap, Forall_forall.
  intros i Hi%elem_of_seq. simpl. unfold window_at.
  destruct (Nat.ltb_spec (i + 1) w); [done|lia].
Qed.

(** X20. Short inputs give degenerate rolling features: on a frame with
    fewer rows than a window (7, 14 or 30), the rolling mean and the
    rolling standard deviation of that window are zero in every row. *)
Theorem prepare_features_short_input (pd : lib) (df : DataFrame)
    (value_column : string) (X : frame pyfloat) (df' : DataFrame) (w : nat) :
  rectangular df ->
  prepare_features pd df value_column = Ok (X, df') ->
  w ∈ [7; 14; 30]%nat ->
  (nrows df < w)%nat ->
  get X ("rolling_mean_" +:+ pretty w) = Some (replicate (nrows df) (Real 0)) /\
  get X ("rolling_std_" +:+ pretty w) = Some (replicate (nrows df) (Real 0)).
Proof.
  intros Hrect Hrun Hw Hshort.
  destruct (prepare_features_inv _ _ _ _ _ Hrun)
    as (col & values & change & extra & Hcol & Hnum & -> & _).
  assert (length values = nrows df) as Hlen.
  { rewrite (mapM_Ok_length _ _ _ Hnum). by eapply rectangular_get. }
  rewrite !get_each_column.
  assert (forall agg, fill (rolling w agg values)
                      = replicate (nrows df) (Real 0)) as Hzero.
  { intros agg. rewrite fill_all_nan by (apply rolling_short; lia).
    by rewrite length_rolling, Hlen. }
  repeat (apply elem_of_cons in Hw as [->|Hw]);
    [| | |by apply elem_of_nil in Hw];
    split; simpl; by rewrite Hzero.
Qed.

Lemma prepare_features_short_input_witness :
  exists X df',
    prepare_features Sample.pd Sample.climate_data "value" = Ok (X, df') /\
    get X "rolling_mean_7" = Some [Real 0; Real 0].
Proof.
  assert (exists X df',
            prepare_features Sample.pd Sample.climate_data "value"
            = Ok (X, df')) as (X & df' & Hrun)
    by (do 2 eexists; reflexivity).
  destruct (prepare_features_short_input Sample.pd Sample.climate_data "value"
              X df' 7) as [Hmean _].
  - repeat constructor.
  - exact Hrun.
  - set_solver.
  - simpl. lia.
  - exists X, df'. split; [exact Hrun|exact Hmean].
Defined.

(** X28. Whatever the value column holds, a feature matrix that
    [prepare_features] returns has no NaN entry, and its first eight
    columns are the value, the six rolling columns and the daily change:
    every column passes through the three filling steps, also when pandas
    reads a value column of booleans or strings. *)
Theorem prepare_features_never_nan (pd : lib) (df : DataFrame)
    (value_column : string) (X : frame pyfloat) (df' : DataFrame) :
  prepare_features pd df value_column = Ok (X, df') ->
  Forall (fun nc => Forall (fun x => is_nan x = false) nc.2) X /\
  exists rest, columns X = (value_feature_names ++ rest)%list.
Proof.
  intros Hrun.
  destruct (prepare_features_inv _ _ _ _ _ Hrun)
    as (col & values & change & extra & _ & _ & -> & _).
  split.
  - unfold each_column. apply Forall_fmap, Forall_true.
    intros [n c]. apply fill_no_nan.
  - exists (columns extra). unfold columns, each_column.
    rewrite <- list_fmap_compose, fmap_app. reflexivity.
Qed.

Lemma prepare_features_never_nan_witness :
  exists X df',
    prepare_features Sample.pd Sample.climate_data "value" = Ok (X, df') /\
    Forall (fun nc => Forall (fun x => is_nan x = false) nc.2) X.
Proof.
  assert (exists X df',
            prepare_features Sample.pd Sample.climate_data "value"
            = Ok (X, df')) as (X & df' & Hrun)
    by (do 2 eexists; reflexivity).
  exists X, df'. split; [exact Hrun|].
  exact (proj1 (prepare_features_never_nan _ _ _ _ _ Hrun)).
Defined.

(** X21. [detect] checks the fitted flag first: an unfitted detector raises
    [ValueError] "Model not trained yet!" on every frame, even one without
    the value column; a fitted one raises [KeyError] for a missing value
    column, and passes on an exception of the scaler or of the model. *)
Theorem detect_errors (pd : lib) (self : t) (df : DataFrame)
    (value_column : string) :
  (fitted self = false ->
     detect pd self df value_column
     = Raise (ValueError "Model not trained yet!")) /\
  (fitted self = true -> get df value_column = None ->
     detect pd self df value_column = Raise (KeyError value_column)) /\
  (forall X df' e,
     fitted self = true ->
     prepare_features pd df value_column = Ok (X, df') ->
     transform (scaler self) X = Raise e ->
     detect pd self df value_column = Raise e) /\
  (forall X df' X_scaled e,
     fitted self = true ->
     prepare_features pd df value_column = Ok (X, df') ->
     transform (scaler self) X = Ok X_scaled ->
     predict (model self) X_scaled = Raise e ->
     detect pd self df value_column = Raise e).
Proof.
  unfold detect. split; [|split; [|split]].
  - by intros ->.
  - intros -> Hcol. unfold prepare_features. by rewrite Hcol.
  - intros X df' e -> -> Ht. simpl. by rewrite Ht.
  - intros X df' Xs e -> -> Ht Hp. simpl. rewrite Ht. simpl. by rewrite Hp.
Qed.

Lemma detect_errors_witness :
  detect Sample.pd Sample.detector Sample.climate_data "temperature"
  = Raise (KeyError "temperature").
Proof.
  destruct (detect_errors Sample.pd Sample.detector Sample.climate_data
              "temperature") as (_ & Hmissing & _).
  apply Hmissing; reflexivity.
Defined.

End FeaturesMore.

(** * The threshold detector *)

Section Thresholds.
Import TemperatureThresholdDetector.

Lemma less_irrefl_pair (x lo hi : pyfloat) (a b : Q) :
  lo = Real a -> hi = Real b -> (a <= b)%Q ->
  less x lo && less hi x = false.
Proof.
  intros -> -> Hab. destruct x as [q|]; [|done]. simpl.
  destruct (Qlt_le_dec q a), (Qlt_le_dec b q); try done. lra.
Qed.

(** X22. The protocol of the threshold detector.  A detector that has no
    upper threshold yet raises [ValueError] in [detect] unless [fit] ran to
    its end: a [fit] that raises leaves it unfitted, even when the lower
    threshold was already computed and stored.  After a [fit] that returns,
    [detect] returns on every input, with the two percentiles of the
    training data as thresholds. *)
Theorem threshold_fit_then_detect (np : numpy) (self self' : t)
    (training : list pyfloat) (r : result unit) :
  upper_threshold self = None ->
  fit np self training = (r, self') ->
  (forall data,
     detect self data = Raise (ValueError "Detector not fitted yet!")) /\
  (r <> Ok tt ->
     forall data,
       detect self' data = Raise (ValueError "Detector not fitted yet!")) /\
  (r = Ok tt ->
     exists lower upper,
       percentile np training (lower_percentile self) = Ok lower /\
       percentile np training (upper_percentile self) = Ok upper /\
       forall data, exists res,
         detect self' data = Ok res /\
         res !! "lower_threshold" = Some (PFloat lower) /\
         res !! "upper_threshold" = Some (PFloat upper)).
Proof.
  intros Hup Hfit. unfold fit in Hfit. split; [|split].
  - intros data. unfold detect. rewrite Hup. by destruct (lower_threshold self).
  - intros Hr data.
    destruct (percentile np training (lower_percentile self)) as [lo|e].
    + simpl in Hfit.
      destruct (percentile np training (upper_percentile self)) as [hi|e].
      * by injection Hfit as <- _.
      * injection Hfit as _ <-. unfold detect. simpl. by rewrite Hup.
    + injection Hfit as _ <-. unfold detect. rewrite Hup.
      by destruct (lower_threshold self).
  - intros ->.
    destruct (percentile np training (lower_percentile self)) as [lo|e];
      [|by injection Hfit].
    simpl in Hfit.
    destruct (percentile np training (upper_percentile self)) as [hi|e];
      [|by injection Hfit].
    injection Hfit as <-. exists lo, hi. split; [done|]. split; [done|].
    intros data. eexists. split; [reflexivity|]. by split.
Qed.

Lemma threshold_fit_then_detect_witness :
  exists res,
    detect (fit Sample.np (new 5 95) [Real 12; Real 31; Real 8]).2
           [Real 9; Real 20; NaN; Real 35] = Ok res /\
    res !! "lower_threshold" = Some (PFloat (Real 10)).
Proof.
  destruct (threshold_fit_then_detect Sample.np (new 5 95)
              (fit Sample.np (new 5 95) [Real 12; Real 31; Real 8]).2
              [Real 12; Real 31; Real 8] (Ok tt) eq_refl eq_refl)
    as (_ & _ & Hfitted).
  destruct (Hfitted eq_refl) as (lower & upper & Hlo & _ & Hdetect).
  destruct (Hdetect [Real 9; Real 20; NaN; Real 35]) as (res & Hres & Hl & _).
  exists res. split; [exact Hres|].
  injection Hlo as <-. exact Hl.
Defined.

(** X23. What [detect] of the threshold detector flags.  The three arrays
    have one entry for each reading; the third is the disjunction of the
    other two; a NaN reading is never flagged; a reading between the
    thresholds is not flagged; when the lower threshold is not above the
    upper one, no reading is both cold and hot. *)
Theorem threshold_detect_flags (self : t) (data : list pyfloat)
    (res : pydict) :
  detect self data = Ok res ->
  exists lower upper cold hot any,
    lower_threshold self = Some lower /\
    upper_threshold self = Some upper /\
    res !! "is_cold_anomaly" = Some (PList (PBool <$> cold)) /\
    res !! "is_hot_anomaly" = Some (PList (PBool <$> hot)) /\
    res !! "is_any_anomaly" = Some (PList (PBool <$> any)) /\
    length cold = length data /\
    length hot = length data /\
    length any = length data /\
    (forall i x, data !! i = Some x ->
       cold !! i = Some (less x lower) /\
       hot !! i = Some (less upper x) /\
       any !! i = Some (less x lower || less upper x)) /\
    (forall i, data !! i = Some NaN -> any !! i = Some false) /\
    (forall i q a b,
       data !! i = Some (Real q) -> lower = Real a -> upper = Real b ->
       (a <= q)%Q -> (q <= b)%Q -> any !! i = Some false) /\
    (forall a b,
       lower = Real a -> upper = Real b -> (a <= b)%Q ->
       forall i, ~ (cold !! i = Some true /\ hot !! i = Some true)).
Proof.
  unfold detect. intros Hrun.
  destruct (lower_threshold self) as [lower|]; [|done].
  destruct (upper_threshold self) as [upper|]; [|done].
  injection Hrun as <-.
  set (cold := (fun x => less x lower) <$> data).
  set (hot := (fun x => less upper x) <$> data).
  assert (forall i x, data !! i = Some x ->
            cold !! i = Some (less x lower) /\
            hot !! i = Some (less upper x) /\
            zip_with orb cold hot !! i
            = Some (less x lower || less upper x)) as Hat.
  { intros i x Hx. unfold cold, hot.
    rewrite lookup_zip_with, !list_lookup_fmap, Hx. by simpl. }
  exists lower, upper, cold, hot, (zip_with orb cold hot).
  do 5 (split; [done|]).
  assert (length cold = length data) as Hc
    by (unfold cold; by rewrite length_fmap).
  assert (length hot = length data) as Hh
    by (unfold hot; by rewrite length_fmap).
  split; [done|]. split; [done|].
  split; [rewrite length_zip_with; lia|].
  split; [done|]. split; [|split].
  - intros i Hx. destruct (Hat i NaN Hx) as (_ & _ & ->). simpl.
    by destruct upper.
  - intros i q a b Hx -> -> Ha Hb.
    destruct (Hat i (Real q) Hx) as (_ & _ & ->). simpl.
    destruct (Qlt_le_dec q a), (Qlt_le_dec b q); try done; lra.
  - intros a b Hl Hu Hab i [Hcold Hhot].
    destruct (data !! i) as [x|] eqn:Hx.
    + destruct (Hat i x Hx) as (Hc' & Hh' & _).
      pose proof (less_irrefl_pair x lower upper a b Hl Hu Hab) as Hno.
      rewrite Hc' in Hcold. rewrite Hh' in Hhot.
      injection Hcold as Hcold. injection Hhot as Hhot.
      by rewrite Hcold, Hhot in Hno.
    + apply lookup_ge_None in Hx.
      assert (cold !! i = None) as Hnone by (apply lookup_ge_None; lia).
      by rewrite Hnone in Hcold.
Qed.

Lemma threshold_detect_flags_witness :
  exists res any,
    detect (fit Sample.np (new 5 95) [Real 12; Real 31; Real 8]).2
           [Real 9; Real 20; NaN; Real 35] = Ok res /\
    res !! "is_any_anomaly" = Some (PList (PBool <$> any)) /\
    any !! 2%nat = Some false.
Proof.
  assert (exists res,
            detect (fit Sample.np (new 5 95) [Real 12; Real 31; Real 8]).2
                   [Real 9; Real 20; NaN; Real 35] = Ok res) as [res Hres]
    by (eexists; reflexivity).
  destruct (threshold_detect_flags _ _ res Hres)
    as (lower & upper & cold & hot & any & _ & _ & _ & _ & Hany & _ & _ & _
        & _ & Hnan & _).
  exists res, any. split; [exact Hres|]. split; [exact Hany|].
  apply Hnan. reflexivity.
Defined.

End Thresholds.

(** * Loading the model *)

Section LoadingModel.
Import ClimateAnomalyDetector Loading.

Lemma load_model_cases (jl : joblib) (self : ClimateAnomalyDetector.t)
    (model_path scaler_path : string) :
  (exists m sc,
     load_forest jl model_path = Ok m /\ load_scaler jl scaler_path = Ok sc /\
     load_model jl self model_path scaler_path
     = (Ok tt, {| model := m; scaler := sc; fitted := true |})) \/
  (~ (exists m sc, load_forest jl model_path = Ok m /\
                   load_scaler jl scaler_path = Ok sc) /\
   exists e self',
     load_model jl self model_path scaler_path = (Raise e, self') /\
     fitted self' = fitted self).
Proof.
  unfold load_model.
  destruct (load_forest jl model_path) as [m|e] eqn:Hm.
  - destruct (load_scaler jl scaler_path) as [sc|e] eqn:Hsc.
    + left. by exists m, sc.
    + right. split; [by intros (? & ? & _ & ?)|].
      by eexists _, _.
  - right. split; [by intros (? & ? & ? & _)|].
    by eexists _, _.
Qed.

(** X24. The service that [get_alert_service] builds always has the module's
    Cyoda client.  It has a detector exactly when the detector module
    imports and both model files load, and that detector is fitted and
    holds the loaded model and scaler.  Once built, the service is kept:
    later calls return it whatever the environment has become. *)
Theorem get_alert_service_spec (env : environment)
    (service : ClimateAlertService.t)
    (alert_service : option ClimateAlertService.t) :
  get_alert_service env None = (Ok service, alert_service) ->
  alert_service = Some service /\
  ClimateAlertService.cyoda_client service = Some AlertRoutes.cyoda_client /\
  (model_loads env ->
     exists d,
       ClimateAlertService.anomaly_detector service = Some d /\
       fitted d = true /\
       load_forest (jl env) "models/anomaly_model.pkl" = Ok (model d) /\
       load_scaler (jl env) "models/anomaly_scaler.pkl" = Ok (scaler d)) /\
  (~ model_loads env ->
     ClimateAlertService.anomaly_detector service = None) /\
  (forall env',
     get_alert_service env' alert_service = (Ok service, alert_service)).
Proof.
  unfold get_alert_service. intros Hrun.
  destruct (import_anomaly_detector env) eqn:Himp; [| |done].
  - destruct (load_model_cases (jl env) (new (sk env) (1 # 10) 42)
                "models/anomaly_model.pkl" "models/anomaly_scaler.pkl")
      as [(m & sc & Hm & Hsc & Hload)|(Hno & e & self' & Hload & _)];
      rewrite Hload in Hrun; injection Hrun as <- <-.
    + split; [done|]. split; [done|]. split; [|split; [|done]].
      * intros _. by eexists.
      * intros []. split; [done|]. by exists m, sc.
    + split; [done|]. split; [done|]. split; [|split; [|done]].
      * by intros [_ ?].
      * done.
  - injection Hrun as <- <-.
    split; [done|]. split; [done|]. split; [|split; [|done]].
    + unfold model_loads. rewrite Himp. by intros [? _].
    + done.
Qed.

Lemma get_alert_service_spec_witness :
  exists service d,
    get_alert_service (Sample.env Sample.files_present) None
    = (Ok service, Some service) /\
    ClimateAlertService.anomaly_detector service = Some d /\
    fitted d = true.
Proof.
  assert (exists service,
            get_alert_service (Sample.env Sample.files_present) None
            = (Ok service, Some service)) as [service Hrun]
    by (eexists; reflexivity).
  destruct (get_alert_service_spec _ service (Some service) Hrun)
    as (_ & _ & Hloads & _).
  destruct Hloads as (d & Hd & Hfit & _).
  - split; [reflexivity|]. by eexists _, _.
  - by exists service, d.
Defined.

(** X25. Without a model, alert detection is refused before anything is
    read: when the model does not load, the service of [get_alert_service]
    makes [detect_and_create_alerts] raise [ValueError] "Anomaly detector
    not initialized" on every input, and nothing is stored or cached. *)
Theorem service_without_model (env : environment)
    (service : ClimateAlertService.t)
    (alert_service : option ClimateAlertService.t)
    (pd : lib) (txt : ClimateAlertService.text) (clock : nat -> string)
    (climate_data : DataFrame) (value_column metric : string)
    (use_ai_analysis : bool) (w : World) :
  get_alert_service env None = (Ok service, alert_service) ->
  ~ model_loads env ->
  ClimateAlertService.detect_and_create_alerts pd txt service clock
    climate_data value_column metric use_ai_analysis w
  = (Raise (ValueError "Anomaly detector not initialized"), w).
Proof.
  intros Hrun Hno.
  assert (ClimateAlertService.anomaly_detector service = None) as Hnone.
  { revert Hrun. unfold get_alert_service.
    destruct (import_anomaly_detector env) eqn:Himp; [| |done].
    - destruct (load_model_cases (jl env) (new (sk env) (1 # 10) 42)
                  "models/anomaly_model.pkl" "models/anomaly_scaler.pkl")
        as [(m & sc & Hm & Hsc & Hload)|(_ & e & self' & Hload & _)];
        rewrite Hload; intros Hrun; injection Hrun as <- _; [|done].
      destruct Hno. split; [done|]. by exists m, sc.
    - by intros Hrun; injection Hrun as <- _. }
  unfold ClimateAlertService.detect_and_create_alerts. by rewrite Hnone.
Qed.

Lemma service_without_model_witness :
  exists service,
    get_alert_service (Sample.env Sample.scaler_file_missing) None
    = (Ok service, Some service) /\
    ClimateAlertService.detect_and_create_alerts Sample.pd Sample.txt service
      Sample.clock Sample.climate_data "value" "temperature" true Sample.world
    = (Raise (ValueError "Anomaly detector not initialized"), Sample.world).
Proof.
  assert (exists service,
            get_alert_service (Sample.env Sample.scaler_file_missing) None
            = (Ok service, Some service)) as [service Hrun]
    by (eexists; reflexivity).
  exists service. split; [exact Hrun|].
  apply (service_without_model (Sample.env Sample.scaler_file_missing)
           service (Some service)); [exact Hrun|].
  intros [_ (m & sc & _ & Hsc)]. discriminate Hsc.
Defined.

(** X26. [load_anomaly_detector] of the machine-learning routes never
    returns [None].  When the model files do not load, it returns, and
    keeps for all later calls, an unfitted detector, on which every
    [detect] raises [ValueError] "Model not trained yet!"; when they load,
    the detector is fitted. *)
Theorem load_anomaly_detector_unfitted (env : environment)
    (returned anomaly_detector : option ClimateAnomalyDetector.t) :
  load_anomaly_detector env None = (returned, anomaly_detector) ->
  returned = anomaly_detector /\
  (forall env',
     load_anomaly_detector env' anomaly_detector
     = (returned, anomaly_detector)) /\
  exists d,
    returned = Some d /\
    (files_load env -> fitted d = true) /\
    (~ files_load env ->
       fitted d = false /\
       forall pd df value_column,
         detect pd d df value_column
         = Raise (ValueError "Model not trained yet!")).
Proof.
  unfold load_anomaly_detector. intros Hrun.
  destruct (load_model_cases (jl env) (new (sk env) (1 # 10) 42)
              "models/anomaly_model.pkl" "models/anomaly_scaler.pkl")
    as [(m & sc & Hm & Hsc & Hload)|(Hno & e & self' & Hload & Hfit)];
    rewrite Hload in Hrun; injection Hrun as <- <-.
  - split; [done|]. split; [done|]. eexists. split; [done|].
    split; [done|]. intros []. by exists m, sc.
  - split; [done|]. split; [done|]. exists self'. split; [done|].
    split; [by intros ?|]. intros _. simpl in Hfit. split; [done|].
    intros pd df vc. unfold detect. by rewrite Hfit.
Qed.

Lemma load_anomaly_detector_unfitted_witness :
  exists d,
    load_anomaly_detector (Sample.env Sample.scaler_file_missing) None
    = (Some d, Some d) /\
    detect Sample.pd d Sample.climate_data "value"
    = Raise (ValueError "Model not trained yet!").
Proof.
  assert (exists d,
            load_anomaly_detector (Sample.env Sample.scaler_file_missing) None
            = (Some d, Some d)) as [d Hrun]
    by (eexists; reflexivity).
  destruct (load_anomaly_detector_unfitted _ (Some d) (Some d) Hrun)
    as (_ & _ & d' & Hd & _ & Hunfit).
  injection Hd as <-.
  exists d. split; [exact Hrun|].
  apply Hunfit. intros (m & sc & _ & Hsc). discriminate Hsc.
Defined.

End LoadingModel.

(** * The classification route *)

Section Classify.
Import Loading.




Example classify_alert_integer_overflow :
  AlertRoutes.status_code
    (classify_alert Sample.txt (fun _ => "error")
       (PDict (list_to_map [("value", PInt (10 ^ 400))]))) = 500%Z.
Proof. vm_compute. reflexivity. Qed.

End Classify.

